(** * tingly-box: request routing and protocol translation

    A shallow embedding of the gateway's smart router
    ([internal/smart_routing]), of the OpenAI/Anthropic adaptor
    ([pkg/adaptor], [internal/protocol/stream]), of the count-tokens
    handler ([internal/server]) and of the encrypted configuration store
    ([internal/config]), followed by the properties the specification
    states about them.

    Go strings are byte strings: they are modelled by [string] (a list of
    8-bit [ascii]), [len] by [String.length].  Go's [int] is 64 bits wide
    and is modelled by [Z]; the only place its range matters is
    [strconv.Atoi], which checks it. *)

From Stdlib Require Import ZArith Lia List Bool Ascii String.
From stdpp Require Import base tactics option list gmap strings pretty sorting.
Import ListNotations.

Set Warnings "-register-all".

#[local] Open Scope Z_scope.

(** ** Results of fallible calls: Go's [(value, error)] pairs *)

Inductive result (A : Type) : Type :=
| Ok (a : A)
| Err (msg : string).
Arguments Ok {A} a.
Arguments Err {A} msg.

Definition is_Ok {A} (r : result A) : bool :=
  match r with Ok _ => true | Err _ => false end.

(** Go's [error]: [None] is nil. *)
Definition error : Type := option string.

(** ** The parts of Go's [strings], [strconv] and [unicode/utf8] the code uses *)

Module strings.

Fixpoint HasPrefix (s prefix : string) : bool :=
  match prefix, s with
  | EmptyString, _ => true
  | String p prefix', String c s' => Ascii.eqb c p && HasPrefix s' prefix'
  | String _ _, EmptyString => false
  end.

(** [strings.Contains]: [substr] occurs in [s] at some offset. *)
Fixpoint Contains (s substr : string) : bool :=
  HasPrefix s substr
  || match s with
     | EmptyString => false
     | String _ s' => Contains s' substr
     end.

(** [strings.Join]. *)
Fixpoint Join (elems : list string) (sep : string) : string :=
  match elems with
  | [] => EmptyString
  | [x] => x
  | x :: rest => String.append x (String.append sep (Join rest sep))
  end.

Definition lowerByte (c : ascii) : ascii :=
  let n := nat_of_ascii c in
  if ((65 <=? n) && (n <=? 90))%nat then ascii_of_nat (n + 32) else c.

(** [strings.ToLower] on the ASCII range.  The router only compares the
    result with the words true and yes; no rune outside ASCII lower-cases
    to one of their letters, so on those comparisons the byte-wise
    function agrees with Go's Unicode-aware one. *)
Fixpoint ToLower (s : string) : string :=
  match s with
  | EmptyString => EmptyString
  | String c s' => String (lowerByte c) (ToLower s')
  end.

(** The bytes of [s] in reverse order. *)
Fixpoint reverseOnto (s acc : string) : string :=
  match s with
  | EmptyString => acc
  | String c s' => reverseOnto s' (String c acc)
  end.

Definition reverse (s : string) : string := reverseOnto s EmptyString.

Fixpoint dropPrefix (n : nat) (s : string) : string :=
  match n, s with
  | O, _ => s
  | S n', String _ s' => dropPrefix n' s'
  | S _, EmptyString => EmptyString
  end.

Definition byteValue (c : ascii) : Z := Z.of_nat (nat_of_ascii c).

(** The third byte of the three-byte encodings of white space that start
    with E2 80: U+2000 to U+200A, U+2028, U+2029 and U+202F. *)
Definition generalPunctuationSpace (z : Z) : bool :=
  ((128 <=? z) && (z <=? 138)) || (z =? 168) || (z =? 169) || (z =? 175).

(** Width in bytes of the white-space rune that starts [s], 0 when [s]
    does not start with one.  White space is what [unicode.IsSpace]
    accepts: U+0009 to U+000D, U+0020, U+0085, U+00A0, U+1680, U+2000 to
    U+200A, U+2028, U+2029, U+202F, U+205F and U+3000, in UTF-8. *)
Definition spaceWidth (s : string) : nat :=
  match s with
  | EmptyString => 0
  | String b0 rest =>
      let x := byteValue b0 in
      if ((9 <=? x) && (x <=? 13)) || (x =? 32) then 1%nat
      else
        match rest with
        | EmptyString => 0%nat
        | String b1 rest1 =>
            let y := byteValue b1 in
            if (x =? 194) && ((y =? 133) || (y =? 160)) then 2%nat
            else
              match rest1 with
              | EmptyString => 0%nat
              | String b2 _ =>
                  let z := byteValue b2 in
                  if (x =? 225) && (y =? 154) && (z =? 128) then 3%nat
                  else if (x =? 226) && (y =? 128) && generalPunctuationSpace z then 3%nat
                  else if (x =? 226) && (y =? 129) && (z =? 159) then 3%nat
                  else if (x =? 227) && (y =? 128) && (z =? 128) then 3%nat
                  else 0%nat
              end
        end
  end.

(** The same for the white-space rune that ends a string, given the
    bytes of the string in reverse order. *)
Definition spaceWidthLast (reversed : string) : nat :=
  match reversed with
  | EmptyString => 0
  | String b0 rest =>
      let z := byteValue b0 in
      if ((9 <=? z) && (z <=? 13)) || (z =? 32) then 1%nat
      else
        match rest with
        | EmptyString => 0%nat
        | String b1 rest1 =>
            let y := byteValue b1 in
            if (y =? 194) && ((z =? 133) || (z =? 160)) then 2%nat
            else
              match rest1 with
              | EmptyString => 0%nat
              | String b2 _ =>
                  let x := byteValue b2 in
                  if (x =? 225) && (y =? 154) && (z =? 128) then 3%nat
                  else if (x =? 226) && (y =? 128) && generalPunctuationSpace z then 3%nat
                  else if (x =? 226) && (y =? 129) && (z =? 159) then 3%nat
                  else if (x =? 227) && (y =? 128) && (z =? 128) then 3%nat
                  else 0%nat
              end
        end
  end.

Fixpoint trimWith (width : string -> nat) (fuel : nat) (s : string) : string :=
  match fuel with
  | O => s
  | S fuel' =>
      match width s with
      | O => s
      | w => trimWith width fuel' (dropPrefix w s)
      end
  end.

(** [strings.TrimSpace]: the white-space runes at the start and at the
    end of [s] are cut off.  Every turn removes at least one byte, so
    [String.length s] turns suffice. *)
Definition TrimSpace (s : string) : string :=
  let s := trimWith spaceWidth (String.length s) s in
  reverse (trimWith spaceWidthLast (String.length s) (reverse s)).

(** The loop of [strings.Fields]: [skip] bytes of a white-space rune are
    still to be passed over, [field] is the field read so far. *)
Fixpoint fieldsFrom (skip : nat) (field : string) (s : string) : list string :=
  match s with
  | EmptyString => if String.eqb field "" then [] else [field]
  | String c s' =>
      match skip with
      | S skip' => fieldsFrom skip' field s'
      | O =>
          match spaceWidth s with
          | O => fieldsFrom 0 (String.append field (String c EmptyString)) s'
          | S skip' =>
              (if String.eqb field "" then [] else [field]) ++ fieldsFrom skip' EmptyString s'
          end
      end
  end.

(** [strings.Fields]: the pieces of [s] between runs of white space. *)
Definition Fields (s : string) : list string := fieldsFrom 0 EmptyString s.

(** [strings.Split] with a separator of one byte, which is what every
    call in the sources passes: the pieces between the separators, one
    more than there are separators. *)
Fixpoint Split (s : string) (sep : ascii) : list string :=
  match s with
  | EmptyString => [EmptyString]
  | String c s' =>
      if Ascii.eqb c sep then EmptyString :: Split s' sep
      else
        match Split s' sep with
        | piece :: pieces => String c piece :: pieces
        | [] => [String c EmptyString]
        end
  end.

End strings.

Module strconv.

Definition maxInt : Z := 2 ^ 63 - 1.
Definition minInt : Z := - 2 ^ 63.

Definition digitVal (c : ascii) : option Z :=
  let n := Z.of_nat (nat_of_ascii c) in
  if (48 <=? n) && (n <=? 57) then Some (n - 48) else None.

Fixpoint parseDigits (s : string) (acc : Z) : option Z :=
  match s with
  | EmptyString => Some acc
  | String c s' =>
      match digitVal c with
      | Some d => parseDigits s' (10 * acc + d)
      | None => None
      end
  end.

(** [strconv.Atoi]: an optional sign, then one or more decimal digits;
    a value outside the 64-bit [int] range is an error. *)
Definition Atoi (s : string) : option Z :=
  let '(neg, body) :=
    match s with
    | String "+"%char r => (false, r)
    | String "-"%char r => (true, r)
    | _ => (false, s)
    end in
  match body with
  | EmptyString => None
  | _ =>
      match parseDigits body 0 with
      | Some n =>
          let v := if neg then - n else n in
          if (minInt <=? v) && (v <=? maxInt) then Some v else None
      | None => None
      end
  end.

End strconv.

Module utf8.

Definition byteOf (c : ascii) : Z := Z.of_nat (nat_of_ascii c).

Definition inRange (lo hi : Z) (c : ascii) : bool :=
  (lo <=? byteOf c) && (byteOf c <=? hi).

(** Width in bytes of the encoding that starts [s], following
    [utf8.DecodeRuneInString]: a byte that does not start a well-formed
    encoding is one rune (the replacement rune) of width 1. *)
Definition runeWidth (s : string) : nat :=
  match s with
  | EmptyString => 0
  | String b0 rest =>
      let x := byteOf b0 in
      if x <? 128 then 1%nat
      else if (194 <=? x) && (x <=? 223) then
        match rest with
        | String b1 _ => if inRange 128 191 b1 then 2%nat else 1%nat
        | _ => 1%nat
        end
      else if (224 <=? x) && (x <=? 239) then
        let lo := if x =? 224 then 160 else 128 in
        let hi := if x =? 237 then 159 else 191 in
        match rest with
        | String b1 (String b2 _) =>
            if inRange lo hi b1 && inRange 128 191 b2 then 3%nat else 1%nat
        | _ => 1%nat
        end
      else if (240 <=? x) && (x <=? 244) then
        let lo := if x =? 240 then 144 else 128 in
        let hi := if x =? 244 then 143 else 191 in
        match rest with
        | String b1 (String b2 (String b3 _)) =>
            if inRange lo hi b1 && inRange 128 191 b2 && inRange 128 191 b3
            then 4%nat else 1%nat
        | _ => 1%nat
        end
      else 1%nat
  end.

Fixpoint dropBytes (n : nat) (s : string) : string :=
  match n, s with
  | O, _ => s
  | S n', String _ s' => dropBytes n' s'
  | S _, EmptyString => EmptyString
  end.

Fixpoint countRunes (fuel : nat) (s : string) : Z :=
  match fuel with
  | O => 0
  | S fuel' =>
      match s with
      | EmptyString => 0
      | _ => 1 + countRunes fuel' (dropBytes (runeWidth s) s)
      end
  end.

(** [utf8.RuneCountInString]: the number of code points of [s].  Every
    step consumes at least one byte, so [String.length s] steps suffice. *)
Definition RuneCountInString (s : string) : Z :=
  countRunes (String.length s) s.

End utf8.

(** ** [github.com/valyala/fastjson]: parsed JSON values

    The request parser reads the body through fastjson.  Its parser and its
    printer are not part of the repository: they are the two operations of
    the class [FastJSON].  The accessors below work on parsed values; an
    object keeps its members in source order and a lookup returns the first
    member with the key, as [Object.Get] does. *)

Module fastjson.

Inductive Value : Type :=
| Null
| True_
| False_
| Number (raw : string)
| String_ (s : string)
| Array (a : list Value)
| Object (kvs : list (string * Value)).

Class FastJSON : Type := {
  (** [Parser.ParseBytes]: [Err] on malformed input. *)
  ParseBytes : string -> result Value;
  (** [Value.MarshalTo(nil)]: the JSON text of a value. *)
  MarshalTo : Value -> string;
}.

Fixpoint Object_Get (kvs : list (string * Value)) (key : string) : option Value :=
  match kvs with
  | [] => None
  | (k, v) :: rest => if String.eqb k key then Some v else Object_Get rest key
  end.

(** [Value.Get(key)] with one key: a member of an object, or the element
    of an array whose index the key spells in decimal. *)
Definition Get (v : Value) (key : string) : option Value :=
  match v with
  | Object kvs => Object_Get kvs key
  | Array a =>
      match strconv.Atoi key with
      | Some n => if n <? 0 then None else nth_error a (Z.to_nat n)
      | None => None
      end
  | _ => None
  end.

Definition StringBytes (v : Value) : option string :=
  match v with String_ s => Some s | _ => None end.

Definition Object_of (v : Value) : option (list (string * Value)) :=
  match v with Object kvs => Some kvs | _ => None end.

Definition Array_of (v : Value) : option (list Value) :=
  match v with Array a => Some a | _ => None end.

(** [Value.GetStringBytes(key)]: [None] stands for Go's nil slice. *)
Definition GetStringBytes (v : Value) (key : string) : option string :=
  match Get v key with
  | Some (String_ s) => Some s
  | _ => None
  end.

(** [Value.GetArray(key)]: nil, an empty range, when absent or not an array. *)
Definition GetArray (v : Value) (key : string) : list Value :=
  match Get v key with
  | Some (Array a) => a
  | _ => []
  end.

End fastjson.

(** ** [github.com/gobwas/glob] *)

Class GlobPkg : Type := {
  Glob : Type;
  (** [glob.Compile]: [None] when the pattern is malformed. *)
  glob_Compile : string -> option Glob;
  glob_Match : Glob -> string -> bool;
}.

(** ** [internal/loadbalance] *)

Module loadbalance.

(** Modelled from the spec: the package [internal/loadbalance] is not
    among the sources.  A Service is a provider id, a model, a weight and
    an active flag; the router's tests build it with exactly these fields. *)
Record Service : Type := {
  Provider : string;
  Model : string;
  Weight : Z;
  Active : bool;
}.

End loadbalance.

(** ** [internal/smart_routing]: types (type.go) *)

Module smartrouting.

Import fastjson.

Definition SmartOpPosition := string.
Definition SmartOpOperation := string.

Definition PositionModel : SmartOpPosition := "model".
Definition PositionThinking : SmartOpPosition := "thinking".
Definition PositionSystem : SmartOpPosition := "system".
Definition PositionUser : SmartOpPosition := "user".
Definition PositionToolUse : SmartOpPosition := "tool_use".
Definition PositionToken : SmartOpPosition := "token".

Definition OpModelContains : SmartOpOperation := "contains".
Definition OpModelGlob : SmartOpOperation := "glob".
Definition OpModelEquals : SmartOpOperation := "equals".
Definition OpThinkingEnabled : SmartOpOperation := "enabled".
Definition OpThinkingDisabled : SmartOpOperation := "disabled".
Definition OpSystemAnyContains : SmartOpOperation := "any_contains".
Definition OpSystemRegex : SmartOpOperation := "regex".
Definition OpUserAnyContains : SmartOpOperation := "any_contains".
Definition OpUserContains : SmartOpOperation := "contains".
Definition OpUserRegex : SmartOpOperation := "regex".
Definition OpUserRequestType : SmartOpOperation := "type".
Definition OpToolUseIs : SmartOpOperation := "is".
Definition OpToolUseContains : SmartOpOperation := "contains".
Definition OpTokenGe : SmartOpOperation := "ge".
Definition OpTokenGt : SmartOpOperation := "gt".
Definition OpTokenLe : SmartOpOperation := "le".
Definition OpTokenLt : SmartOpOperation := "lt".

Inductive SmartOpValueType : Set :=
| ValueTypeString | ValueTypeInt | ValueTypeBool | ValueTypeFloat.

Record SmartOpDefinition : Type := {
  def_Position : SmartOpPosition;
  def_Operation : SmartOpOperation;
  def_ValueType : SmartOpValueType;
}.

(** The registry [AllOperations] (the descriptions are documentation only). *)
Definition AllOperations : list SmartOpDefinition :=
  [ {| def_Position := PositionModel; def_Operation := OpModelContains; def_ValueType := ValueTypeString |};
    {| def_Position := PositionModel; def_Operation := OpModelGlob; def_ValueType := ValueTypeString |};
    {| def_Position := PositionModel; def_Operation := OpModelEquals; def_ValueType := ValueTypeString |};
    {| def_Position := PositionThinking; def_Operation := OpThinkingEnabled; def_ValueType := ValueTypeBool |};
    {| def_Position := PositionThinking; def_Operation := OpThinkingDisabled; def_ValueType := ValueTypeBool |};
    {| def_Position := PositionSystem; def_Operation := OpSystemAnyContains; def_ValueType := ValueTypeString |};
    {| def_Position := PositionSystem; def_Operation := OpSystemRegex; def_ValueType := ValueTypeString |};
    {| def_Position := PositionUser; def_Operation := OpUserAnyContains; def_ValueType := ValueTypeString |};
    {| def_Position := PositionUser; def_Operation := OpUserContains; def_ValueType := ValueTypeString |};
    {| def_Position := PositionUser; def_Operation := OpUserRegex; def_ValueType := ValueTypeString |};
    {| def_Position := PositionUser; def_Operation := OpUserRequestType; def_ValueType := ValueTypeString |};
    {| def_Position := PositionToolUse; def_Operation := OpToolUseIs; def_ValueType := ValueTypeString |};
    {| def_Position := PositionToolUse; def_Operation := OpToolUseContains; def_ValueType := ValueTypeString |};
    {| def_Position := PositionToken; def_Operation := OpTokenGe; def_ValueType := ValueTypeInt |};
    {| def_Position := PositionToken; def_Operation := OpTokenGt; def_ValueType := ValueTypeInt |};
    {| def_Position := PositionToken; def_Operation := OpTokenLe; def_ValueType := ValueTypeInt |};
    {| def_Position := PositionToken; def_Operation := OpTokenLt; def_ValueType := ValueTypeInt |} ].

Record SmartOpMeta : Type := {
  meta_Description : string;
  meta_Type : option SmartOpValueType;
}.

Record SmartOp : Type := {
  Position : SmartOpPosition;
  Operation : SmartOpOperation;
  Value : string;
  Meta : SmartOpMeta;
}.

Record SmartRouting : Type := {
  Description : string;
  Ops : list SmartOp;
  Services : list loadbalance.Service;
}.

(** [SmartOpPosition.IsValid]. *)
Definition IsValid (p : SmartOpPosition) : bool :=
  String.eqb p PositionModel || String.eqb p PositionThinking
  || String.eqb p PositionSystem || String.eqb p PositionUser
  || String.eqb p PositionToolUse || String.eqb p PositionToken.

(** ** The request context (context.go) *)

Record RequestContext : Type := {
  Model : string;
  ThinkingEnabled : bool;
  SystemMessages : list string;
  UserMessages : list string;
  ToolUses : list string;
  LatestContentType : string;
  EstimatedTokens : Z;
}.

(** The zero value [&RequestContext{}]. *)
Definition emptyContext : RequestContext :=
  {| Model := ""; ThinkingEnabled := false; SystemMessages := [];
     UserMessages := []; ToolUses := []; LatestContentType := "";
     EstimatedTokens := 0 |}.

Definition GetLatestUserMessage (rc : RequestContext) : string :=
  match UserMessages rc with
  | [] => ""
  | _ => List.last (UserMessages rc) ""
  end.

Definition CombineMessages (messages : list string) : string :=
  strings.Join messages (String "010"%char EmptyString).

(** [EstimateTokens]: a quarter of the byte length. *)
Definition EstimateTokens (text : string) : Z :=
  if String.eqb text "" then 0
  else Z.of_nat (String.length text) / 4.

(** ** The router (routing.go) *)

Record Router : Type := { rules : list SmartRouting }.

(** [isValidOperationForPosition]: the table [validOps] is a Go map literal
    keyed by position. *)
Definition validOps : gmap SmartOpPosition (list SmartOpOperation) :=
  list_to_map
    [ (PositionModel, [OpModelContains; OpModelGlob; OpModelEquals]);
      (PositionThinking, [OpThinkingEnabled; OpThinkingDisabled]);
      (PositionSystem, [OpSystemAnyContains; OpSystemRegex]);
      (PositionUser, [OpUserAnyContains; OpUserContains; OpUserRegex; OpUserRequestType]);
      (PositionToolUse, [OpToolUseIs; OpToolUseContains]);
      (PositionToken, [OpTokenGe; OpTokenGt; OpTokenLe; OpTokenLt]) ].

Fixpoint opIn (op : SmartOpOperation) (ops : list SmartOpOperation) : bool :=
  match ops with
  | [] => false
  | validOp :: rest => if String.eqb op validOp then true else opIn op rest
  end.

Definition isValidOperationForPosition (pos : SmartOpPosition) (op : SmartOpOperation) : bool :=
  match validOps !! pos with
  | None => false
  | Some ops => opIn op ops
  end.

(** [ValidateSmartOp]. *)
Definition ValidateSmartOp (op : SmartOp) : error :=
  if negb (IsValid (Position op)) then
    Some (String.append "invalid position: " (Position op))
  else if String.eqb (Operation op) "" then
    Some "operation cannot be empty"%string
  else if negb (isValidOperationForPosition (Position op) (Operation op)) then
    Some (String.append "operation '"
            (String.append (Operation op)
               (String.append "' is not valid for position '"
                  (String.append (Position op) "'"))))
  else None.

Fixpoint validateOps (i : Z) (ops : list SmartOp) : error :=
  match ops with
  | [] => None
  | op :: rest =>
      match ValidateSmartOp op with
      | Some err =>
          Some (String.append "op[" (String.append (pretty i) (String.append "]: " err)))
      | None => validateOps (i + 1) rest
      end
  end.

Fixpoint validateServices (i : Z) (svcs : list loadbalance.Service) : error :=
  match svcs with
  | [] => None
  | svc :: rest =>
      if String.eqb (loadbalance.Provider svc) "" then
        Some (String.append "services[" (String.append (pretty i) "]: provider cannot be empty"))
      else if String.eqb (loadbalance.Model svc) "" then
        Some (String.append "services[" (String.append (pretty i) "]: model cannot be empty"))
      else validateServices (i + 1) rest
  end.

(** [ValidateSmartRouting]. *)
Definition ValidateSmartRouting (rule : SmartRouting) : error :=
  if String.eqb (Description rule) "" then Some "description cannot be empty"%string
  else if (List.length (Ops rule) =? 0)%nat then Some "ops cannot be empty"%string
  else
    match validateOps 0 (Ops rule) with
    | Some err => Some err
    | None =>
        if (List.length (Services rule) =? 0)%nat then Some "services cannot be empty"%string
        else validateServices 0 (Services rule)
    end.

Fixpoint validateRules (i : Z) (rs : list SmartRouting) : error :=
  match rs with
  | [] => None
  | rule :: rest =>
      match ValidateSmartRouting rule with
      | Some err =>
          Some (String.append "rule[" (String.append (pretty i) (String.append "]: " err)))
      | None => validateRules (i + 1) rest
      end
  end.

(** [NewRouter]: every rule is validated; the first failure rejects the
    whole list. *)
Definition NewRouter (rs : list SmartRouting) : result Router :=
  match validateRules 0 rs with
  | Some err => Err err
  | None => Ok {| rules := rs |}
  end.

Section Evaluation.
Context `{GlobPkg}.

(** [stringsMatch]: the error it returns is always nil. *)
Definition stringsMatch (text pattern : string) (useRegex : bool) : result bool :=
  if negb useRegex then Ok (strings.Contains text pattern)
  else
    match glob_Compile pattern with
    | None => Ok (strings.Contains text pattern)
    | Some g => Ok (glob_Match g text)
    end.

Definition evaluateModelOp (ctx : RequestContext) (op : SmartOp) : bool :=
  let model := Model ctx in
  if String.eqb (Operation op) OpModelContains then strings.Contains model (Value op)
  else if String.eqb (Operation op) OpModelGlob then
    match glob_Compile (Value op) with
    | None => false
    | Some g => glob_Match g model
    end
  else if String.eqb (Operation op) OpModelEquals then String.eqb model (Value op)
  else false.

Definition assertsState (v : string) : bool :=
  String.eqb v "" || String.eqb (strings.ToLower v) "true"
  || String.eqb (strings.ToLower v) "yes" || String.eqb v "1".

Definition evaluateThinkingOp (ctx : RequestContext) (op : SmartOp) : bool :=
  let enabled := ThinkingEnabled ctx in
  if String.eqb (Operation op) OpThinkingEnabled then
    if assertsState (Value op) then enabled else false
  else if String.eqb (Operation op) OpThinkingDisabled then
    if assertsState (Value op) then negb enabled else false
  else false.

Definition evaluateSystemOp (ctx : RequestContext) (op : SmartOp) : bool :=
  let combined := CombineMessages (SystemMessages ctx) in
  if String.eqb (Operation op) OpSystemAnyContains then strings.Contains combined (Value op)
  else if String.eqb (Operation op) OpSystemRegex then
    match stringsMatch combined (Value op) true with
    | Err _ => false
    | Ok matched => matched
    end
  else false.

Definition evaluateUserOp (ctx : RequestContext) (op : SmartOp) : bool :=
  let combined := CombineMessages (UserMessages ctx) in
  if String.eqb (Operation op) OpUserAnyContains then strings.Contains combined (Value op)
  else if String.eqb (Operation op) OpUserContains then
    let latest := GetLatestUserMessage ctx in
    strings.Contains latest (Value op)
  else if String.eqb (Operation op) OpUserRegex then
    match stringsMatch combined (Value op) true with
    | Err _ => false
    | Ok matched => matched
    end
  else if String.eqb (Operation op) OpUserRequestType then
    String.eqb (LatestContentType ctx) (Value op)
  else false.

Fixpoint anyToolUse (toolUses : list string) (op : SmartOp) : bool :=
  match toolUses with
  | [] => false
  | toolUse :: rest =>
      if String.eqb (Operation op) OpToolUseIs then
        if String.eqb toolUse (Value op) then true else anyToolUse rest op
      else if String.eqb (Operation op) OpToolUseContains then
        if strings.Contains toolUse (Value op) then true else anyToolUse rest op
      else anyToolUse rest op
  end.

Definition evaluateToolUseOp (ctx : RequestContext) (op : SmartOp) : bool :=
  anyToolUse (ToolUses ctx) op.

Definition evaluateTokenOp (ctx : RequestContext) (op : SmartOp) : bool :=
  let tokens := EstimatedTokens ctx in
  match strconv.Atoi (Value op) with
  | None => false
  | Some target =>
      if String.eqb (Operation op) OpTokenGe then target <=? tokens
      else if String.eqb (Operation op) OpTokenGt then target <? tokens
      else if String.eqb (Operation op) OpTokenLe then tokens <=? target
      else if String.eqb (Operation op) OpTokenLt then tokens <? target
      else false
  end.

Definition evaluateOp (ctx : RequestContext) (op : SmartOp) : bool :=
  if String.eqb (Position op) PositionModel then evaluateModelOp ctx op
  else if String.eqb (Position op) PositionThinking then evaluateThinkingOp ctx op
  else if String.eqb (Position op) PositionSystem then evaluateSystemOp ctx op
  else if String.eqb (Position op) PositionUser then evaluateUserOp ctx op
  else if String.eqb (Position op) PositionToolUse then evaluateToolUseOp ctx op
  else if String.eqb (Position op) PositionToken then evaluateTokenOp ctx op
  else false.

(** The loop of [evaluateRule]: the first Op that fails decides. *)
Fixpoint evaluateOps (ctx : RequestContext) (ops : list SmartOp) : bool :=
  match ops with
  | [] => true
  | op :: rest => if negb (evaluateOp ctx op) then false else evaluateOps ctx rest
  end.

Definition evaluateRule (ctx : RequestContext) (rule : SmartRouting) : bool :=
  evaluateOps ctx (Ops rule).

(** The loop of [EvaluateRequest]: the first rule that matches decides.
    The nil slice of the no-match return is the empty list. *)
Fixpoint evaluateRules (ctx : RequestContext) (rs : list SmartRouting)
  : list loadbalance.Service * bool :=
  match rs with
  | [] => ([], false)
  | rule :: rest =>
      if evaluateRule ctx rule then (Services rule, true) else evaluateRules ctx rest
  end.

Definition EvaluateRequest (r : Router) (ctx : RequestContext)
  : list loadbalance.Service * bool :=
  evaluateRules ctx (rules r).

End Evaluation.

(** ** Extraction of the request context (context.go) *)

Definition newline : string := String "010"%char EmptyString.

Definition setModel (m : string) (c : RequestContext) : RequestContext :=
  {| Model := m; ThinkingEnabled := ThinkingEnabled c;
     SystemMessages := SystemMessages c; UserMessages := UserMessages c;
     ToolUses := ToolUses c; LatestContentType := LatestContentType c;
     EstimatedTokens := EstimatedTokens c |}.

Definition setThinkingEnabled (b : bool) (c : RequestContext) : RequestContext :=
  {| Model := Model c; ThinkingEnabled := b;
     SystemMessages := SystemMessages c; UserMessages := UserMessages c;
     ToolUses := ToolUses c; LatestContentType := LatestContentType c;
     EstimatedTokens := EstimatedTokens c |}.

Definition appendSystemMessage (m : string) (c : RequestContext) : RequestContext :=
  {| Model := Model c; ThinkingEnabled := ThinkingEnabled c;
     SystemMessages := SystemMessages c ++ [m]; UserMessages := UserMessages c;
     ToolUses := ToolUses c; LatestContentType := LatestContentType c;
     EstimatedTokens := EstimatedTokens c |}.

Definition appendUserMessage (m : string) (c : RequestContext) : RequestContext :=
  {| Model := Model c; ThinkingEnabled := ThinkingEnabled c;
     SystemMessages := SystemMessages c; UserMessages := UserMessages c ++ [m];
     ToolUses := ToolUses c; LatestContentType := LatestContentType c;
     EstimatedTokens := EstimatedTokens c |}.

Definition appendToolUses (ts : list string) (c : RequestContext) : RequestContext :=
  {| Model := Model c; ThinkingEnabled := ThinkingEnabled c;
     SystemMessages := SystemMessages c; UserMessages := UserMessages c;
     ToolUses := ToolUses c ++ ts; LatestContentType := LatestContentType c;
     EstimatedTokens := EstimatedTokens c |}.

Definition setToolUses (ts : list string) (c : RequestContext) : RequestContext :=
  {| Model := Model c; ThinkingEnabled := ThinkingEnabled c;
     SystemMessages := SystemMessages c; UserMessages := UserMessages c;
     ToolUses := ts; LatestContentType := LatestContentType c;
     EstimatedTokens := EstimatedTokens c |}.

Definition setLatestContentType (t : string) (c : RequestContext) : RequestContext :=
  {| Model := Model c; ThinkingEnabled := ThinkingEnabled c;
     SystemMessages := SystemMessages c; UserMessages := UserMessages c;
     ToolUses := ToolUses c; LatestContentType := t;
     EstimatedTokens := EstimatedTokens c |}.

Definition setEstimatedTokens (n : Z) (c : RequestContext) : RequestContext :=
  {| Model := Model c; ThinkingEnabled := ThinkingEnabled c;
     SystemMessages := SystemMessages c; UserMessages := UserMessages c;
     ToolUses := ToolUses c; LatestContentType := LatestContentType c;
     EstimatedTokens := n |}.

(** The string member [key] of the object [item], when [item] is an object
    that has it and it is a string. *)
Definition stringMember (obj : list (string * fastjson.Value)) (key : string) : option string :=
  match Object_Get obj key with
  | Some v => StringBytes v
  | None => None
  end.

(** One turn of the loop of [extractContentString] over a block array:
    what it appends to [parts]. *)
Definition contentPart (item : fastjson.Value) : list string :=
  match Object_of item with
  | None => []
  | Some obj =>
      match stringMember obj "type" with
      | None => []
      | Some typeStr =>
          if String.eqb typeStr "text" then
            match stringMember obj "text" with
            | Some text => [text]
            | None => []
            end
          else if String.eqb typeStr "image" then ["[image]"%string]
          else []
      end
  end.

Section Extraction.
Context `{FastJSON}.

(** [extractContentString]; [None] is the nil pointer. *)
Definition extractContentString (contentVal : option fastjson.Value) : string :=
  match contentVal with
  | None => ""
  | Some (String_ s) => s
  | Some (Array array) => strings.Join (flat_map contentPart array) newline
  | Some v => MarshalTo v
  end.

Definition isImageBlock (item : fastjson.Value) : bool :=
  match Object_of item with
  | None => false
  | Some obj =>
      match stringMember obj "type" with
      | Some typeStr => String.eqb typeStr "image"
      | None => false
      end
  end.

(** [hasImageContent]. *)
Definition hasImageContent (contentVal : option fastjson.Value) : bool :=
  match contentVal with
  | Some (Array array) => existsb isImageBlock array
  | _ => false
  end.

(** The names [extractToolUsesOpenAI] collects from one message. *)
Definition toolCallName (toolCallVal : fastjson.Value) : list string :=
  match Object_of toolCallVal with
  | None => []
  | Some toolCallObj =>
      match Object_Get toolCallObj "function" with
      | None => []
      | Some funcObj =>
          match Get funcObj "name" with
          | Some nameVal =>
              match StringBytes nameVal with
              | Some name => [name]
              | None => []
              end
          | None => []
          end
      end
  end.

Definition messageToolCalls (msgVal : fastjson.Value) : list string :=
  match Object_of msgVal with
  | None => []
  | Some msgObj =>
      match Object_Get msgObj "tool_calls" with
      | Some toolCallsVal =>
          match Array_of toolCallsVal with
          | Some toolCallsArray => flat_map toolCallName toolCallsArray
          | None => []
          end
      | None => []
      end
  end.

Definition toolDefinitionNameOpenAI (toolVal : fastjson.Value) : list string :=
  match Object_of toolVal with
  | None => []
  | Some toolObj =>
      match Object_Get toolObj "function" with
      | Some functionVal =>
          match Get functionVal "name" with
          | Some nameVal =>
              match StringBytes nameVal with
              | Some name => [name]
              | None => []
              end
          | None => []
          end
      | None => []
      end
  end.

(** [extractToolUsesOpenAI]. *)
Definition extractToolUsesOpenAI (v : fastjson.Value) : list string :=
  flat_map messageToolCalls (GetArray v "messages")
  ++ flat_map toolDefinitionNameOpenAI (GetArray v "tools").

Definition toolUseBlockName (item : fastjson.Value) : list string :=
  match Object_of item with
  | None => []
  | Some obj =>
      match stringMember obj "type" with
      | Some typeStr =>
          if String.eqb typeStr "tool_use" then
            match stringMember obj "name" with
            | Some name => [name]
            | None => []
            end
          else []
      | None => []
      end
  end.

(** [extractToolUsesAnthropicContent]. *)
Definition extractToolUsesAnthropicContent (contentVal : fastjson.Value) : list string :=
  match contentVal with
  | Array array => flat_map toolUseBlockName array
  | _ => []
  end.

(** The model field: copied when [GetStringBytes] returns a non-empty slice. *)
Definition readModel (v : fastjson.Value) (ctx : RequestContext) : RequestContext :=
  match GetStringBytes v "model" with
  | Some modelBytes =>
      if (0 <? String.length modelBytes)%nat then setModel modelBytes ctx else ctx
  | None => ctx
  end.

(** The role and the content of a message the loops look at: [None] when
    the loop moves on to the next message (not an object, no string role, no
    content). *)
Definition roleAndContent (msgVal : fastjson.Value) : option (string * fastjson.Value) :=
  match Object_of msgVal with
  | None => None
  | Some msgObj =>
      match stringMember msgObj "role" with
      | None => None
      | Some role =>
          match Object_Get msgObj "content" with
          | None => None
          | Some contentVal => Some (role, contentVal)
          end
      end
  end.

(** What the user case of both loops does with a message. *)
Definition userCase (contentStr : string) (contentVal : fastjson.Value) (ctx : RequestContext)
  : RequestContext :=
  let ctx := if negb (String.eqb contentStr "") then appendUserMessage contentStr ctx else ctx in
  if hasImageContent (Some contentVal) then setLatestContentType "image" ctx else ctx.

(** One turn of the message loop of [ExtractContextFromOpenAIRequest]. *)
Definition openaiMessage (ctx : RequestContext) (msgVal : fastjson.Value) : RequestContext :=
  match roleAndContent msgVal with
  | None => ctx
  | Some (role, contentVal) =>
      let contentStr := extractContentString (Some contentVal) in
      if String.eqb role "system" then
        if negb (String.eqb contentStr "") then appendSystemMessage contentStr ctx else ctx
      else if String.eqb role "user" then userCase contentStr contentVal ctx
      else ctx
  end.

Definition estimate (ctx : RequestContext) : RequestContext :=
  let allContent := strings.Join (SystemMessages ctx ++ UserMessages ctx) newline in
  setEstimatedTokens (EstimateTokens allContent) ctx.

(** [ExtractContextFromOpenAIRequest], after the body has been parsed. *)
Definition contextOfOpenAI (v : fastjson.Value) : RequestContext :=
  let ctx := readModel v emptyContext in
  let ctx := fold_left openaiMessage (GetArray v "messages") ctx in
  let ctx := setToolUses (extractToolUsesOpenAI v) ctx in
  estimate ctx.

Definition ExtractContextFromOpenAIRequest (body : string) : result RequestContext :=
  match ParseBytes body with
  | Err err => Err (String.append "failed to parse JSON: " err)
  | Ok v => Ok (contextOfOpenAI v)
  end.

(** One turn of the message loop of [ExtractContextFromAnthropicRequest]. *)
Definition anthropicMessage (ctx : RequestContext) (msgVal : fastjson.Value) : RequestContext :=
  match roleAndContent msgVal with
  | None => ctx
  | Some (role, contentVal) =>
      let contentStr := extractContentString (Some contentVal) in
      let toolUses := extractToolUsesAnthropicContent contentVal in
      let ctx := if String.eqb role "user" then userCase contentStr contentVal ctx else ctx in
      appendToolUses toolUses ctx
  end.

Definition toolDefinitionNameAnthropic (toolVal : fastjson.Value) : list string :=
  match Object_of toolVal with
  | None => []
  | Some toolObj =>
      match stringMember toolObj "name" with
      | Some name => [name]
      | None => []
      end
  end.

(** [ExtractContextFromAnthropicRequest], after the body has been parsed. *)
Definition contextOfAnthropic (v : fastjson.Value) : RequestContext :=
  let ctx := readModel v emptyContext in
  let ctx :=
    match GetStringBytes v "system" with
    | Some systemBytes =>
        if (0 <? String.length systemBytes)%nat then appendSystemMessage systemBytes ctx
        else ctx
    | None => ctx
    end in
  let ctx :=
    match Get v "thinking" with
    | Some (Object _) => setThinkingEnabled true ctx
    | _ => ctx
    end in
  let ctx := fold_left anthropicMessage (GetArray v "messages") ctx in
  let ctx := appendToolUses (flat_map toolDefinitionNameAnthropic (GetArray v "tools")) ctx in
  estimate ctx.

Definition ExtractContextFromAnthropicRequest (body : string) : result RequestContext :=
  match ParseBytes body with
  | Err err => Err (String.append "failed to parse JSON: " err)
  | Ok v => Ok (contextOfAnthropic v)
  end.

Context `{GlobPkg}.

(** [EvaluateAndSelectServices]: the entry point of smart routing.  A nil
    router is [None]. *)
Definition EvaluateAndSelectServices (router : option Router) (scenario : string)
    (body : string) : list loadbalance.Service * bool :=
  match router with
  | None => ([], false)
  | Some router =>
      let ctx :=
        if String.eqb scenario "openai" then ExtractContextFromOpenAIRequest body
        else if String.eqb scenario "anthropic" || String.eqb scenario "claude_code"
        then ExtractContextFromAnthropicRequest body
        else ExtractContextFromOpenAIRequest body in
      match ctx with
      | Err _ => ([], false)
      | Ok ctx => EvaluateRequest router ctx
      end
  end.

End Extraction.

End smartrouting.

(** ** [encoding/json] on untyped values

    The adaptor parses the argument strings of tool calls with
    [json.Unmarshal] into an [interface{}]; the decoded tree is a
    [fastjson.Value] here. *)

Class EncodingJSON : Type := {
  (** [json.Unmarshal] into an [interface{}]: [None] on a syntax error. *)
  json_Unmarshal : string -> option fastjson.Value;
}.

(** ** The OpenAI SDK types the adaptor reads *)

Module openai.

(** A tool call of an assistant message: the function variant, or the
    custom variant, whose JSON has no function member. *)
Inductive ChatCompletionMessageToolCallUnionParam : Type :=
| OfFunction (id name arguments : string)
| OfCustom (id name input : string).

(** The content member of a message as the adaptor reads it back from the
    message's JSON: a string, an array of parts, or absent. *)
Inductive MessageContent : Type :=
| ContentAbsent
| ContentString (s : string)
| ContentParts (parts : list fastjson.Value).

Record ChatCompletionMessageParamUnion : Type := {
  (** [GetRole()]: [None] when no variant of the union is set. *)
  GetRole : option string;
  content : MessageContent;
  tool_calls : list ChatCompletionMessageToolCallUnionParam;
  tool_call_id : option string;
}.

Record ChatCompletionNewParams : Type := {
  Messages : list ChatCompletionMessageParamUnion;
  Model : string;
  (** [MaxTokens.Value]: zero when the option is not set. *)
  MaxTokens : Z;
}.

Record ToolCall : Type := {
  ID : string;
  Function_Name : string;
  Function_Arguments : string;
}.

Record ChatCompletionMessage : Type := {
  Content : string;
  ToolCalls : list ToolCall;
}.

Record ChatCompletionChoice : Type := {
  Message : ChatCompletionMessage;
  FinishReason : string;
}.

Record CompletionUsage : Type := {
  PromptTokens : Z;
  CompletionTokens : Z;
}.

Record ChatCompletion : Type := {
  Choices : list ChatCompletionChoice;
  Usage : CompletionUsage;
}.

(** A streamed chunk. *)
Record ChunkToolCall : Type := {
  Index : Z;
  chunk_ID : string;
  chunk_Function_Name : string;
  chunk_Function_Arguments : string;
}.

Record ChunkDelta : Type := {
  delta_Content : string;
  delta_ToolCalls : list ChunkToolCall;
}.

Record ChunkChoice : Type := {
  Delta : ChunkDelta;
  chunk_FinishReason : string;
}.

Record ChatCompletionChunk : Type := {
  chunk_Choices : list ChunkChoice;
  chunk_Usage : CompletionUsage;
}.

(** [ssestream.Stream]: the chunks [Next] yields before it returns false,
    and the error [Err] reports then. *)
Record Stream : Type := {
  chunks : list ChatCompletionChunk;
  stream_Err : option string;
}.

(** [SystemMessage], [UserMessage] and [AssistantMessage] with a string
    content.  Each constructor sets one variant of the union and the
    content of that variant, and leaves the [Role] field of the variant at
    its zero value: the name of the role is written when the message is
    marshalled, and [GetRole] on the message a constructor returns points
    to the empty string. *)
Definition SystemMessage (text : string) : ChatCompletionMessageParamUnion :=
  {| GetRole := Some EmptyString; content := ContentString text;
     tool_calls := []; tool_call_id := None |}.

Definition UserMessage (text : string) : ChatCompletionMessageParamUnion :=
  {| GetRole := Some EmptyString; content := ContentString text;
     tool_calls := []; tool_call_id := None |}.

Definition AssistantMessage (text : string) : ChatCompletionMessageParamUnion :=
  {| GetRole := Some EmptyString; content := ContentString text;
     tool_calls := []; tool_call_id := None |}.

Definition CompletionChoiceFinishReasonStop : string := "stop".
Definition CompletionChoiceFinishReasonLength : string := "length".
Definition CompletionChoiceFinishReasonContentFilter : string := "content_filter".

End openai.

(** ** The Anthropic SDK types the adaptor builds *)

Module anthropic.

Inductive ContentBlockParamUnion : Type :=
| NewTextBlock (text : string)
| NewToolUseBlock (id : string) (input : option fastjson.Value) (name : string)
| NewToolResultBlock (toolUseID content : string) (isError : bool).

Record MessageParam : Type := {
  Role : string;
  Content : list ContentBlockParamUnion;
}.

Definition NewUserMessage (blocks : list ContentBlockParamUnion) : MessageParam :=
  {| Role := "user"; Content := blocks |}.

Definition NewAssistantMessage (blocks : list ContentBlockParamUnion) : MessageParam :=
  {| Role := "assistant"; Content := blocks |}.

Record TextBlockParam : Type := { Text : string }.

Record MessageNewParams : Type := {
  Model : string;
  Messages : list MessageParam;
  MaxTokens : Z;
  System : list TextBlockParam;
}.

(** A content block of a response. *)
Inductive ContentBlockUnion : Type :=
| TextBlock (text : string)
| ToolUseBlock (id name : string) (input : option fastjson.Value).

Record Usage : Type := {
  InputTokens : Z;
  OutputTokens : Z;
}.

Record Message_ : Type := {
  msg_ID : string;
  msg_Type : string;
  msg_Role : string;
  msg_Content : list ContentBlockUnion;
  msg_Model : string;
  StopReason : string;
  StopSequence : string;
  msg_Usage : Usage;
}.

Definition BetaStopReasonEndTurn : string := "end_turn".
Definition BetaStopReasonMaxTokens : string := "max_tokens".
Definition BetaStopReasonToolUse : string := "tool_use".
Definition BetaStopReasonRefusal : string := "refusal".

End anthropic.

(** ** [pkg/adaptor]: requests and responses *)

Module adaptor.

Section Convert.
Context `{EncodingJSON}.

(** [m["content"].(string)]: the string and whether the assertion held. *)
Definition contentString (c : openai.MessageContent) : string * bool :=
  match c with
  | openai.ContentString s => (s, true)
  | _ => (EmptyString, false)
  end.

(** The tool_use block of one tool call.  The type assertion
    [call["function"].(map[string]interface{})] panics on a call without
    a function member: [Err]. *)
Definition toolUseBlock (tc : openai.ChatCompletionMessageToolCallUnionParam)
  : result anthropic.ContentBlockParamUnion :=
  match tc with
  | openai.OfFunction id name arguments =>
      let argsInput := json_Unmarshal arguments in
      Ok (anthropic.NewToolUseBlock id argsInput name)
  | openai.OfCustom _ _ _ => Err "panic: interface conversion: interface {} is nil"
  end.

Fixpoint toolUseBlocks (tcs : list openai.ChatCompletionMessageToolCallUnionParam)
    (blocks : list anthropic.ContentBlockParamUnion)
  : result (list anthropic.ContentBlockParamUnion) :=
  match tcs with
  | [] => Ok blocks
  | tc :: rest =>
      match toolUseBlock tc with
      | Ok b => toolUseBlocks rest (blocks ++ [b])
      | Err e => Err e
      end
  end.

(** The state of the loop of [ConvertOpenAIToAnthropicRequest]. *)
Record convertState : Type := {
  messages : list anthropic.MessageParam;
  systemParts : list string;
}.

(** One turn of the loop. *)
Definition convertMessage (st : convertState) (msg : openai.ChatCompletionMessageParamUnion)
  : result convertState :=
  match openai.GetRole msg with
  | None => Ok st
  | Some role =>
      let content := fst (contentString (openai.content msg)) in
      if String.eqb role "system" then
        if negb (String.eqb content "") then
          Ok {| messages := messages st; systemParts := systemParts st ++ [content] |}
        else Ok st
      else
        let blocks :=
          let '(content, ok) := contentString (openai.content msg) in
          if ok && negb (String.eqb content "") then [anthropic.NewTextBlock content] else [] in
        if String.eqb role "assistant" then
          match toolUseBlocks (openai.tool_calls msg) blocks with
          | Err e => Err e
          | Ok blocks =>
              if (0 <? List.length blocks)%nat then
                Ok {| messages := messages st ++ [anthropic.NewAssistantMessage blocks];
                      systemParts := systemParts st |}
              else Ok st
          end
        else if String.eqb role "tool" then
          let toolID := default EmptyString (openai.tool_call_id msg) in
          let content := fst (contentString (openai.content msg)) in
          let blocks := blocks ++ [anthropic.NewToolResultBlock toolID content false] in
          Ok {| messages := messages st ++ [anthropic.NewUserMessage blocks];
                systemParts := systemParts st |}
        else if String.eqb role "user" && (0 <? List.length blocks)%nat then
          Ok {| messages := messages st ++ [anthropic.NewUserMessage blocks];
                systemParts := systemParts st |}
        else Ok st
  end.

Fixpoint convertMessages (st : convertState) (msgs : list openai.ChatCompletionMessageParamUnion)
  : result convertState :=
  match msgs with
  | [] => Ok st
  | msg :: rest =>
      match convertMessage st msg with
      | Ok st' => convertMessages st' rest
      | Err e => Err e
      end
  end.

(** [ConvertOpenAIToAnthropicRequest].  The parameters are built from the
    model, the converted messages and the token limit; [systemParts] is
    not read after the loop, and the System field keeps its zero value. *)
Definition ConvertOpenAIToAnthropicRequest (req : openai.ChatCompletionNewParams)
  : result anthropic.MessageNewParams :=
  match convertMessages {| messages := []; systemParts := [] |} (openai.Messages req) with
  | Err e => Err e
  | Ok st =>
      Ok {| anthropic.Model := openai.Model req;
            anthropic.Messages := messages st;
            anthropic.MaxTokens := openai.MaxTokens req;
            anthropic.System := [] |}
  end.

(** The input of a tool_use block of a response: the arguments decode
    into a [map[string]interface{}], which an object and null do. *)
Definition toolInput (arguments : string) : option fastjson.Value :=
  if String.eqb arguments "" then None
  else
    match json_Unmarshal arguments with
    | Some (fastjson.Object kvs) => Some (fastjson.Object kvs)
    | Some fastjson.Null => Some fastjson.Null
    | _ => None
    end.

Definition toolUseOfCall (toolCall : openai.ToolCall) : anthropic.ContentBlockUnion :=
  anthropic.ToolUseBlock (openai.ID toolCall) (openai.Function_Name toolCall)
    (toolInput (openai.Function_Arguments toolCall)).

(** [ConvertOpenAIToAnthropic]; [now] is [time.Now().Unix()].  Only the
    first choice is read (the loop body ends in [break]). *)
Definition ConvertOpenAIToAnthropic (now : Z) (openaiResp : openai.ChatCompletion)
    (model : string) : anthropic.Message_ :=
  let '(contentBlocks, stopReason) :=
    match openai.Choices openaiResp with
    | [] => ([], "end_turn"%string)
    | choice :: _ =>
        let message := openai.Message choice in
        let textBlocks :=
          if negb (String.eqb (openai.Content message) "")
          then [anthropic.TextBlock (openai.Content message)] else [] in
        if (0 <? List.length (openai.ToolCalls message))%nat then
          (textBlocks ++ map toolUseOfCall (openai.ToolCalls message),
           if String.eqb (openai.FinishReason choice) "tool_calls"
           then "tool_use"%string else "end_turn"%string)
        else (textBlocks, "end_turn"%string)
    end in
  {| anthropic.msg_ID := String.append "msg_" (pretty now);
     anthropic.msg_Type := "message";
     anthropic.msg_Role := "assistant";
     anthropic.msg_Content := contentBlocks;
     anthropic.msg_Model := model;
     anthropic.StopReason := stopReason;
     anthropic.StopSequence := "";
     anthropic.msg_Usage :=
       {| anthropic.InputTokens := openai.PromptTokens (openai.Usage openaiResp);
          anthropic.OutputTokens := openai.CompletionTokens (openai.Usage openaiResp) |} |}.

End Convert.

(** [ConvertContentBlocksToString]: the texts of the text blocks, one
    after the other; every other block is skipped. *)
Fixpoint ConvertContentBlocksToString (blocks : list anthropic.ContentBlockParamUnion)
  : string :=
  match blocks with
  | [] => EmptyString
  | anthropic.NewTextBlock text :: rest =>
      String.append text (ConvertContentBlocksToString rest)
  | _ :: rest => ConvertContentBlocksToString rest
  end.

(** [ConvertTextBlocksToString]. *)
Fixpoint ConvertTextBlocksToString (blocks : list anthropic.TextBlockParam) : string :=
  match blocks with
  | [] => EmptyString
  | block :: rest => String.append (anthropic.Text block) (ConvertTextBlocksToString rest)
  end.

(** One turn of the message loop of [ConvertAnthropicToOpenAI]: what it
    appends to the messages of the request. *)
Definition openaiMessageOf (msg : anthropic.MessageParam)
  : list openai.ChatCompletionMessageParamUnion :=
  if String.eqb (anthropic.Role msg) "user" then
    [openai.UserMessage (ConvertContentBlocksToString (anthropic.Content msg))]
  else if String.eqb (anthropic.Role msg) "assistant" then
    [openai.AssistantMessage (ConvertContentBlocksToString (anthropic.Content msg))]
  else [].

(** [ConvertAnthropicToOpenAI]. *)
Definition ConvertAnthropicToOpenAI (anthropicReq : anthropic.MessageNewParams)
  : openai.ChatCompletionNewParams :=
  let messages := flat_map openaiMessageOf (anthropic.Messages anthropicReq) in
  let messages :=
    if (0 <? List.length (anthropic.System anthropicReq))%nat then
      openai.SystemMessage (ConvertTextBlocksToString (anthropic.System anthropicReq))
        :: messages
    else messages in
  {| openai.Messages := messages;
     openai.Model := anthropic.Model anthropicReq;
     openai.MaxTokens := anthropic.MaxTokens anthropicReq |}.

(** The fields of [anthropic.Message] that [ConvertAnthropicResponseToOpenAI]
    reads.  The SDK has one struct for every kind of content block, told
    apart by [Type]; [Input] is a [json.RawMessage]. *)
Record ResponseBlock : Type := {
  block_Type : string;
  block_Text : string;
  block_ID : string;
  block_Name : string;
  block_Input : string;
}.

Record ResponseMessage : Type := {
  resp_ID : string;
  resp_Content : list ResponseBlock;
  resp_StopReason : string;
  resp_Usage : anthropic.Usage;
}.

(** The arguments of a converted tool call: the JSON text of the input
    when [json.Marshal] accepts it, the raw input otherwise. *)
Inductive Arguments : Type :=
| ArgumentsString (text : string)
| ArgumentsRaw (input : string).

Record ToolCallJSON : Type := {
  call_id : string;
  call_type : string;
  call_function_name : string;
  call_function_arguments : Arguments;
}.

(** The map the converter returns: its one choice has index 0; the keys
    [content] and [tool_calls] of the message may be absent. *)
Record ChatCompletionJSON : Type := {
  json_id : string;
  json_object : string;
  json_created : Z;
  json_model : string;
  json_content : option string;
  json_tool_calls : option (list ToolCallJSON);
  json_finish_reason : string;
  json_prompt_tokens : Z;
  json_completion_tokens : Z;
  json_total_tokens : Z;
}.

(** Addition of two [int64]: it wraps around. *)
Definition addInt64 (x y : Z) : Z := (x + y + 2 ^ 63) mod 2 ^ 64 - 2 ^ 63.

Section ResponseToOpenAI.
(** [json.Marshal] on a [json.RawMessage]: the compacted text, or an error
    when the bytes are not JSON. *)
Variable json_Marshal : string -> result string.

(** The walk over the content blocks: the text gathered and the tool
    calls, in order. *)
Fixpoint walkBlocks (blocks : list ResponseBlock) (textContent : string)
    (toolCalls : list ToolCallJSON) : string * list ToolCallJSON :=
  match blocks with
  | [] => (textContent, toolCalls)
  | block :: rest =>
      if String.eqb (block_Type block) "text" then
        walkBlocks rest (String.append textContent (block_Text block)) toolCalls
      else if String.eqb (block_Type block) "tool_use" then
        walkBlocks rest textContent
          (toolCalls ++ [ {| call_id := block_ID block;
                             call_type := "function";
                             call_function_name := block_Name block;
                             call_function_arguments := ArgumentsRaw (block_Input block) |} ])
      else walkBlocks rest textContent toolCalls
  end.

(** The second loop: the arguments become a string. *)
Definition stringifyArguments (tc : ToolCallJSON) : ToolCallJSON :=
  match call_function_arguments tc with
  | ArgumentsRaw input =>
      match json_Marshal input with
      | Ok b =>
          {| call_id := call_id tc; call_type := call_type tc;
             call_function_name := call_function_name tc;
             call_function_arguments := ArgumentsString b |}
      | Err _ => tc
      end
  | ArgumentsString _ => tc
  end.

(** [ConvertAnthropicResponseToOpenAI]; [now] is [time.Now().Unix()]. *)
Definition ConvertAnthropicResponseToOpenAI (now : Z) (anthropicResp : ResponseMessage)
    (responseModel : string) : ChatCompletionJSON :=
  let '(textContent, toolCalls) := walkBlocks (resp_Content anthropicResp) EmptyString [] in
  let toolCalls := map stringifyArguments toolCalls in
  let finishReason :=
    if String.eqb (resp_StopReason anthropicResp) "tool_use" then "tool_calls"%string
    else if String.eqb (resp_StopReason anthropicResp) "max_tokens" then "length"%string
    else "stop"%string in
  let usage := resp_Usage anthropicResp in
  {| json_id := resp_ID anthropicResp;
     json_object := "chat.completion";
     json_created := now;
     json_model := responseModel;
     json_content := if negb (String.eqb textContent "") then Some textContent else None;
     json_tool_calls := if (0 <? List.length toolCalls)%nat then Some toolCalls else None;
     json_finish_reason := finishReason;
     json_prompt_tokens := anthropic.InputTokens usage;
     json_completion_tokens := anthropic.OutputTokens usage;
     json_total_tokens :=
       addInt64 (anthropic.InputTokens usage) (anthropic.OutputTokens usage) |}.

End ResponseToOpenAI.

End adaptor.

(** ** [pkg/adaptor]: the streaming translator

    The handler writes server-sent events to the client; an event is
    modelled by its type and the fields the handler fills in. *)

Module adaptorstream.

Inductive Event : Type :=
| message_start (id model : string)
| content_block_start_text (index : Z)
| content_block_start_tool_use (index : Z) (id name : string)
| text_delta (index : Z) (text : string)
| input_json_delta (index : Z) (partial_json : string)
| content_block_stop (index : Z)
| message_delta (stop_reason : string) (output_tokens : Z)
| message_stop
| error_event (message : string).

Record pendingToolCall : Type := {
  id : string;
  name : string;
  input : string;
}.

(** The variables of the handler that live across chunks. *)
Record streamState : Type := {
  sentTextContent : bool;
  contentIndex : Z;
  outputTokens : Z;
  pendingToolCalls : gmap Z pendingToolCall;
}.

Definition initialState : streamState :=
  {| sentTextContent := false; contentIndex := 0; outputTokens := 0;
     pendingToolCalls := ∅ |}.

(** The keys of a map, in the order stdpp lists them. *)
Definition keys (m : gmap Z pendingToolCall) : list Z := (map_to_list m).*1.

(** Go does not specify the order in which [range] visits a map: the
    order is a parameter, any function that lists every key once. *)
Class MapRange : Type := {
  rangeKeys : gmap Z pendingToolCall -> list Z;
  rangeKeys_perm : forall m, rangeKeys m ≡ₚ keys m;
}.

Definition setSentTextContent (st : streamState) : streamState :=
  {| sentTextContent := true; contentIndex := contentIndex st;
     outputTokens := outputTokens st; pendingToolCalls := pendingToolCalls st |}.

Definition setOutputTokens (n : Z) (st : streamState) : streamState :=
  {| sentTextContent := sentTextContent st; contentIndex := contentIndex st;
     outputTokens := n; pendingToolCalls := pendingToolCalls st |}.

(** The content delta of a chunk. *)
Definition handleContent (st : streamState) (delta : openai.ChunkDelta)
  : list Event * streamState :=
  if negb (String.eqb (openai.delta_Content delta) "") then
    let start :=
      if negb (sentTextContent st) && (size (pendingToolCalls st) =? 0)%nat
      then [content_block_start_text (contentIndex st)] else [] in
    (start ++ [text_delta (contentIndex st) (openai.delta_Content delta)],
     setSentTextContent st)
  else ([], st).

Definition appendInput (arguments : string) (p : pendingToolCall) : pendingToolCall :=
  {| id := id p; name := name p; input := String.append (input p) arguments |}.

(** One tool-call fragment of a chunk. *)
Definition handleToolCall (acc : list Event * streamState) (toolCall : openai.ChunkToolCall)
  : list Event * streamState :=
  let '(evs, st) := acc in
  let index := openai.Index toolCall in
  let '(evs1, st1) :=
    match pendingToolCalls st !! index with
    | None =>
        ([content_block_start_tool_use index (openai.chunk_ID toolCall)
            (openai.chunk_Function_Name toolCall)],
         {| sentTextContent := sentTextContent st;
            contentIndex := if contentIndex st <=? index then index + 1 else contentIndex st;
            outputTokens := outputTokens st;
            pendingToolCalls :=
              <[index := {| id := openai.chunk_ID toolCall;
                            name := openai.chunk_Function_Name toolCall;
                            input := "" |}]> (pendingToolCalls st) |})
    | Some _ => ([], st)
    end in
  if negb (String.eqb (openai.chunk_Function_Arguments toolCall) "") then
    (evs ++ evs1 ++ [input_json_delta index (openai.chunk_Function_Arguments toolCall)],
     {| sentTextContent := sentTextContent st1; contentIndex := contentIndex st1;
        outputTokens := outputTokens st1;
        pendingToolCalls :=
          alter (appendInput (openai.chunk_Function_Arguments toolCall)) index
            (pendingToolCalls st1) |})
  else (evs ++ evs1, st1).

(** The deltas of a chunk with a choice, and the usage it carries. *)
Definition handleChoice (st : streamState) (chunk : openai.ChatCompletionChunk)
    (choice : openai.ChunkChoice) : list Event * streamState :=
  let delta := openai.Delta choice in
  let '(evs, st) :=
    fold_left handleToolCall (openai.delta_ToolCalls delta) (handleContent st delta) in
  let completion := openai.CompletionTokens (openai.chunk_Usage chunk) in
  (evs, if 0 <? completion then setOutputTokens completion st else st).

(** A chunk without choices only updates the usage. *)
Definition handleUsageOnly (st : streamState) (chunk : openai.ChatCompletionChunk)
  : streamState :=
  let usage := openai.chunk_Usage chunk in
  if (0 <? openai.PromptTokens usage) || (0 <? openai.CompletionTokens usage)
  then setOutputTokens (openai.CompletionTokens usage) st else st.

(** The stop reason the handler maps a finish reason to. *)
Definition stopReasonOf (finishReason : string) : string :=
  if String.eqb finishReason "stop" then "end_turn"
  else if String.eqb finishReason "length" then "max_tokens"
  else if String.eqb finishReason "tool_calls" then "tool_use"
  else if String.eqb finishReason "content_filter" then "content_filter"
  else "end_turn".

Section Handler.
Context `{MapRange}.

(** What the handler sends when a choice carries a finish reason. *)
Definition finishEvents (st : streamState) (finishReason : string) : list Event :=
  (if sentTextContent st then [content_block_stop 0] else [])
  ++ map content_block_stop (rangeKeys (pendingToolCalls st))
  ++ [message_delta (stopReasonOf finishReason) (outputTokens st); message_stop].

(** The loop over the stream, and the error check after it. *)
Fixpoint processStream (st : streamState) (cs : list openai.ChatCompletionChunk)
    (err : option string) : list Event :=
  match cs with
  | [] =>
      match err with
      | Some e => [error_event e]
      | None => []
      end
  | chunk :: rest =>
      match openai.chunk_Choices chunk with
      | [] => processStream (handleUsageOnly st chunk) rest err
      | choice :: _ =>
          let '(evs, st) := handleChoice st chunk choice in
          if negb (String.eqb (openai.chunk_FinishReason choice) "")
          then evs ++ finishEvents st (openai.chunk_FinishReason choice)
          else evs ++ processStream st rest err
      end
  end.

(** [HandleOpenAIToAnthropicStreamResponse]: the events written to the
    client and the error returned.  [flusher] tells whether the writer
    supports flushing; [now] is [time.Now().Unix()]. *)
Definition HandleOpenAIToAnthropicStreamResponse (flusher : bool) (now : Z)
    (stream : openai.Stream) (responseModel : string) : list Event * error :=
  if negb flusher then ([], Some "Streaming not supported by this connection"%string)
  else
    let messageID := String.append "msg_" (pretty now) in
    (message_start messageID responseModel
       :: processStream initialState (openai.chunks stream) (openai.stream_Err stream),
     None).

End Handler.

End adaptorstream.

(** ** [internal/protocol/stream]: the finish-reason table of the beta translator *)

Module stream.

(** Modelled from the spec: the constant [openaiFinishReasonToolCalls] is
    declared in a file of the package that is not among the sources; the
    specification names the finish reason tool_calls. *)
Definition openaiFinishReasonToolCalls : string := "tool_calls".

(** [mapOpenAIFinishReasonToAnthropicBeta]. *)
Definition mapOpenAIFinishReasonToAnthropicBeta (finishReason : string) : string :=
  if String.eqb finishReason openai.CompletionChoiceFinishReasonStop
  then anthropic.BetaStopReasonEndTurn
  else if String.eqb finishReason openai.CompletionChoiceFinishReasonLength
  then anthropic.BetaStopReasonMaxTokens
  else if String.eqb finishReason openaiFinishReasonToolCalls
  then anthropic.BetaStopReasonToolUse
  else if String.eqb finishReason openai.CompletionChoiceFinishReasonContentFilter
  then anthropic.BetaStopReasonRefusal
  else anthropic.BetaStopReasonEndTurn.

End stream.

(** ** [internal/server]: the count-tokens endpoint (anthropic_v1_beta.go) *)

Module server.

(** Modelled from the spec: [typ.Provider] is declared in a package that
    is not among the sources; the handler reads its identifier, its API
    style and its timeout. *)
Record Provider : Type := {
  UUID : string;
  Name : string;
  APIStyle : string;
  Timeout : Z;
}.

Inductive BetaContentBlockParam : Type :=
| BetaTextBlock (text : string)
| BetaOtherBlock (json : fastjson.Value).

Record BetaMessageParam : Type := {
  Role : string;
  Content : list BetaContentBlockParam;
}.

Record BetaMessageCountTokensParams : Type := {
  Model : string;
  Messages : list BetaMessageParam;
  System : list string;
}.

Definition setModel (model : string) (req : BetaMessageCountTokensParams)
  : BetaMessageCountTokensParams :=
  {| Model := model; Messages := Messages req; System := System req |}.

Record MessageTokensCount : Type := { InputTokens : Z }.


(** The collaborators of the handler: the binding of the request body
    ([c.ShouldBindJSON]) and the upstream count_tokens call of the client
    the pool returns for the provider and the model. *)
Class Upstream : Type := {
  ShouldBindJSON : string -> result BetaMessageCountTokensParams;
  BetaMessagesCountTokens :
    Provider -> string -> BetaMessageCountTokensParams -> result MessageTokensCount;
}.

Section Handler.
Context `{Upstream}.
(** [countBetaTokensWithTiktoken] is not among the sources: the handler
    is read for whatever count, or error, the function returns on the
    model, the messages and the system blocks. *)
Variable countBetaTokensWithTiktoken :
  string -> list BetaMessageParam -> list string -> result Z.


End Handler.

End server.

(** ** [encoding/base64]: the standard encoding, with padding

    A byte slice is a [list ascii]; [string(b)] and [[]byte(s)] are
    [string_of_list_ascii] and [list_ascii_of_string]. *)

Definition bytes : Type := list ascii.

Module base64.

(** Six bits, most significant first. *)
Definition sextet : Type := (bool * bool * bool * bool * bool * bool)%type.

Definition sextetIndex (s : sextet) : nat :=
  let '(b5, b4, b3, b2, b1, b0) := s in
  (Nat.b2n b5 * 32 + Nat.b2n b4 * 16 + Nat.b2n b3 * 8
   + Nat.b2n b2 * 4 + Nat.b2n b1 * 2 + Nat.b2n b0)%nat.

Definition encodeStd : string :=
  "ABCDEFGHIJKLMNOPQRSTUVWXYZabcdefghijklmnopqrstuvwxyz0123456789+/".

Definition padChar : ascii := "="%char.

Definition encodeChar (s : sextet) : ascii :=
  match String.get (sextetIndex s) encodeStd with
  | Some c => c
  | None => padChar
  end.

Definition sextetOfIndex (n : nat) : sextet :=
  (Nat.testbit n 5, Nat.testbit n 4, Nat.testbit n 3,
   Nat.testbit n 2, Nat.testbit n 1, Nat.testbit n 0).

(** The value of a character of the alphabet; [None] for every other byte. *)
Definition decodeChar (c : ascii) : option sextet :=
  let n := nat_of_ascii c in
  if ((65 <=? n) && (n <=? 90))%nat then Some (sextetOfIndex (n - 65))
  else if ((97 <=? n) && (n <=? 122))%nat then Some (sextetOfIndex (n - 71))
  else if ((48 <=? n) && (n <=? 57))%nat then Some (sextetOfIndex (n + 4))
  else if (n =? 43)%nat then Some (sextetOfIndex 62)
  else if (n =? 47)%nat then Some (sextetOfIndex 63)
  else None.

(** The sextets of a group of three bytes. *)
Definition sextet0 (x : ascii) : sextet :=
  let '(Ascii _ _ x2 x3 x4 x5 x6 x7) := x in (x7, x6, x5, x4, x3, x2).

Definition sextet1 (x y : ascii) : sextet :=
  let '(Ascii x0 x1 _ _ _ _ _ _) := x in
  let '(Ascii _ _ _ _ y4 y5 y6 y7) := y in (x1, x0, y7, y6, y5, y4).

Definition sextet2 (y z : ascii) : sextet :=
  let '(Ascii y0 y1 y2 y3 _ _ _ _) := y in
  let '(Ascii _ _ _ _ _ _ z6 z7) := z in (y3, y2, y1, y0, z7, z6).

Definition sextet3 (z : ascii) : sextet :=
  let '(Ascii z0 z1 z2 z3 z4 z5 _ _) := z in (z5, z4, z3, z2, z1, z0).

(** The bytes of a group of four sextets. *)
Definition byte0 (a b : sextet) : ascii :=
  let '(a5, a4, a3, a2, a1, a0) := a in
  let '(b5, b4, _, _, _, _) := b in Ascii b4 b5 a0 a1 a2 a3 a4 a5.

Definition byte1 (b c : sextet) : ascii :=
  let '(_, _, b3, b2, b1, b0) := b in
  let '(c5, c4, c3, c2, _, _) := c in Ascii c2 c3 c4 c5 b0 b1 b2 b3.

Definition byte2 (c d : sextet) : ascii :=
  let '(_, _, _, _, c1, c0) := c in
  let '(d5, d4, d3, d2, d1, d0) := d in Ascii d0 d1 d2 d3 d4 d5 c0 c1.

(** [StdEncoding.EncodeToString]. *)
Fixpoint EncodeToString (src : bytes) : string :=
  match src with
  | [] => EmptyString
  | [x] =>
      String (encodeChar (sextet0 x))
        (String (encodeChar (sextet1 x zero))
           (String padChar (String padChar EmptyString)))
  | [x; y] =>
      String (encodeChar (sextet0 x))
        (String (encodeChar (sextet1 x y))
           (String (encodeChar (sextet2 y zero)) (String padChar EmptyString)))
  | x :: y :: z :: rest =>
      String (encodeChar (sextet0 x))
        (String (encodeChar (sextet1 x y))
           (String (encodeChar (sextet2 y z))
              (String (encodeChar (sextet3 z)) (EncodeToString rest))))
  end.

Definition corrupt : string := "illegal base64 data".

(** The decoder skips carriage returns and line feeds. *)
Fixpoint stripNewlines (s : string) : string :=
  match s with
  | EmptyString => EmptyString
  | String c s' =>
      if Ascii.eqb c "010" || Ascii.eqb c "013" then stripNewlines s'
      else String c (stripNewlines s')
  end.

Fixpoint decodeQuanta (s : string) : result bytes :=
  match s with
  | EmptyString => Ok []
  | String c0 (String c1 (String c2 (String c3 rest))) =>
      match decodeChar c0, decodeChar c1 with
      | Some a, Some b =>
          if Ascii.eqb c2 padChar then
            if Ascii.eqb c3 padChar && String.eqb rest "" then Ok [byte0 a b]
            else Err corrupt
          else
            match decodeChar c2 with
            | Some c =>
                if Ascii.eqb c3 padChar then
                  if String.eqb rest "" then Ok [byte0 a b; byte1 b c] else Err corrupt
                else
                  match decodeChar c3 with
                  | Some d =>
                      match decodeQuanta rest with
                      | Ok tail => Ok (byte0 a b :: byte1 b c :: byte2 c d :: tail)
                      | Err e => Err e
                      end
                  | None => Err corrupt
                  end
            | None => Err corrupt
            end
      | _, _ => Err corrupt
      end
  | _ => Err corrupt
  end.

(** [StdEncoding.DecodeString]. *)
Definition DecodeString (s : string) : result bytes :=
  decodeQuanta (stripNewlines s).

End base64.

(** ** [crypto/cipher]: authenticated encryption *)

Module cipher.

(** The interface [cipher.AEAD], with the contract of an authenticated
    cipher: [Seal] appends the sealed text to [dst], and [Open] recovers
    what [Seal] sealed under the same nonce and additional data.  [Open] is
    used with a nil [dst] only. *)
Class AEAD : Type := {
  NonceSize : nat;
  Seal : bytes -> bytes -> bytes -> bytes -> bytes;
  Open : bytes -> bytes -> bytes -> bytes -> result bytes;
  Seal_dst : forall dst nonce plaintext additionalData,
    Seal dst nonce plaintext additionalData = dst ++ Seal [] nonce plaintext additionalData;
  Open_Seal : forall nonce plaintext additionalData,
    List.length nonce = NonceSize ->
    Open [] nonce (Seal [] nonce plaintext additionalData) additionalData = Ok plaintext;
}.

End cipher.

(** ** [internal/config]: the encrypted configuration store *)

Module config.

Import cipher.

Record Provider : Type := {
  Name : string;
  APIBase : string;
  Token : string;
  Enabled : bool;
}.

Record Config : Type := {
  Providers : gmap string Provider;
  ServerPort : Z;
  JWTSecret : string;
}.

(** [encoding/json] on [Config]. *)
Class ConfigJSON : Type := {
  json_Marshal : Config -> result bytes;
  json_Unmarshal : bytes -> result Config;
}.

Record AppConfig : Type := {
  configFile : string;
  config : Config;
}.

(** What the store touches outside the process: the files, the paths that
    cannot be opened for writing, the bytes [rand.Reader] will deliver, and
    the fault, if any, that a write to an open file meets: the number of
    bytes that reach the file before it, and the error. *)
Record World : Type := {
  files : gmap string bytes;
  readOnly : gset string;
  entropy : bytes;
  writeFault : option (nat * string);
}.

Definition setFiles (fs : gmap string bytes) (w : World) : World :=
  {| files := fs; readOnly := readOnly w; entropy := entropy w;
     writeFault := writeFault w |}.

(** [os.WriteFile]: the file is opened with [O_WRONLY|O_CREATE|O_TRUNC],
    which empties it; the data are written and the file is closed.  When
    the file cannot be opened nothing changes; when the write fails, the
    file is left with the bytes written so far. *)
Definition os_WriteFile (w : World) (name : string) (data : bytes) : error * World :=
  if decide (name ∈ readOnly w) then (Some "permission denied"%string, w)
  else
    match writeFault w with
    | Some (written, err) => (Some err, setFiles (<[name := take written data]> (files w)) w)
    | None => (None, setFiles (<[name := data]> (files w)) w)
    end.

Definition os_ReadFile (w : World) (name : string) : result bytes :=
  match files w !! name with
  | Some data => Ok data
  | None => Err "no such file or directory"
  end.

(** [io.ReadFull(rand.Reader, buf)] with a buffer of [n] bytes. *)
Definition rand_ReadFull (w : World) (n : nat) : result bytes * World :=
  if (List.length (entropy w) <? n)%nat then
    (Err "unexpected EOF",
     {| files := files w; readOnly := readOnly w; entropy := [];
        writeFault := writeFault w |})
  else
    (Ok (take n (entropy w)),
     {| files := files w; readOnly := readOnly w; entropy := drop n (entropy w);
        writeFault := writeFault w |}).

Section Store.
Context `{AEAD} `{ConfigJSON}.

(** [AppConfig.Save]. *)
Definition Save (ac : AppConfig) (w : World) : error * World :=
  match json_Marshal (config ac) with
  | Err err => (Some (String.append "failed to marshal config: " err), w)
  | Ok data =>
      match rand_ReadFull w NonceSize with
      | (Err err, w) => (Some err, w)
      | (Ok nonce, w) =>
          let ciphertext := Seal nonce nonce data [] in
          let encoded := base64.EncodeToString ciphertext in
          match os_WriteFile w (configFile ac) (list_ascii_of_string encoded) with
          | (Some err, w) => (Some (String.append "failed to write config file: " err), w)
          | (None, w) => (None, w)
          end
      end
  end.

(** [AppConfig.Load]: the store with the loaded configuration, or the error. *)
Definition Load (ac : AppConfig) (w : World) : result AppConfig :=
  match os_ReadFile w (configFile ac) with
  | Err err => Err (String.append "failed to read config file: " err)
  | Ok data =>
      match base64.DecodeString (string_of_list_ascii data) with
      | Err err => Err (String.append "failed to decode config: " err)
      | Ok ciphertext =>
          let nonceSize := NonceSize in
          if (List.length ciphertext <? nonceSize)%nat then Err "ciphertext too short"
          else
            let nonce := take nonceSize ciphertext in
            let ciphertext := drop nonceSize ciphertext in
            match Open [] nonce ciphertext [] with
            | Err err => Err (String.append "failed to decrypt config: " err)
            | Ok plaintext =>
                match json_Unmarshal plaintext with
                | Err err => Err (String.append "failed to unmarshal config: " err)
                | Ok config => Ok {| configFile := configFile ac; config := config |}
                end
            end
      end
  end.

End Store.

(** ** The operations on the providers and the port

    The methods change the configuration in place and then call [Save]:
    each returns its error, the store as it is afterwards, and the world.
    The provider map is not nil: [NewAppConfig] makes it, and [Save]
    writes a map. *)

Definition setConfig (c : Config) (ac : AppConfig) : AppConfig :=
  {| configFile := configFile ac; config := c |}.

Definition setProviders (providers : gmap string Provider) (c : Config) : Config :=
  {| Providers := providers; ServerPort := ServerPort c; JWTSecret := JWTSecret c |}.

Definition setServerPort (port : Z) (c : Config) : Config :=
  {| Providers := Providers c; ServerPort := port; JWTSecret := JWTSecret c |}.

Definition notFound (name : string) : string :=
  String.append "provider '" (String.append name "' not found").

(** [AppConfig.GetProvider]. *)
Definition GetProvider (ac : AppConfig) (name : string) : result Provider :=
  match Providers (config ac) !! name with
  | Some provider => Ok provider
  | None => Err (notFound name)
  end.

(** [AppConfig.GetServerPort] and [AppConfig.GetJWTSecret]. *)
Definition GetServerPort (ac : AppConfig) : Z := ServerPort (config ac).

Definition GetJWTSecret (ac : AppConfig) : string := JWTSecret (config ac).

(** Go does not specify the order in which [range] visits a map: the
    order is a parameter, any function that lists every entry once. *)
Class ProviderRange : Type := {
  rangeProviders : gmap string Provider -> list (string * Provider);
  rangeProviders_perm : forall m, rangeProviders m ≡ₚ map_to_list m;
}.

(** [AppConfig.ListProviders]. *)
Definition ListProviders `{ProviderRange} (ac : AppConfig) : list Provider :=
  (rangeProviders (Providers (config ac))).*2.

Section Mutators.
Context `{AEAD} `{ConfigJSON}.

(** [AppConfig.AddProvider]. *)
Definition AddProvider (ac : AppConfig) (name apiBase token : string) (w : World)
  : error * AppConfig * World :=
  if String.eqb name "" then (Some "provider name cannot be empty"%string, ac, w)
  else if String.eqb apiBase "" then (Some "API base URL cannot be empty"%string, ac, w)
  else if String.eqb token "" then (Some "API token cannot be empty"%string, ac, w)
  else
    let provider :=
      {| Name := name; APIBase := apiBase; Token := token; Enabled := true |} in
    let ac :=
      setConfig (setProviders (<[name := provider]> (Providers (config ac))) (config ac)) ac in
    let '(err, w) := Save ac w in
    (err, ac, w).

(** [AppConfig.DeleteProvider]. *)
Definition DeleteProvider (ac : AppConfig) (name : string) (w : World)
  : error * AppConfig * World :=
  match Providers (config ac) !! name with
  | None => (Some (notFound name), ac, w)
  | Some _ =>
      let ac :=
        setConfig (setProviders (delete name (Providers (config ac))) (config ac)) ac in
      let '(err, w) := Save ac w in
      (err, ac, w)
  end.

(** [AppConfig.SetServerPort]. *)
Definition SetServerPort (ac : AppConfig) (port : Z) (w : World)
  : error * AppConfig * World :=
  let ac := setConfig (setServerPort port (config ac)) ac in
  let '(err, w) := Save ac w in
  (err, ac, w).

End Mutators.

End config.

(** ** [internal/config]: the PID file of the server *)

Module pid.

Record PIDManager : Type := {
  pidFile : string;
  createdTime : Z;
}.

(** A file: its content and the time it was last written, in nanoseconds
    since 1970. *)
Record File : Type := {
  content : string;
  modTime : Z;
}.

(** The error of [Process.Signal]: whether it is [syscall.ESRCH] or
    [syscall.EPERM], and its text. *)
Record SignalError : Type := {
  isESRCH : bool;
  isEPERM : bool;
  signalText : string;
}.

(** What the manager touches outside the process: the files; the paths
    the process has no right to create, read or remove; the identifier of
    the process; the clock, in nanoseconds since 1970; the errors, if any,
    that writing to an open file and closing it meet; the operating
    system; the processes [os.FindProcess] finds, what signal 0 reports
    for each, and whether that report takes more than a second. *)
Record World : Type := {
  files : gmap string File;
  denied : gset string;
  processID : Z;
  now : Z;
  writeFault : option string;
  closeFault : option string;
  GOOS : string;
  findProcess : Z -> bool;
  signal : Z -> option SignalError;
  signalIsSlow : Z -> bool;
}.

Definition setFiles (fs : gmap string File) (w : World) : World :=
  {| files := fs; denied := denied w; processID := processID w; now := now w;
     writeFault := writeFault w; closeFault := closeFault w; GOOS := GOOS w;
     findProcess := findProcess w; signal := signal w; signalIsSlow := signalIsSlow w |}.

Definition permission : string := "permission denied".

Definition second : Z := 1000000000.
Definition minute : Z := 60 * second.
Definition hour : Z := 60 * minute.

(** [os.Remove]. *)
Definition os_Remove (w : World) (name : string) : error * World :=
  match files w !! name with
  | None => (Some "no such file or directory"%string, w)
  | Some _ =>
      if decide (name ∈ denied w) then (Some permission, w)
      else (None, setFiles (delete name (files w)) w)
  end.

(** [os.ReadFile]. *)
Definition os_ReadFile (w : World) (name : string) : result string :=
  match files w !! name with
  | None => Err "no such file or directory"
  | Some file => if decide (name ∈ denied w) then Err permission else Ok (content file)
  end.

Definition newline : ascii := "010"%char.

(** [PIDManager.CreatePIDFile]: the error, the manager (the time of
    creation is recorded before the file is opened) and the world.  The
    file is opened with [O_CREATE|O_EXCL], which creates it empty; when
    the write fails it is removed again.  The line the method prints on
    the standard output is left out. *)
Definition CreatePIDFile (pm : PIDManager) (w : World) : error * PIDManager * World :=
  let pid := processID w in
  let pm := {| pidFile := pidFile pm; createdTime := now w / second |} in
  let text :=
    String.append (pretty pid) (String newline (pretty (createdTime pm))) in
  match files w !! pidFile pm with
  | Some _ =>
      (Some "PID file already exists, server may already be running"%string, pm, w)
  | None =>
      if decide (pidFile pm ∈ denied w) then
        (Some (String.append "failed to create PID file: " permission), pm, w)
      else
        let w :=
          setFiles (<[pidFile pm := {| content := ""; modTime := now w |}]> (files w)) w in
        match writeFault w with
        | Some err =>
            let '(_, w) := os_Remove w (pidFile pm) in
            (Some (String.append "failed to write PID file: " err), pm, w)
        | None =>
            let w :=
              setFiles (<[pidFile pm := {| content := text; modTime := now w |}]> (files w))
                w in
            (closeFault w, pm, w)
        end
  end.

(** [PIDManager.RemovePIDFile]. *)
Definition RemovePIDFile (pm : PIDManager) (w : World) : error * World :=
  os_Remove w (pidFile pm).

(** [PIDManager.GetPIDFilePath]. *)
Definition GetPIDFilePath (pm : PIDManager) : string := pidFile pm.

(** The first line of the file, cut of the white space around the
    content: what [GetPID] and [IsRunning] parse.  [None] when it is
    empty. *)
Definition firstLine (pidData : string) : option string :=
  match strings.Split (strings.TrimSpace pidData) newline with
  | [] => None
  | line :: _ => if String.eqb line "" then None else Some line
  end.

Section Manager.
(** The text of the error [strconv.Atoi] returns on a string it rejects. *)
Variable strconv_AtoiError : string -> string.

(** [PIDManager.GetPID]. *)
Definition GetPID (pm : PIDManager) (w : World) : result Z :=
  match files w !! pidFile pm with
  | None => Err "PID file does not exist"
  | Some _ =>
      match os_ReadFile w (pidFile pm) with
      | Err err => Err (String.append "failed to read PID file: " err)
      | Ok pidData =>
          match firstLine pidData with
          | None => Err "PID file is empty or invalid"
          | Some line =>
              match strconv.Atoi line with
              | Some pid => Ok pid
              | None => Err (strconv_AtoiError line)
              end
          end
      end
  end.

End Manager.

(** [PIDManager.isProcessRunningUnix]. *)
Definition isProcessRunningUnix (w : World) (pid : Z) : bool :=
  if negb (findProcess w pid) then false
  else
    match signal w pid with
    | Some err =>
        if isESRCH err then false
        else if isEPERM err then true
        else false
    | None => true
    end.

(** [PIDManager.isProcessRunningWindows]: the signal is sent from a
    goroutine, and the method waits a second for its report; when none
    comes in time the process counts as running.  The [recover] of the
    goroutine has nothing to catch here: [signal] always reports. *)
Definition isProcessRunningWindows (w : World) (pid : Z) : bool :=
  if negb (findProcess w pid) then false
  else if signalIsSlow w pid then true
  else
    match signal w pid with
    | None => true
    | Some err => String.eqb (signalText err) "access denied"
    end.

(** [PIDManager.verifyProcessStartTime]; [pidFileTime] is in nanoseconds
    since 1970.  Field 22 of the stat file is divided by 100 and taken for
    seconds since 1970. *)
Definition verifyProcessStartTime (w : World) (pid : Z) (pidFileTime : Z) : bool :=
  if negb (findProcess w pid) then false
  else
    let fallback :=
      match signal w pid with
      | Some _ => false
      | None => true
      end in
    if negb (String.eqb (GOOS w) "windows") then
      let statPath := String.append "/proc/" (String.append (pretty pid) "/stat") in
      match os_ReadFile w statPath with
      | Ok statData =>
          let fields := strings.Fields statData in
          if (21 <? List.length fields)%nat then
            match strconv.Atoi (nth 21 fields EmptyString) with
            | Some startTicks =>
                pidFileTime - minute <? Z.quot startTicks 100 * second
            | None => fallback
            end
          else fallback
      | Err _ => fallback
      end
    else fallback.

(** [PIDManager.IsRunning]: the answer, and the world, from which a stale
    file has been removed. *)
Definition IsRunning (pm : PIDManager) (w : World) : bool * World :=
  match files w !! pidFile pm with
  | None => (false, w)
  | Some file =>
      if 24 * hour <? now w - modTime file then
        let '(_, w) := os_Remove w (pidFile pm) in (false, w)
      else
        match os_ReadFile w (pidFile pm) with
        | Err _ => (false, w)
        | Ok pidData =>
            match firstLine pidData with
            | None => (false, w)
            | Some line =>
                match strconv.Atoi line with
                | None => (false, w)
                | Some pid =>
                    if negb (verifyProcessStartTime w pid (modTime file)) then (false, w)
                    else if String.eqb (GOOS w) "windows"
                    then (isProcessRunningWindows w pid, w)
                    else (isProcessRunningUnix w pid, w)
                end
            end
        end
  end.

End pid.

(** ** [internal/server]: the choice of a provider (handlers.go) *)

Module handlers.

Section Determine.
Context `{config.ProviderRange}.
(** [strings.ToLower], with Go's tables of Unicode letters. *)
Variable strings_ToLower : string -> string.

(** The test of the second loop of [determineProvider]: the provider's
    base URL and the model name point to the same vendor. *)
Definition vendorMatches (provider : config.Provider) (model : string) : bool :=
  (strings.Contains (strings_ToLower (config.APIBase provider)) "openai"
   && (strings.HasPrefix (strings_ToLower model) "gpt"
       || strings.Contains (strings_ToLower model) "openai"))
  || (strings.Contains (strings_ToLower (config.APIBase provider)) "anthropic"
      && strings.HasPrefix (strings_ToLower model) "claude").

(** [Server.determineProvider]. *)
Definition determineProvider (ac : config.AppConfig) (model explicitProvider : string)
  : result config.Provider :=
  let providers := config.ListProviders ac in
  if (List.length providers =? 0)%nat then Err "no providers configured"
  else if negb (String.eqb explicitProvider "") then
    match List.find (fun provider => String.eqb (config.Name provider) explicitProvider
                                     && config.Enabled provider) providers with
    | Some provider => Ok provider
    | None =>
        Err (String.append "provider '"
               (String.append explicitProvider "' not found or disabled"))
    end
  else
    match List.find (fun provider => config.Enabled provider && vendorMatches provider model)
            providers with
    | Some provider => Ok provider
    | None =>
        match List.find config.Enabled providers with
        | Some provider => Ok provider
        | None => Err "no enabled providers available"
        end
    end.

End Determine.

End handlers.

(** * Statements of the specification

    The predicates below follow the words of the specification; the
    theorems at the end of the file compare them with the functions
    above. *)

Module RoutingSpec.

Import smartrouting.

Section Select.
Context `{GlobPkg}.

(** All Ops of the rule evaluate true on the request (AND semantics). *)
Definition rule_matches (ctx : RequestContext) (rule : SmartRouting) : Prop :=
  Forall (fun op => evaluateOp ctx op = true) (Ops rule).

(** [res] is what the specification's selection returns on [rs]: the
    services of the first rule, in declaration order, that matches, with
    the match reported; the empty list and no match when no rule does. *)
Definition first_match (ctx : RequestContext) (rs : list SmartRouting)
    (res : list loadbalance.Service * bool) : Prop :=
  (exists (i : nat) (rule : SmartRouting),
      rs !! i = Some rule
      /\ rule_matches ctx rule
      /\ (forall (j : nat) (rule' : SmartRouting),
            (j < i)%nat -> rs !! j = Some rule' -> ~ rule_matches ctx rule')
      /\ res = (Services rule, true))
  \/ ((forall rule, In rule rs -> ~ rule_matches ctx rule) /\ res = ([], false)).

End Select.

(** The operation is one of those the registry [AllOperations] lists for
    the position (the table of permitted operations per position). *)
Definition position_allows (pos : SmartOpPosition) (operation : SmartOpOperation) : Prop :=
  exists d, In d AllOperations /\ def_Position d = pos /\ def_Operation d = operation.

(** The value type the registry declares for the Op's operation. *)
Definition declaredValueType (op : SmartOp) : option SmartOpValueType :=
  def_ValueType <$>
    List.find (fun d => String.eqb (def_Position d) (Position op)
                        && String.eqb (def_Operation d) (Operation op))
      AllOperations.

(** What the validator checks of a rule. *)
Definition well_formed_rule (rule : SmartRouting) : Prop :=
  Description rule <> ""%string
  /\ Ops rule <> []
  /\ Services rule <> []
  /\ Forall (fun svc => loadbalance.Provider svc <> ""%string
                        /\ loadbalance.Model svc <> ""%string) (Services rule)
  /\ Forall (fun op => position_allows (Position op) (Operation op)) (Ops rule).

(** The estimate as the specification words it: the code points of each
    text piece are counted and divided by 4, and the quotients are summed.
    The tokenizer of the code is [EstimateTokens]. *)
Definition estimate_per_piece (pieces : list string) : Z :=
  fold_right Z.add 0 (map (fun piece => utf8.RuneCountInString piece / 4) pieces).

(** The role of the last message of a parsed request, when it has one. *)
Definition lastMessageRole (v : fastjson.Value) : option string :=
  match List.last (fastjson.GetArray v "messages") fastjson.Null with
  | fastjson.Object msgObj => stringMember msgObj "role"
  | _ => None
  end.

End RoutingSpec.

Module CountTokensSpec.

Import server.

(** The text pieces of a count request, system and user content: the
    system blocks, then the text blocks of the user messages. *)
Definition textPieces (messages : list BetaMessageParam) (system : list string) : list string :=
  system
  ++ flat_map
       (fun msg =>
          if String.eqb (Role msg) "user" then
            flat_map (fun block => match block with BetaTextBlock t => [t] | _ => [] end)
              (Content msg)
          else [])
       messages.


End CountTokensSpec.

Module AdaptorSpec.

(** The contents of the system-role messages of a request, in order. *)
Definition systemContents (req : openai.ChatCompletionNewParams) : list string :=
  flat_map
    (fun msg =>
       match openai.GetRole msg, openai.content msg with
       | Some role, openai.ContentString s =>
           if String.eqb role "system" && negb (String.eqb s "") then [s] else []
       | _, _ => []
       end)
    (openai.Messages req).

(** The system field the specification asks for: the system contents
    joined by newlines. *)
Definition expectedSystem (req : openai.ChatCompletionNewParams) : string :=
  strings.Join (systemContents req) smartrouting.newline.

(** The finish-reason table of the specification. *)
Definition expectedStopReason (finishReason : string) : string :=
  if String.eqb finishReason "tool_calls" then "tool_use"
  else if String.eqb finishReason "length" then "max_tokens"
  else if String.eqb finishReason "content_filter" then "refusal"
  else "end_turn".

End AdaptorSpec.

Module StreamSpec.

Import adaptorstream.

(** The indices of the blocks a list of events opens, in order. *)
Definition openedBlocks (evs : list Event) : list Z :=
  flat_map
    (fun e =>
       match e with
       | content_block_start_text i => [i]
       | content_block_start_tool_use i _ _ => [i]
       | _ => []
       end) evs.

(** The indices of the text blocks and of the tool-use blocks it opens. *)
Definition textBlocks (evs : list Event) : list Z :=
  flat_map (fun e => match e with content_block_start_text i => [i] | _ => [] end) evs.

Definition toolBlocks (evs : list Event) : list Z :=
  flat_map (fun e => match e with content_block_start_tool_use i _ _ => [i] | _ => [] end) evs.

(** The indices of the blocks a list of events closes, in order. *)
Definition stoppedBlocks (evs : list Event) : list Z :=
  flat_map (fun e => match e with content_block_stop i => [i] | _ => [] end) evs.

(** The events that end a block or the message. *)
Definition closing (e : Event) : bool :=
  match e with
  | content_block_stop _ | message_delta _ _ | message_stop | error_event _ => true
  | _ => false
  end.

(** The chunk carries a finish reason. *)
Definition finishes (chunk : openai.ChatCompletionChunk) : bool :=
  match openai.chunk_Choices chunk with
  | [] => false
  | choice :: _ => negb (String.eqb (openai.chunk_FinishReason choice) "")
  end.

Definition finishReasonOf (chunk : openai.ChatCompletionChunk) : string :=
  match openai.chunk_Choices chunk with
  | [] => EmptyString
  | choice :: _ => openai.chunk_FinishReason choice
  end.


(** No text arrives for the first time after a tool call has: the first
    chunk with text content, if there is one, has no chunk with tool calls
    before it.  [seenTool] tells whether a tool call has been seen. *)
Fixpoint textFirst (seenTool : bool) (cs : list openai.ChatCompletionChunk) : bool :=
  match cs with
  | [] => true
  | chunk :: rest =>
      match openai.chunk_Choices chunk with
      | [] => textFirst seenTool rest
      | choice :: _ =>
          let delta := openai.Delta choice in
          if negb (String.eqb (openai.delta_Content delta) "") then negb seenTool
          else
            textFirst
              (seenTool || (0 <? List.length (openai.delta_ToolCalls delta))%nat) rest
      end
  end.

(** What one chunk that does not end the message makes the handler send,
    and the state it leaves. *)
Definition stepChunk (st : streamState) (chunk : openai.ChatCompletionChunk)
  : list Event * streamState :=
  match openai.chunk_Choices chunk with
  | [] => ([], handleUsageOnly st chunk)
  | choice :: _ => handleChoice st chunk choice
  end.

Fixpoint run (st : streamState) (cs : list openai.ChatCompletionChunk)
  : list Event * streamState :=
  match cs with
  | [] => ([], st)
  | chunk :: rest =>
      let '(evs, st1) := stepChunk st chunk in
      let '(evs', st2) := run st1 rest in
      (evs ++ evs', st2)
  end.

End StreamSpec.

(** * Reference instances of the external packages

    The theorems below hold for every implementation of the interfaces
    [GlobPkg] and [fastjson.FastJSON].  The examples run the code on
    concrete request bodies; for that they use a small glob matcher and a
    small JSON reader and printer. *)

Module Reference.

Import fastjson.

(** *** Glob patterns with [*] and [?] *)

Fixpoint globMatch (pattern text : string) : bool :=
  match pattern with
  | EmptyString => match text with EmptyString => true | _ => false end
  | String p pattern' =>
      if Ascii.eqb p "*" then
        (fix star (t : string) : bool :=
           globMatch pattern' t
           || match t with
              | EmptyString => false
              | String _ t' => star t'
              end) text
      else
        match text with
        | EmptyString => false
        | String c text' =>
            (Ascii.eqb p "?" || Ascii.eqb p c) && globMatch pattern' text'
        end
  end.

#[export] Instance refGlob : GlobPkg := {|
  Glob := string;
  glob_Compile := fun pattern => Some pattern;
  glob_Match := globMatch;
|}.

(** *** JSON text *)

Definition dquote : ascii := "034"%char.
Definition backslash : ascii := "092"%char.

Definition isWS (c : ascii) : bool :=
  Ascii.eqb c " " || Ascii.eqb c "009" || Ascii.eqb c "010" || Ascii.eqb c "013".

Fixpoint skipWS (s : string) : string :=
  match s with
  | String c s' => if isWS c then skipWS s' else s
  | EmptyString => s
  end.

Definition unescape (e : ascii) : option ascii :=
  if Ascii.eqb e dquote then Some dquote
  else if Ascii.eqb e backslash then Some backslash
  else if Ascii.eqb e "/" then Some "/"%char
  else if Ascii.eqb e "n" then Some "010"%char
  else if Ascii.eqb e "t" then Some "009"%char
  else if Ascii.eqb e "r" then Some "013"%char
  else None.

(** The rest of a string literal, after its opening quote. *)
Fixpoint parseStringBody (s : string) : option (string * string) :=
  match s with
  | EmptyString => None
  | String c rest =>
      if Ascii.eqb c dquote then Some (EmptyString, rest)
      else if Ascii.eqb c backslash then
        match rest with
        | String e rest' =>
            match unescape e, parseStringBody rest' with
            | Some d, Some (t, r) => Some (String d t, r)
            | _, _ => None
            end
        | EmptyString => None
        end
      else
        match parseStringBody rest with
        | Some (t, r) => Some (String c t, r)
        | None => None
        end
  end.

Definition isNumberByte (c : ascii) : bool :=
  let n := nat_of_ascii c in
  ((48 <=? n) && (n <=? 57))%nat
  || Ascii.eqb c "-" || Ascii.eqb c "+" || Ascii.eqb c "." || Ascii.eqb c "e" || Ascii.eqb c "E".

Fixpoint spanNumber (s : string) : string * string :=
  match s with
  | String c s' =>
      if isNumberByte c then let '(n, r) := spanNumber s' in (String c n, r)
      else (EmptyString, s)
  | EmptyString => (EmptyString, EmptyString)
  end.

Section Containers.
Variable parseValue : string -> option (Value * string).

Fixpoint parseElements (n : nat) (s : string) (acc : list Value)
  : option (list Value * string) :=
  match n with
  | O => None
  | S n' =>
      match parseValue s with
      | Some (v, rest) =>
          match skipWS rest with
          | String c rest' =>
              if Ascii.eqb c "," then parseElements n' rest' (acc ++ [v])
              else if Ascii.eqb c "]" then Some (acc ++ [v], rest')
              else None
          | EmptyString => None
          end
      | None => None
      end
  end.

Fixpoint parseMembers (n : nat) (s : string) (acc : list (string * Value))
  : option (list (string * Value) * string) :=
  match n with
  | O => None
  | S n' =>
      match skipWS s with
      | String q afterQuote =>
          if Ascii.eqb q dquote then
            match parseStringBody afterQuote with
            | Some (key, afterKey) =>
                match skipWS afterKey with
                | String colon afterColon =>
                    if Ascii.eqb colon ":" then
                      match parseValue afterColon with
                      | Some (v, rest) =>
                          match skipWS rest with
                          | String c rest' =>
                              if Ascii.eqb c "," then parseMembers n' rest' (acc ++ [(key, v)])
                              else if Ascii.eqb c "}" then Some (acc ++ [(key, v)], rest')
                              else None
                          | EmptyString => None
                          end
                      | None => None
                      end
                    else None
                | EmptyString => None
                end
            | None => None
            end
          else None
      | EmptyString => None
      end
  end.

End Containers.

Fixpoint parseValue (fuel : nat) (s : string) : option (Value * string) :=
  match fuel with
  | O => None
  | S fuel' =>
      match skipWS s with
      | EmptyString => None
      | String c rest as s0 =>
          if Ascii.eqb c "{" then
            match skipWS rest with
            | String "}" r => Some (Object [], r)
            | r =>
                match parseMembers (parseValue fuel') (String.length r) r [] with
                | Some (kvs, r') => Some (Object kvs, r')
                | None => None
                end
            end
          else if Ascii.eqb c "[" then
            match skipWS rest with
            | String "]" r => Some (Array [], r)
            | r =>
                match parseElements (parseValue fuel') (String.length r) r [] with
                | Some (a, r') => Some (Array a, r')
                | None => None
                end
            end
          else if Ascii.eqb c dquote then
            match parseStringBody rest with
            | Some (t, r) => Some (String_ t, r)
            | None => None
            end
          else if strings.HasPrefix s0 "true" then Some (True_, utf8.dropBytes 4 s0)
          else if strings.HasPrefix s0 "false" then Some (False_, utf8.dropBytes 5 s0)
          else if strings.HasPrefix s0 "null" then Some (Null, utf8.dropBytes 4 s0)
          else if isNumberByte c then
            let '(n, r) := spanNumber s0 in Some (Number n, r)
          else None
      end
  end.

Definition parse (body : string) : result Value :=
  match parseValue (S (String.length body)) body with
  | Some (v, rest) =>
      match skipWS rest with
      | EmptyString => Ok v
      | _ => Err "unexpected tail"
      end
  | None => Err "cannot parse JSON"
  end.

Fixpoint escape (s : string) : string :=
  match s with
  | EmptyString => EmptyString
  | String c s' =>
      if Ascii.eqb c dquote || Ascii.eqb c backslash
      then String backslash (String c (escape s'))
      else String c (escape s')
  end.

Fixpoint marshal (v : Value) : string :=
  match v with
  | Null => "null"
  | True_ => "true"
  | False_ => "false"
  | Number raw => raw
  | String_ s => String dquote (String.append (escape s) (String dquote EmptyString))
  | Array a =>
      String.append "["
        (String.append
           ((fix elements (l : list Value) : string :=
               match l with
               | [] => EmptyString
               | x :: r =>
                   String.append (marshal x)
                     match r with
                     | [] => EmptyString
                     | _ => String.append "," (elements r)
                     end
               end) a) "]")
  | Object kvs =>
      String.append "{"
        (String.append
           ((fix members (l : list (string * Value)) : string :=
               match l with
               | [] => EmptyString
               | (k, x) :: r =>
                   String.append
                     (String dquote (String.append (escape k) (String dquote ":")))
                     (String.append (marshal x)
                        match r with
                        | [] => EmptyString
                        | _ => String.append "," (members r)
                        end)
               end) kvs) "}")
  end.

#[export] Instance refJSON : FastJSON := {|
  ParseBytes := parse;
  MarshalTo := marshal;
|}.

#[export] Instance refEncodingJSON : EncodingJSON := {|
  json_Unmarshal := fun text =>
    match parse text with
    | Ok v => Some v
    | Err _ => None
    end;
|}.

(** Two of the orders a map may be ranged over: keys ascending, and keys
    descending. *)
#[export] Instance ascendingMapRange : adaptorstream.MapRange := {|
  adaptorstream.rangeKeys := fun m => merge_sort Z.le (adaptorstream.keys m);
  adaptorstream.rangeKeys_perm := fun m => merge_sort_Permutation Z.le (adaptorstream.keys m);
|}.



(** *** A codec for the configuration, through JSON text *)

Definition providerValue (p : config.Provider) : Value :=
  Object [ ("name"%string, String_ (config.Name p));
           ("api_base"%string, String_ (config.APIBase p));
           ("token"%string, String_ (config.Token p));
           ("enabled"%string, if config.Enabled p then True_ else False_) ].

Definition configValue (c : config.Config) : Value :=
  Object [ ("providers"%string,
            Object (map (fun kp => (kp.1, providerValue kp.2))
                      (map_to_list (config.Providers c))));
           ("server_port"%string, Number (pretty (config.ServerPort c)));
           ("jwt_secret"%string, String_ (config.JWTSecret c)) ].

Definition providerOfValue (v : Value) : config.Provider :=
  {| config.Name := default EmptyString (GetStringBytes v "name");
     config.APIBase := default EmptyString (GetStringBytes v "api_base");
     config.Token := default EmptyString (GetStringBytes v "token");
     config.Enabled := match Get v "enabled" with Some True_ => true | _ => false end |}.

Definition configOfValue (v : Value) : config.Config :=
  {| config.Providers :=
       match Get v "providers" with
       | Some (Object kvs) => list_to_map (map (fun kv => (kv.1, providerOfValue kv.2)) kvs)
       | _ => ∅
       end;
     config.ServerPort :=
       match Get v "server_port" with
       | Some (Number raw) => default 0 (strconv.Atoi raw)
       | _ => 0
       end;
     config.JWTSecret := default EmptyString (GetStringBytes v "jwt_secret") |}.

#[export] Instance refConfigJSON : config.ConfigJSON := {|
  config.json_Marshal := fun c => Ok (list_ascii_of_string (marshal (configValue c)));
  config.json_Unmarshal := fun data =>
    match parse (string_of_list_ascii data) with
    | Ok v => Ok (configOfValue v)
    | Err e => Err e
    end;
|}.

(** *** A toy authenticated cipher

    Every byte is masked with a byte derived from the nonce; the tag is a
    one-byte checksum of the nonce, the masked text and the additional
    data. *)

Definition xorByte (a b : ascii) : ascii :=
  let '(Ascii a0 a1 a2 a3 a4 a5 a6 a7) := a in
  let '(Ascii b0 b1 b2 b3 b4 b5 b6 b7) := b in
  Ascii (xorb a0 b0) (xorb a1 b1) (xorb a2 b2) (xorb a3 b3)
        (xorb a4 b4) (xorb a5 b5) (xorb a6 b6) (xorb a7 b7).

Definition checksum (bs : bytes) : ascii := fold_right xorByte zero bs.

Definition toyMask (nonce plaintext : bytes) : bytes :=
  map (xorByte (checksum nonce)) plaintext.

Definition toyTag (nonce masked additionalData : bytes) : ascii :=
  checksum (nonce ++ masked ++ additionalData).

Definition toySeal (dst nonce plaintext additionalData : bytes) : bytes :=
  dst ++ toyMask nonce plaintext
      ++ [toyTag nonce (toyMask nonce plaintext) additionalData].

Definition toyOpen (dst nonce ciphertext additionalData : bytes) : result bytes :=
  match reverse ciphertext with
  | [] => Err "cipher: message authentication failed"
  | tag :: body =>
      let masked := reverse body in
      if Ascii.eqb tag (toyTag nonce masked additionalData)
      then Ok (dst ++ toyMask nonce masked)
      else Err "cipher: message authentication failed"
  end.

Lemma xorByte_involutive (k b : ascii) : xorByte k (xorByte k b) = b.
Proof. destruct k, b. simpl. by rewrite <- !xorb_assoc, !xorb_nilpotent, !xorb_false_l. Qed.

Lemma toyMask_involutive (nonce plaintext : bytes) :
  toyMask nonce (toyMask nonce plaintext) = plaintext.
Proof.
  unfold toyMask. induction plaintext as [|b p IH]; simpl; [done|].
  by rewrite xorByte_involutive, IH.
Qed.

Lemma toyOpen_toySeal (nonce plaintext additionalData : bytes) :
  List.length nonce = 12%nat ->
  toyOpen [] nonce (toySeal [] nonce plaintext additionalData) additionalData = Ok plaintext.
Proof.
  intros _. unfold toyOpen, toySeal. simpl.
  rewrite reverse_snoc, reverse_involutive, Ascii.eqb_refl.
  by rewrite toyMask_involutive.
Qed.

#[export] Instance toyAEAD : cipher.AEAD := {|
  cipher.NonceSize := 12;
  cipher.Seal := toySeal;
  cipher.Open := toyOpen;
  cipher.Seal_dst := fun dst nonce plaintext additionalData => eq_refl;
  cipher.Open_Seal := toyOpen_toySeal;
|}.

(** *** The collaborators of the count-tokens handler *)

Definition betaBlock (v : Value) : server.BetaContentBlockParam :=
  match GetStringBytes v "type", GetStringBytes v "text" with
  | Some type, Some text =>
      if String.eqb type "text" then server.BetaTextBlock text else server.BetaOtherBlock v
  | _, _ => server.BetaOtherBlock v
  end.

Definition betaMessage (v : Value) : server.BetaMessageParam :=
  {| server.Role := default EmptyString (GetStringBytes v "role");
     server.Content :=
       match Get v "content" with
       | Some (String_ s) => [server.BetaTextBlock s]
       | Some (Array blocks) => map betaBlock blocks
       | _ => []
       end |}.

Definition countParams (v : Value) : server.BetaMessageCountTokensParams :=
  {| server.Model := default EmptyString (GetStringBytes v "model");
     server.Messages := map betaMessage (GetArray v "messages");
     server.System :=
       match Get v "system" with
       | Some (String_ s) => [s]
       | Some (Array blocks) =>
           flat_map (fun b => match GetStringBytes b "text" with
                              | Some t => [t]
                              | None => []
                              end) blocks
       | _ => []
       end |}.

(** The upstream of the examples answers with one token per byte of text. *)
#[export] Instance refUpstream : server.Upstream := {|
  server.ShouldBindJSON := fun body =>
    match parse body with
    | Ok v => Ok (countParams v)
    | Err e => Err e
    end;
  server.BetaMessagesCountTokens := fun provider model req =>
    Ok {| server.InputTokens :=
            Z.of_nat (String.length
                        (String.concat ""
                           (CountTokensSpec.textPieces (server.Messages req) (server.System req)))) |};
|}.

(** Request bodies are written below with apostrophes where JSON has
    double quotes; [json] puts the double quotes back. *)
Fixpoint json (s : string) : string :=
  match s with
  | EmptyString => EmptyString
  | String c s' => String (if Ascii.eqb c "'" then dquote else c) (json s')
  end.

(** The providers in ascending order of their keys. *)
#[export] Instance ascendingProviders : config.ProviderRange := {|
  config.rangeProviders := fun m => merge_sort (fun a b => String.leb a.1 b.1) (map_to_list m);
  config.rangeProviders_perm := fun m =>
    merge_sort_Permutation (fun a b => String.leb a.1 b.1) (map_to_list m);
|}.

End Reference.

(** * Example inputs *)

Module Examples.

Import smartrouting Reference.

Definition noMeta : SmartOpMeta := {| meta_Description := ""; meta_Type := None |}.

Definition mkOp (position operation value : string) : SmartOp :=
  {| Position := position; Operation := operation; Value := value; Meta := noMeta |}.

Definition svc (provider model : string) : loadbalance.Service :=
  {| loadbalance.Provider := provider; loadbalance.Model := model;
     loadbalance.Weight := 1; loadbalance.Active := true |}.

(** The two rules of the router's own test [TestRouter_EvaluateRequest]. *)
Definition haikuRule : SmartRouting :=
  {| Description := "Route haiku models";
     Ops := [mkOp PositionModel "contains" "haiku"];
     Services := [svc "haiku-provider" "claude-3-5-haiku-20241022"] |}.

Definition thinkingRule : SmartRouting :=
  {| Description := "Route thinking requests";
     Ops := [mkOp PositionThinking "enabled" "true"];
     Services := [svc "thinking-provider" "claude-3-5-sonnet-20241022"] |}.

Definition testRouter : Router := {| rules := [haikuRule; thinkingRule] |}.

(** A token rule whose value is not a number. *)
Definition tokenRule : SmartRouting :=
  {| Description := "Route long requests";
     Ops := [mkOp PositionToken "ge" "abc"];
     Services := [svc "big-provider" "big-model"] |}.

(** A system piece and a user piece of three bytes each. *)
Definition twoPieces : string :=
  json "{'model':'m','messages':[{'role':'system','content':'abc'},{'role':'user','content':'abc'}]}".

Definition twoPiecesContext : RequestContext :=
  Eval vm_compute in
    match ExtractContextFromOpenAIRequest twoPieces with
    | Ok ctx => ctx
    | Err _ => emptyContext
    end.

(** Four two-byte code points (U+00E9) in one user message. *)
Definition accents : string :=
  let e := String "195" (String "169" EmptyString) in
  String.append (json "{'messages':[{'role':'user','content':'")
    (String.append e (String.append e (String.append e (String.append e (json "'}]}"))))).

Definition accentsContext : RequestContext :=
  Eval vm_compute in
    match ExtractContextFromOpenAIRequest accents with
    | Ok ctx => ctx
    | Err _ => emptyContext
    end.

(** A conversation whose last message is the assistant's. *)
Definition assistantLast : string :=
  json "{'model':'m','messages':[{'role':'user','content':'the secret plan'},{'role':'assistant','content':'ok'}]}".

Definition assistantLastValue : fastjson.Value :=
  Eval vm_compute in
    match parse assistantLast with
    | Ok v => v
    | Err _ => fastjson.Null
    end.

Definition assistantLastContext : RequestContext :=
  Eval vm_compute in contextOfOpenAI assistantLastValue.

Definition secretOp : SmartOp := mkOp PositionUser OpUserContains "secret".

(** An Anthropic request with thinking enabled, an image and tools. *)
Definition anthropicRequest : string :=
  json "{'model':'claude-sonnet-4','system':'Be brief.','thinking':{'type':'enabled','budget_tokens':1024},'messages':[{'role':'user','content':[{'type':'text','text':'What is this?'},{'type':'image','source':{}}]},{'role':'assistant','content':[{'type':'tool_use','id':'t1','name':'describe','input':{}}]}],'tools':[{'name':'describe'},{'name':'search'}]}".

(** A body cut off in the middle. *)
Definition truncated : string := json "{'model':'claude-3-5-haiku-20241022','messages':[".

(** A system prompt followed by a user turn. *)
Definition systemThenUser : openai.ChatCompletionNewParams :=
  {| openai.Messages :=
       [ {| openai.GetRole := Some "system"%string;
            openai.content := openai.ContentString "You are terse.";
            openai.tool_calls := []; openai.tool_call_id := None |};
         {| openai.GetRole := Some "user"%string;
            openai.content := openai.ContentString "hi";
            openai.tool_calls := []; openai.tool_call_id := None |} ];
     openai.Model := "claude-3-5-haiku-20241022";
     openai.MaxTokens := 1024 |}.

(** A completion cut off by the token limit. *)
Definition cutOff : openai.ChatCompletion :=
  {| openai.Choices :=
       [ {| openai.Message := {| openai.Content := "Once upon a"; openai.ToolCalls := [] |};
            openai.FinishReason := "length" |} ];
     openai.Usage := {| openai.PromptTokens := 12; openai.CompletionTokens := 3 |} |}.

(** Scenario C of the specification: one tool call, finish reason tool_calls. *)
Definition lookupCall : openai.ChatCompletion :=
  {| openai.Choices :=
       [ {| openai.Message :=
              {| openai.Content := "";
                 openai.ToolCalls :=
                   [ {| openai.ID := "c1"; openai.Function_Name := "lookup";
                        openai.Function_Arguments := json "{'city':'SF'}" |} ] |};
            openai.FinishReason := "tool_calls" |} ];
     openai.Usage := {| openai.PromptTokens := 9; openai.CompletionTokens := 5 |} |}.

Definition noUsage : openai.CompletionUsage :=
  {| openai.PromptTokens := 0; openai.CompletionTokens := 0 |}.

Definition chunkOf (text : string) (calls : list openai.ChunkToolCall) (finish : string)
  : openai.ChatCompletionChunk :=
  {| openai.chunk_Choices :=
       [ {| openai.Delta := {| openai.delta_Content := text; openai.delta_ToolCalls := calls |};
            openai.chunk_FinishReason := finish |} ];
     openai.chunk_Usage := noUsage |}.

Definition callStart (index : Z) (id name : string) : openai.ChunkToolCall :=
  {| openai.Index := index; openai.chunk_ID := id; openai.chunk_Function_Name := name;
     openai.chunk_Function_Arguments := "" |}.


(** Scenario A of the specification: two text chunks, then finish reason
    stop; a chunk after it is never read. *)
Definition heLlo : list openai.ChatCompletionChunk := [ chunkOf "he" [] ""; chunkOf "llo" [] "" ].

Definition heLloStream : openai.Stream :=
  {| openai.chunks := heLlo ++ chunkOf "" [] "stop" :: [chunkOf "ignored" [] ""];
     openai.stream_Err := None |}.











(** A store with one provider. *)
Definition oneProvider : config.Config :=
  {| config.Providers :=
       {[ "openai"%string :=
            {| config.Name := "openai"; config.APIBase := "https://api.openai.com/v1";
               config.Token := "sk-test"; config.Enabled := true |} ]};
     config.ServerPort := 8080;
     config.JWTSecret := "1700000000000000000" |}.

Definition store : config.AppConfig :=
  {| config.configFile := "/home/user/.tingly-box/config.enc"; config.config := oneProvider |}.

Definition world : config.World :=
  {| config.files := ∅; config.readOnly := ∅;
     config.entropy := list_ascii_of_string "0123456789abcdefghijklmnopqrstuv";
     config.writeFault := None |}.

Definition savedWorld : config.World :=
  Eval vm_compute in (config.Save store world).2.

(** A rule without a description. *)
Definition namelessRule : SmartRouting :=
  {| Description := "";
     Ops := [mkOp PositionModel "contains" "gpt"];
     Services := [svc "p" "gpt-4"] |}.

(** An image in the first user turn, plain text in the latest one. *)
Definition imageThenText : string :=
  json "{'model':'m','messages':[{'role':'user','content':[{'type':'image','source':{}}]},{'role':'assistant','content':'A cat.'},{'role':'user','content':'Thanks'}]}".

Definition imageThenTextContext : RequestContext :=
  Eval vm_compute in
    match ExtractContextFromOpenAIRequest imageThenText with
    | Ok ctx => ctx
    | Err _ => emptyContext
    end.

(** An OpenAI request that carries a thinking member and an empty turn. *)
Definition openaiWithThinking : string :=
  json "{'model':'m','thinking':{'type':'enabled'},'messages':[{'role':'system','content':''},{'role':'user','content':'hi'}]}".

Definition openaiWithThinkingContext : RequestContext :=
  Eval vm_compute in
    match ExtractContextFromOpenAIRequest openaiWithThinking with
    | Ok ctx => ctx
    | Err _ => emptyContext
    end.

(** A world in which the configuration file cannot be written. *)
Definition lockedWorld : config.World :=
  {| config.files := ∅; config.readOnly := {[ config.configFile store ]};
     config.entropy := list_ascii_of_string "0123456789abcdefghijklmnopqrstuv";
     config.writeFault := None |}.

(** The saved world, on a disk that is full: the file can be opened, and
    no byte can be written. *)
Definition fullDisk : config.World :=
  {| config.files := config.files savedWorld; config.readOnly := ∅;
     config.entropy := list_ascii_of_string "0123456789abcdefghijklmnopqrstuv";
     config.writeFault := Some (0%nat, "no space left on device"%string) |}.

(** A store with a disabled OpenAI provider and an enabled Anthropic one. *)
Definition twoProviders : config.Config :=
  {| config.Providers :=
       {[ "openai"%string :=
            {| config.Name := "openai"; config.APIBase := "https://api.openai.com/v1";
               config.Token := "sk-test"; config.Enabled := false |};
          "claude"%string :=
            {| config.Name := "claude"; config.APIBase := "https://api.anthropic.com";
               config.Token := "sk-ant"; config.Enabled := true |} ]};
     config.ServerPort := 8080;
     config.JWTSecret := "1700000000000000000" |}.

(** A server process on a system with a proc file system, at the start
    of 2026; its process started 1234.56 seconds after the boot. *)
Definition serverStat : pid.File :=
  {| pid.content :=
       "4242 (tingly-box) S 1 4242 4242 0 -1 4194304 100 0 0 0 1 1 0 0 20 0 8 0 123456 1000000 200";
     pid.modTime := 1767225000 * pid.second |}.

Definition serverWorld : pid.World :=
  {| pid.files := {[ "/proc/4242/stat"%string := serverStat ]};
     pid.denied := ∅;
     pid.processID := 4242;
     pid.now := 1767225600 * pid.second;
     pid.writeFault := None;
     pid.closeFault := None;
     pid.GOOS := "linux";
     pid.findProcess := fun _ => true;
     pid.signal := fun _ => None;
     pid.signalIsSlow := fun _ => false |}.

Definition serverPID : pid.PIDManager :=
  {| pid.pidFile := "/home/user/.tingly-box/tingly-box.pid"; pid.createdTime := 0 |}.

(** The same two days later, the PID file of the server still there. *)
Definition twoDaysLater : pid.World :=
  {| pid.files := pid.files (pid.CreatePIDFile serverPID serverWorld).2;
     pid.denied := ∅;
     pid.processID := 4243;
     pid.now := (1767225600 + 2 * 86400) * pid.second;
     pid.writeFault := None;
     pid.closeFault := None;
     pid.GOOS := "linux";
     pid.findProcess := fun _ => true;
     pid.signal := fun _ => None;
     pid.signalIsSlow := fun _ => false |}.

(** A system without a proc file system. *)
Definition darwinWorld : pid.World :=
  {| pid.files := ∅;
     pid.denied := ∅;
     pid.processID := 4242;
     pid.now := 1767225600 * pid.second;
     pid.writeFault := None;
     pid.closeFault := None;
     pid.GOOS := "darwin";
     pid.findProcess := fun _ => true;
     pid.signal := fun _ => None;
     pid.signalIsSlow := fun _ => false |}.

End Examples.

(** * Properties of the smart router *)

Module RoutingProperties.

Import smartrouting RoutingSpec Reference.

Section Router.
Context `{GlobPkg}.

Lemma evaluateOps_Forall (ctx : RequestContext) (ops : list SmartOp) :
  evaluateOps ctx ops = true <-> Forall (fun op => evaluateOp ctx op = true) ops.
Proof.
  induction ops as [|op ops IH]; simpl.
  - split; [constructor | reflexivity].
  - destruct (evaluateOp ctx op) eqn:E; simpl.
    + rewrite IH. split; [by constructor | by inversion 1].
    + split; [discriminate | inversion 1; congruence].
Qed.

Lemma evaluateRule_matches (ctx : RequestContext) (rule : SmartRouting) :
  evaluateRule ctx rule = true <-> rule_matches ctx rule.
Proof. apply evaluateOps_Forall. Qed.

Lemma evaluateRules_first_match (ctx : RequestContext) (rs : list SmartRouting) :
  first_match ctx rs (evaluateRules ctx rs).
Proof.
  induction rs as [|rule rs IH]; simpl.
  - right. split; [intros ? [] | reflexivity].
  - destruct (evaluateRule ctx rule) eqn:E.
    + left. exists 0%nat, rule. repeat split; try done.
      * by apply evaluateRule_matches.
      * intros j ? Hj. lia.
    + assert (Hno : ~ rule_matches ctx rule).
      { rewrite <- evaluateRule_matches. congruence. }
      destruct IH as [(i & r & Hi & Hm & Hbefore & ->) | [Hnone ->]].
      * left. exists (S i), r. repeat split; try done.
        intros [|j] rule' Hj Hl; simpl in Hl.
        -- by inversion Hl; subst.
        -- apply (Hbefore j); [lia | done].
      * right. split; [|done]. intros r [<- | Hin]; auto.
Qed.

Lemma first_match_functional (ctx : RequestContext) (rs : list SmartRouting) res1 res2 :
  first_match ctx rs res1 -> first_match ctx rs res2 -> res1 = res2.
Proof.
  intros [(i & r & Hi & Hm & Hb & ->) | [Hn ->]] [(i' & r' & Hi' & Hm' & Hb' & ->) | [Hn' ->]].
  - destruct (Nat.lt_trichotomy i i') as [Hlt | [-> | Hgt]].
    + by destruct (Hb' i r Hlt Hi).
    + congruence.
    + by destruct (Hb i' r' Hgt Hi').
  - destruct (Hn' r); [|done]. apply list_elem_of_In, list_elem_of_lookup. eauto.
  - destruct (Hn r'); [|done]. apply list_elem_of_In, list_elem_of_lookup. eauto.
  - reflexivity.
Qed.

(** C1: the router's selection is a function of the request context and
    the rule list, and its value is exactly the one the specification
    describes: the service list of the first rule in declaration order all
    of whose Ops evaluate true, reported as a match, and the empty list
    with no match reported when no rule has all Ops true. *)
Theorem EvaluateRequest_first_match (r : Router) (ctx : RequestContext)
    (res : list loadbalance.Service * bool) :
  EvaluateRequest r ctx = res <-> first_match ctx (rules r) res.
Proof.
  unfold EvaluateRequest. split.
  - intros <-. apply evaluateRules_first_match.
  - intros Hres. eapply first_match_functional; [apply evaluateRules_first_match | exact Hres].
Qed.

End Router.

(** ** The rule validator *)

Lemma IsValid_cases (pos : SmartOpPosition) :
  IsValid pos = true ->
  pos = PositionModel \/ pos = PositionThinking \/ pos = PositionSystem
  \/ pos = PositionUser \/ pos = PositionToolUse \/ pos = PositionToken.
Proof.
  unfold IsValid. rewrite !orb_true_iff, !String.eqb_eq. tauto.
Qed.

Lemma opIn_In (op : SmartOpOperation) (ops : list SmartOpOperation) :
  opIn op ops = true <-> In op ops.
Proof.
  induction ops as [|o ops IH]; simpl; [split; [discriminate | tauto]|].
  destruct (String.eqb op o) eqn:E.
  - apply String.eqb_eq in E. split; auto.
  - apply String.eqb_neq in E. rewrite IH. split; [auto | intros [->|]; [done | auto]].
Qed.

Lemma position_allows_existsb (pos : SmartOpPosition) (operation : SmartOpOperation) :
  position_allows pos operation
  <-> existsb (fun d => String.eqb (def_Position d) pos
                        && String.eqb (def_Operation d) operation) AllOperations = true.
Proof.
  unfold position_allows. rewrite existsb_exists.
  split; intros (d & Hin & Hd); exists d; (split; [done|]).
  - destruct Hd as [-> ->]. by rewrite !String.eqb_refl.
  - apply andb_true_iff in Hd. by rewrite !String.eqb_eq in Hd.
Qed.

(** The validator's table [validOps] and the registry [AllOperations]
    allow the same operations for every position. *)
Lemma isValidOperationForPosition_allows (pos : SmartOpPosition) (operation : SmartOpOperation) :
  isValidOperationForPosition pos operation = true <-> position_allows pos operation.
Proof.
  split.
  - unfold isValidOperationForPosition.
    destruct (validOps !! pos) as [ops|] eqn:E; [|discriminate].
    apply elem_of_list_to_map_2, list_elem_of_In in E. rewrite opIn_In. intros Hin.
    simpl in E.
    repeat (destruct E as [E | E];
            [ inversion E; subst; simpl in Hin;
              repeat (destruct Hin as [<- | Hin];
                      [ by apply position_allows_existsb |]);
              destruct Hin |]).
    destruct E.
  - intros (d & Hin & <- & <-). unfold AllOperations in Hin. simpl in Hin.
    repeat (destruct Hin as [<- | Hin]; [reflexivity|]). destruct Hin.
Qed.

Lemma ValidateSmartOp_allows (op : SmartOp) :
  ValidateSmartOp op = None <-> position_allows (Position op) (Operation op).
Proof.
  rewrite <- isValidOperationForPosition_allows. unfold ValidateSmartOp. split.
  - destruct (IsValid (Position op)); simpl; [|discriminate].
    destruct (String.eqb (Operation op) ""); [discriminate|].
    by destruct (isValidOperationForPosition (Position op) (Operation op)).
  - intros Hv. rewrite Hv. simpl.
    apply isValidOperationForPosition_allows in Hv.
    destruct Hv as (d & Hin & <- & <-). unfold AllOperations in Hin. simpl in Hin.
    repeat (destruct Hin as [<- | Hin]; [reflexivity|]). destruct Hin.
Qed.

Lemma validateOps_Forall (i : Z) (ops : list SmartOp) :
  validateOps i ops = None <-> Forall (fun op => ValidateSmartOp op = None) ops.
Proof.
  revert i. induction ops as [|op ops IH]; intros i; simpl.
  - split; [constructor | reflexivity].
  - destruct (ValidateSmartOp op) eqn:E.
    + split; [discriminate | inversion 1; congruence].
    + rewrite IH. split; [by constructor | by inversion 1].
Qed.

Lemma validateServices_Forall (i : Z) (svcs : list loadbalance.Service) :
  validateServices i svcs = None
  <-> Forall (fun svc => loadbalance.Provider svc <> ""%string
                         /\ loadbalance.Model svc <> ""%string) svcs.
Proof.
  revert i. induction svcs as [|svc svcs IH]; intros i; simpl.
  - split; [constructor | reflexivity].
  - destruct (String.eqb (loadbalance.Provider svc) "") eqn:Ep.
    { apply String.eqb_eq in Ep. split; [discriminate | inversion 1; tauto]. }
    destruct (String.eqb (loadbalance.Model svc) "") eqn:Em.
    { apply String.eqb_eq in Em. split; [discriminate | inversion 1; tauto]. }
    apply String.eqb_neq in Ep, Em. rewrite IH.
    split; [by constructor | by inversion 1].
Qed.

Lemma length_eqb_0 {A} (l : list A) : (List.length l =? 0)%nat = true <-> l = [].
Proof. destruct l; simpl; split; congruence. Qed.

(** A rule passes [ValidateSmartRouting] exactly when it is well formed. *)
Lemma ValidateSmartRouting_well_formed (rule : SmartRouting) :
  ValidateSmartRouting rule = None <-> well_formed_rule rule.
Proof.
  unfold ValidateSmartRouting, well_formed_rule.
  destruct (String.eqb (Description rule) "") eqn:Ed.
  { apply String.eqb_eq in Ed. split; [discriminate | tauto]. }
  apply String.eqb_neq in Ed.
  destruct (List.length (Ops rule) =? 0)%nat eqn:Eo.
  { apply length_eqb_0 in Eo. split; [discriminate | tauto]. }
  assert (Ops rule <> []) by (rewrite <- length_eqb_0; congruence).
  assert (Hops : Forall (fun op => position_allows (Position op) (Operation op)) (Ops rule)
                 <-> validateOps 0 (Ops rule) = None).
  { rewrite validateOps_Forall. apply Forall_iff. intros op. symmetry.
    apply ValidateSmartOp_allows. }
  destruct (validateOps 0 (Ops rule)) eqn:Ev.
  { split; [discriminate | intros (_ & _ & _ & _ & Hf)]. apply Hops in Hf. discriminate. }
  destruct (List.length (Services rule) =? 0)%nat eqn:Es.
  { apply length_eqb_0 in Es. split; [discriminate | tauto]. }
  assert (Services rule <> []) by (rewrite <- length_eqb_0; congruence).
  rewrite validateServices_Forall. tauto.
Qed.

Lemma validateRules_Forall (i : Z) (rs : list SmartRouting) :
  match validateRules i rs with
  | None => Forall well_formed_rule rs
  | Some _ => Exists (fun rule => ~ well_formed_rule rule) rs
  end.
Proof.
  revert i. induction rs as [|rule rs IH]; intros i; simpl; [constructor|].
  destruct (ValidateSmartRouting rule) eqn:E.
  - apply Exists_cons_hd. rewrite <- ValidateSmartRouting_well_formed. congruence.
  - apply ValidateSmartRouting_well_formed in E. specialize (IH (i + 1)).
    destruct (validateRules (i + 1) rs); [by apply Exists_cons_tl | by constructor].
Qed.

(** C9 (as amended): router construction accepts a rule list exactly when
    every rule is well formed, that is has a non-empty description, a
    non-empty Ops list, a non-empty Services list whose entries have
    non-empty provider and model, and only Ops whose operation the
    registry lists for their position; the accepted router holds the list
    unchanged, and a single rule that is not well formed rejects the whole
    list.  The validator does not look at the value of an Op. *)
Theorem NewRouter_accepts_well_formed (rs : list SmartRouting) :
  match NewRouter rs with
  | Ok r => rules r = rs /\ Forall well_formed_rule rs
  | Err _ => Exists (fun rule => ~ well_formed_rule rule) rs
  end.
Proof.
  unfold NewRouter. pose proof (validateRules_Forall 0 rs) as Hv.
  destruct (validateRules 0 rs); simpl; [done | by split].
Qed.

(** C9, as stated, fails: the rule list below is accepted although the
    value of its token Op, declared an integer by the registry, does not
    parse as one. *)
Lemma NewRouter_accepts_unparseable_value :
  NewRouter [Examples.tokenRule] = Ok {| rules := [Examples.tokenRule] |}
  /\ exists op, In op (Ops Examples.tokenRule)
       /\ declaredValueType op = Some ValueTypeInt
       /\ strconv.Atoi (Value op) = None.
Proof.
  split; [reflexivity|].
  exists (Examples.mkOp PositionToken "ge" "abc"). repeat split. by left.
Qed.

(** ** Token estimation *)

Section Estimation.
Context `{fastjson.FastJSON}.

Lemma EstimateTokens_length (text : string) :
  EstimateTokens text = Z.of_nat (String.length text) / 4.
Proof.
  unfold EstimateTokens. destruct (String.eqb text "") eqn:E; [|done].
  apply String.eqb_eq in E. by subst.
Qed.

Lemma estimate_joined (ctx : RequestContext) :
  EstimatedTokens (estimate ctx)
  = Z.of_nat (String.length
                (strings.Join (SystemMessages (estimate ctx) ++ UserMessages (estimate ctx))
                   newline)) / 4.
Proof. unfold estimate. simpl. apply EstimateTokens_length. Qed.

(** C5 (as amended): for every request that parses, in either dialect,
    the estimated token count is the byte length of the system pieces
    followed by the user pieces, joined by newlines, divided by 4 (integer
    division, applied once to the joined text). *)
Theorem EstimatedTokens_joined_bytes (body : string) (ctx : RequestContext) :
  ExtractContextFromOpenAIRequest body = Ok ctx
  \/ ExtractContextFromAnthropicRequest body = Ok ctx ->
  EstimatedTokens ctx
  = Z.of_nat (String.length
                (strings.Join (SystemMessages ctx ++ UserMessages ctx) newline)) / 4.
Proof.
  unfold ExtractContextFromOpenAIRequest, ExtractContextFromAnthropicRequest.
  intros [Hctx | Hctx]; destruct (fastjson.ParseBytes body); inversion Hctx;
    apply estimate_joined.
Qed.

End Estimation.

(** An instance: the request with a system piece and a user piece. *)
Lemma EstimatedTokens_joined_bytes_witness :
  ExtractContextFromOpenAIRequest Examples.twoPieces = Ok Examples.twoPiecesContext
  /\ EstimatedTokens Examples.twoPiecesContext = 7 / 4.
Proof.
  split; [reflexivity|].
  apply (EstimatedTokens_joined_bytes Examples.twoPieces Examples.twoPiecesContext).
  left. reflexivity.
Defined.

(** C5, as stated, fails: a system piece and a user piece of three code
    points each contribute nothing piece by piece, and the code estimates
    one token for the seven bytes of the joined text. *)
Lemma estimate_is_not_per_piece :
  ExtractContextFromOpenAIRequest Examples.twoPieces = Ok Examples.twoPiecesContext
  /\ EstimatedTokens Examples.twoPiecesContext = 1
  /\ estimate_per_piece
       (SystemMessages Examples.twoPiecesContext ++ UserMessages Examples.twoPiecesContext) = 0.
Proof. repeat split. Qed.

(** Bytes are counted, not code points: four code points of two bytes
    each are estimated at two tokens. *)
Example estimate_counts_bytes :
  ExtractContextFromOpenAIRequest Examples.accents = Ok Examples.accentsContext
  /\ map utf8.RuneCountInString (UserMessages Examples.accentsContext) = [4]
  /\ EstimatedTokens Examples.accentsContext = 2.
Proof. repeat split. Qed.

(** ** The Op [user.contains] *)

Section UserContains.
Context `{GlobPkg}.

(** The Op looks at the last element of the user messages of the context,
    whatever the role of the last message of the request was. *)
Lemma evaluateOp_user_contains (ctx : RequestContext) (op : SmartOp) :
  Position op = PositionUser -> Operation op = OpUserContains ->
  evaluateOp ctx op = strings.Contains (List.last (UserMessages ctx) ""%string) (Value op).
Proof.
  intros Hp Ho. unfold evaluateOp, evaluateUserOp, GetLatestUserMessage.
  rewrite Hp, Ho. simpl. by destruct (UserMessages ctx).
Qed.

End UserContains.

(** C6 fails on the code: in the conversation below the last message has
    role assistant, and the Op [user.contains] with value secret evaluates
    true, on the earlier user message. *)
Lemma user_contains_true_after_assistant :
  fastjson.ParseBytes Examples.assistantLast = Ok Examples.assistantLastValue
  /\ lastMessageRole Examples.assistantLastValue = Some "assistant"%string
  /\ ExtractContextFromOpenAIRequest Examples.assistantLast = Ok Examples.assistantLastContext
  /\ evaluateOp Examples.assistantLastContext Examples.secretOp = true.
Proof. repeat split. Qed.

(** ** The entry point *)

Section EntryPoint.
Context `{fastjson.FastJSON} `{GlobPkg}.

(** C10: with a nil router, and on every body the parser rejects, the
    entry point returns the empty service list and false; its result type
    has no error component, and the value returned is the one a request
    that matches no rule gets. *)
Theorem EvaluateAndSelectServices_falls_through
    (router : option Router) (scenario body : string) :
  router = None \/ is_Ok (fastjson.ParseBytes body) = false ->
  EvaluateAndSelectServices router scenario body = ([], false)
  /\ forall (r : Router) (ctx : RequestContext),
       (forall rule, In rule (rules r) -> ~ rule_matches ctx rule) ->
       EvaluateRequest r ctx = EvaluateAndSelectServices router scenario body.
Proof.
  intros Hfail.
  assert (Hres : EvaluateAndSelectServices router scenario body = ([], false)).
  { unfold EvaluateAndSelectServices.
    destruct router as [r|]; [|reflexivity].
    destruct Hfail as [|Hparse]; [discriminate|].
    unfold ExtractContextFromOpenAIRequest, ExtractContextFromAnthropicRequest.
    destruct (fastjson.ParseBytes body); [discriminate|].
    by repeat destruct (String.eqb scenario _); simpl. }
  split; [exact Hres|].
  intros r ctx Hnone. rewrite Hres. unfold EvaluateRequest.
  eapply first_match_functional; [apply evaluateRules_first_match|]. right. by split.
Qed.

End EntryPoint.

(** An instance: a valid router and a body cut off in the middle. *)
Lemma EvaluateAndSelectServices_falls_through_witness :
  (Some Examples.testRouter = None
   \/ is_Ok (fastjson.ParseBytes Examples.truncated) = false)
  /\ EvaluateAndSelectServices (Some Examples.testRouter) "anthropic" Examples.truncated
     = ([], false).
Proof.
  split; [right; reflexivity|].
  apply (EvaluateAndSelectServices_falls_through
           (Some Examples.testRouter) "anthropic" Examples.truncated).
  right. reflexivity.
Defined.

(** The router's own test cases. *)
Example EvaluateRequest_haiku :
  EvaluateRequest Examples.testRouter
    (setModel "claude-3-5-haiku-20241022" emptyContext)
  = ([Examples.svc "haiku-provider" "claude-3-5-haiku-20241022"], true).
Proof. reflexivity. Qed.

Example EvaluateRequest_thinking :
  EvaluateRequest Examples.testRouter
    (setThinkingEnabled true (setModel "claude-3-5-sonnet-20241022" emptyContext))
  = ([Examples.svc "thinking-provider" "claude-3-5-sonnet-20241022"], true).
Proof. reflexivity. Qed.

Example EvaluateRequest_no_match :
  EvaluateRequest Examples.testRouter (setModel "gpt-4" emptyContext) = ([], false).
Proof. reflexivity. Qed.

Example NewRouter_test_rules :
  NewRouter (rules Examples.testRouter) = Ok Examples.testRouter.
Proof. reflexivity. Qed.

Example evaluateModelOp_tests :
  let haiku := setModel "claude-3-5-haiku-20241022" emptyContext in
  let gpt := setModel "gpt-4" emptyContext in
  evaluateModelOp haiku (Examples.mkOp PositionModel "contains" "haiku") = true
  /\ evaluateModelOp gpt (Examples.mkOp PositionModel "contains" "haiku") = false
  /\ evaluateModelOp haiku (Examples.mkOp PositionModel "glob" "*haiku*") = true
  /\ evaluateModelOp gpt (Examples.mkOp PositionModel "glob" "claude*") = false
  /\ evaluateModelOp haiku
       (Examples.mkOp PositionModel "equals" "claude-3-5-haiku-20241022") = true
  /\ evaluateModelOp haiku (Examples.mkOp PositionModel "equals" "gpt-4") = false.
Proof. repeat split. Qed.

Example evaluateTokenOp_tests :
  evaluateTokenOp (setEstimatedTokens 6000 emptyContext)
    (Examples.mkOp PositionToken "ge" "6000") = true
  /\ evaluateTokenOp (setEstimatedTokens 5000 emptyContext)
       (Examples.mkOp PositionToken "ge" "6000") = false
  /\ evaluateTokenOp (setEstimatedTokens 6001 emptyContext)
       (Examples.mkOp PositionToken "gt" "6000") = true
  /\ evaluateTokenOp (setEstimatedTokens 5000 emptyContext)
       (Examples.mkOp PositionToken "le" "6000") = true
  /\ evaluateTokenOp (setEstimatedTokens 5999 emptyContext)
       (Examples.mkOp PositionToken "lt" "6000") = true.
Proof. repeat split. Qed.

Example ValidateSmartOp_tests :
  ValidateSmartOp (Examples.mkOp PositionModel "contains" "haiku") = None
  /\ ValidateSmartOp (Examples.mkOp PositionModel "glob" "*haiku*") = None
  /\ ValidateSmartOp (Examples.mkOp PositionThinking "enabled" "true") = None
  /\ ValidateSmartOp (Examples.mkOp PositionToken "ge" "6000") = None
  /\ is_Some (ValidateSmartOp (Examples.mkOp "invalid" "contains" "test"))
  /\ is_Some (ValidateSmartOp (Examples.mkOp PositionModel "enabled" "test"))
  /\ is_Some (ValidateSmartOp (Examples.mkOp PositionModel "" "test")).
Proof. repeat split; by eexists. Qed.

Example GetLatestUserMessage_tests :
  GetLatestUserMessage (appendUserMessage "first message" emptyContext) = "first message"%string
  /\ GetLatestUserMessage
       (appendUserMessage "third"
          (appendUserMessage "second" (appendUserMessage "first" emptyContext)))
     = "third"%string
  /\ GetLatestUserMessage emptyContext = ""%string.
Proof. repeat split. Qed.

Example CombineMessages_tests :
  CombineMessages [] = ""%string
  /\ CombineMessages ["hello"%string] = "hello"%string
  /\ CombineMessages ["first"; "second"; "third"]%string
     = String.append "first" (String.append newline
         (String.append "second" (String.append newline "third"))).
Proof. repeat split. Qed.

(** Scenario D of the specification: the token rule comes first and wins
    once the estimate reaches its threshold. *)
Example EvaluateRequest_token_threshold :
  let big := {| Description := "long requests";
                Ops := [Examples.mkOp PositionToken "ge" "6000"];
                Services := [Examples.svc "p-big" "big"] |} in
  let haiku := {| Description := "haiku";
                  Ops := [Examples.mkOp PositionModel "contains" "haiku"];
                  Services := [Examples.svc "p-haiku" "haiku"] |} in
  let router := {| rules := [big; haiku] |} in
  let request tokens := setEstimatedTokens tokens (setModel "claude-3-haiku" emptyContext) in
  EvaluateRequest router (request 5200) = ([Examples.svc "p-haiku" "haiku"], true)
  /\ EvaluateRequest router (request 6400) = ([Examples.svc "p-big" "big"], true).
Proof. split; reflexivity. Qed.

Example ExtractContextFromAnthropicRequest_example :
  ExtractContextFromAnthropicRequest Examples.anthropicRequest
  = Ok {| Model := "claude-sonnet-4";
          ThinkingEnabled := true;
          SystemMessages := ["Be brief."%string];
          UserMessages :=
            [String.append "What is this?" (String.append newline "[image]")];
          ToolUses := ["describe"; "describe"; "search"]%string;
          LatestContentType := "image";
          EstimatedTokens := 7 |}.
Proof. reflexivity. Qed.

Example EstimateTokens_tests :
  EstimateTokens "" = 0 /\ EstimateTokens "hello" = 1
  /\ EstimateTokens "hello world this is a test" = 6.
Proof. repeat split. Qed.

End RoutingProperties.

(** * Properties of the adaptor *)

Module AdaptorProperties.

Import adaptor AdaptorSpec Reference.

Section Requests.
Context `{EncodingJSON}.

Lemma convertMessage_roles (st st' : convertState) (msg : openai.ChatCompletionMessageParamUnion) :
  convertMessage st msg = Ok st' ->
  Forall (fun m => anthropic.Role m = "user"%string \/ anthropic.Role m = "assistant"%string)
    (messages st) ->
  Forall (fun m => anthropic.Role m = "user"%string \/ anthropic.Role m = "assistant"%string)
    (messages st').
Proof.
  unfold convertMessage. intros Hc Hst.
  destruct (openai.GetRole msg) as [role|]; [|by inversion Hc; subst].
  destruct (String.eqb role "system").
  { destruct (negb _); inversion Hc; subst; exact Hst. }
  destruct (contentString (openai.content msg)) as [content ok].
  destruct (String.eqb role "assistant").
  { destruct (toolUseBlocks _ _) as [blocks|]; [|discriminate].
    destruct (0 <? List.length blocks)%nat; inversion Hc; subst; simpl; [|exact Hst].
    apply Forall_app. split; [exact Hst|]. apply Forall_singleton. by right. }
  destruct (String.eqb role "tool").
  { inversion Hc; subst; simpl. apply Forall_app. split; [exact Hst|].
    apply Forall_singleton. by left. }
  destruct (String.eqb role "user" && _); inversion Hc; subst; simpl; [|exact Hst].
  apply Forall_app. split; [exact Hst|]. apply Forall_singleton. by left.
Qed.

Lemma convertMessages_roles (msgs : list openai.ChatCompletionMessageParamUnion)
    (st st' : convertState) :
  convertMessages st msgs = Ok st' ->
  Forall (fun m => anthropic.Role m = "user"%string \/ anthropic.Role m = "assistant"%string)
    (messages st) ->
  Forall (fun m => anthropic.Role m = "user"%string \/ anthropic.Role m = "assistant"%string)
    (messages st').
Proof.
  revert st. induction msgs as [|msg msgs IH]; intros st; simpl.
  - by inversion 1; subst.
  - destruct (convertMessage st msg) as [st1|] eqn:E; [|discriminate].
    intros Hrest Hst. apply (IH st1 Hrest). by apply (convertMessage_roles st st1 msg).
Qed.

(** Whatever the request, the converted parameters carry no system text,
    and every converted message has role user or assistant. *)
Lemma ConvertOpenAIToAnthropicRequest_no_system
    (req : openai.ChatCompletionNewParams) (params : anthropic.MessageNewParams) :
  ConvertOpenAIToAnthropicRequest req = Ok params ->
  anthropic.System params = []
  /\ Forall (fun m => anthropic.Role m = "user"%string \/ anthropic.Role m = "assistant"%string)
       (anthropic.Messages params).
Proof.
  unfold ConvertOpenAIToAnthropicRequest.
  destruct (convertMessages _ _) as [st|] eqn:E; [|discriminate].
  inversion 1; subst; simpl. split; [reflexivity|].
  apply (convertMessages_roles _ _ _ E). constructor.
Qed.

End Requests.

(** C3 fails on the code: the request below has the system message
    [You are terse.]; the converted parameters have an empty system field,
    and the system text is in no converted message either. *)
Lemma ConvertOpenAIToAnthropicRequest_drops_system :
  expectedSystem Examples.systemThenUser = "You are terse."%string
  /\ ConvertOpenAIToAnthropicRequest Examples.systemThenUser
     = Ok {| anthropic.Model := "claude-3-5-haiku-20241022";
             anthropic.Messages := [anthropic.NewUserMessage [anthropic.NewTextBlock "hi"]];
             anthropic.MaxTokens := 1024;
             anthropic.System := [] |}.
Proof. split; reflexivity. Qed.

(** ** Finish reasons *)

(** The beta translator's table is the table of the specification. *)
Lemma mapOpenAIFinishReasonToAnthropicBeta_table (finishReason : string) :
  stream.mapOpenAIFinishReasonToAnthropicBeta finishReason = expectedStopReason finishReason.
Proof.
  unfold stream.mapOpenAIFinishReasonToAnthropicBeta, expectedStopReason.
  unfold openai.CompletionChoiceFinishReasonStop, openai.CompletionChoiceFinishReasonLength,
    openai.CompletionChoiceFinishReasonContentFilter, stream.openaiFinishReasonToolCalls.
  destruct (String.eqb finishReason "stop") eqn:Es.
  { apply String.eqb_eq in Es. by subst. }
  destruct (String.eqb finishReason "length") eqn:El.
  { apply String.eqb_eq in El. by subst. }
  by destruct (String.eqb finishReason "tool_calls").
Qed.

Section Responses.
Context `{EncodingJSON}.

(** The stop reason of a converted response: tool_use when the first
    choice has tool calls and finish reason tool_calls, end_turn in every
    other case. *)
Lemma ConvertOpenAIToAnthropic_StopReason (now : Z) (resp : openai.ChatCompletion)
    (model : string) :
  anthropic.StopReason (ConvertOpenAIToAnthropic now resp model)
  = match openai.Choices resp with
    | choice :: _ =>
        if (0 <? List.length (openai.ToolCalls (openai.Message choice)))%nat
           && String.eqb (openai.FinishReason choice) "tool_calls"
        then "tool_use"%string else "end_turn"%string
    | [] => "end_turn"%string
    end.
Proof.
  unfold ConvertOpenAIToAnthropic.
  destruct (openai.Choices resp) as [|choice ?]; [reflexivity|].
  destruct (0 <? List.length _)%nat; [|reflexivity].
  by destruct (String.eqb (openai.FinishReason choice) "tool_calls").
Qed.

End Responses.

(** C4 fails on the code: a completion that ends with finish reason
    length is converted to a message with stop reason end_turn, where the
    table (and the beta translator) give max_tokens. *)
Lemma ConvertOpenAIToAnthropic_length_is_end_turn :
  openai.FinishReason <$> head (openai.Choices Examples.cutOff) = Some "length"%string
  /\ anthropic.StopReason (ConvertOpenAIToAnthropic 0 Examples.cutOff "m") = "end_turn"%string
  /\ expectedStopReason "length" = "max_tokens"%string
  /\ stream.mapOpenAIFinishReasonToAnthropicBeta "length" = "max_tokens"%string.
Proof. repeat split. Qed.

(** Scenario C of the specification. *)
Example ConvertOpenAIToAnthropic_tool_call :
  anthropic.msg_Content (ConvertOpenAIToAnthropic 0 Examples.lookupCall "m")
  = [anthropic.ToolUseBlock "c1" "lookup"
       (Some (fastjson.Object [("city"%string, fastjson.String_ "SF")]))]
  /\ anthropic.StopReason (ConvertOpenAIToAnthropic 0 Examples.lookupCall "m")
     = "tool_use"%string.
Proof. split; reflexivity. Qed.

End AdaptorProperties.

(** * Properties of the streaming translator *)

Module StreamProperties.

Import adaptorstream StreamSpec.

(** ** Keys of the pending tool calls *)

Lemma elem_of_keys (m : gmap Z pendingToolCall) (i : Z) :
  i ∈ keys m <-> is_Some (m !! i).
Proof.
  unfold keys. rewrite list_elem_of_fmap. split.
  - intros ([j v] & -> & Hin). apply elem_of_map_to_list in Hin. by exists v.
  - intros [v Hv]. exists (i, v). split; [done|]. by apply elem_of_map_to_list.
Qed.

Lemma NoDup_keys (m : gmap Z pendingToolCall) : NoDup (keys m).
Proof. apply NoDup_fst_map_to_list. Qed.

Lemma keys_insert (m : gmap Z pendingToolCall) (i : Z) (v : pendingToolCall) :
  m !! i = None -> keys (<[i:=v]> m) ≡ₚ i :: keys m.
Proof. intros Hi. unfold keys. by rewrite map_to_list_insert. Qed.

Lemma keys_alter (m : gmap Z pendingToolCall) (f : pendingToolCall -> pendingToolCall) (i : Z) :
  keys (alter f i m) ≡ₚ keys m.
Proof.
  apply NoDup_Permutation; [apply NoDup_keys | apply NoDup_keys |].
  intros j. rewrite !elem_of_keys, lookup_alter.
  case_decide; subst; [|done]. by rewrite fmap_is_Some.
Qed.

(** ** One chunk *)

Definition open (evs : list Event) : Prop := Forall (fun e => closing e = false) evs.

Lemma textBlocks_app (evs evs' : list Event) :
  textBlocks (evs ++ evs') = textBlocks evs ++ textBlocks evs'.
Proof. apply flat_map_app. Qed.

Lemma toolBlocks_app (evs evs' : list Event) :
  toolBlocks (evs ++ evs') = toolBlocks evs ++ toolBlocks evs'.
Proof. apply flat_map_app. Qed.

(** The opened blocks are the text blocks and the tool-use blocks. *)
Lemma openedBlocks_split (evs : list Event) :
  openedBlocks evs ≡ₚ textBlocks evs ++ toolBlocks evs.
Proof.
  induction evs as [|e evs IH]; [done|].
  destruct e; simpl; rewrite ?IH; try done.
  by rewrite <- Permutation_middle.
Qed.

Lemma handleToolCall_step (evs : list Event) (st : streamState) (tc : openai.ChunkToolCall) :
  exists new st',
    handleToolCall (evs, st) tc = (evs ++ new, st')
    /\ open new
    /\ textBlocks new = []
    /\ keys (pendingToolCalls st') ≡ₚ toolBlocks new ++ keys (pendingToolCalls st)
    /\ sentTextContent st' = sentTextContent st
    /\ outputTokens st' = outputTokens st
    /\ size (pendingToolCalls st') <> 0%nat.
Proof.
  unfold handleToolCall.
  destruct (pendingToolCalls st !! openai.Index tc) as [p|] eqn:Hl;
    destruct (negb (String.eqb (openai.chunk_Function_Arguments tc) "")); simpl;
    eexists _, _; (split; [reflexivity|]); simpl.
  - split_and!; [by repeat constructor | done | by rewrite keys_alter | done | done |].
    apply map_size_ne_0_lookup_2 with (i := openai.Index tc).
    rewrite lookup_alter. case_decide; [|done]. by rewrite Hl.
  - split_and!; [by apply Forall_nil | done | done | done | done |].
    apply map_size_ne_0_lookup_2 with (i := openai.Index tc). by rewrite Hl.
  - split_and!; [by repeat constructor | done | | done | done |].
    + rewrite keys_alter. by apply keys_insert.
    + apply map_size_ne_0_lookup_2 with (i := openai.Index tc).
      rewrite lookup_alter. case_decide; [|done]. by rewrite lookup_insert_eq.
  - split_and!; [by repeat constructor | done | by apply keys_insert | done | done |].
    apply map_size_ne_0_lookup_2 with (i := openai.Index tc). by rewrite lookup_insert_eq.
Qed.

Lemma handleToolCalls_fold (tcs : list openai.ChunkToolCall) (evs : list Event)
    (st : streamState) :
  exists new st',
    fold_left handleToolCall tcs (evs, st) = (evs ++ new, st')
    /\ open new
    /\ textBlocks new = []
    /\ keys (pendingToolCalls st') ≡ₚ toolBlocks new ++ keys (pendingToolCalls st)
    /\ sentTextContent st' = sentTextContent st
    /\ outputTokens st' = outputTokens st
    /\ match tcs with
       | [] => st' = st
       | _ => size (pendingToolCalls st') <> 0%nat
       end.
Proof.
  revert evs st. induction tcs as [|tc tcs IH]; intros evs st; cbn [fold_left].
  - exists [], st. rewrite app_nil_r. split_and!; try done. by apply Forall_nil.
  - destruct (handleToolCall_step evs st tc)
      as (new1 & st1 & -> & Ho1 & Ht1 & Hk1 & Hs1 & Hu1 & Hn1).
    destruct (IH (evs ++ new1) st1) as (new2 & st2 & -> & Ho2 & Ht2 & Hk2 & Hs2 & Hu2 & Hn2).
    exists (new1 ++ new2), st2. rewrite app_assoc. split_and!; try congruence.
    + by apply Forall_app.
    + by rewrite textBlocks_app, Ht1, Ht2.
    + rewrite Hk2, Hk1, toolBlocks_app, <- app_assoc.
      apply Permutation_app_swap_app.
    + destruct tcs; [by subst | done].
Qed.

(** The invariant of the loop: the events sent so far close nothing; a
    text block, if one was opened, has index 0, and text was sent then; one
    tool-use block was opened per pending tool call. *)
Record Inv (st : streamState) (sent : list Event) : Prop := {
  inv_open : open sent;
  inv_text : textBlocks sent = [] \/ (textBlocks sent = [0] /\ sentTextContent st = true);
  inv_tools : toolBlocks sent ≡ₚ keys (pendingToolCalls st);
  inv_index : size (pendingToolCalls st) = 0%nat -> contentIndex st = 0;
}.

Lemma Inv_setOutputTokens (st : streamState) (sent : list Event) (n : Z) :
  Inv st sent -> Inv (setOutputTokens n st) sent.
Proof. intros [? ? ? ?]. by split. Qed.

Lemma stepChunk_Inv (st : streamState) (sent : list Event)
    (chunk : openai.ChatCompletionChunk) :
  Inv st sent -> Inv (stepChunk st chunk).2 (sent ++ (stepChunk st chunk).1).
Proof.
  intros [Ho Ht Hb Hi]. unfold stepChunk.
  destruct (openai.chunk_Choices chunk) as [|choice ?]; simpl.
  { rewrite app_nil_r. unfold handleUsageOnly.
    destruct (_ || _); [apply Inv_setOutputTokens|]; by split. }
  unfold handleChoice, handleContent.
  set (delta := openai.Delta choice) in *.
  destruct (String.eqb (openai.delta_Content delta) "") eqn:Hc; simpl.
  - (* no text in this chunk *)
    destruct (handleToolCalls_fold (openai.delta_ToolCalls delta) [] st)
      as (new & st' & -> & Ho' & Ht' & Hk' & Hs' & Hu' & Hn').
    assert (HI : Inv st' (sent ++ new)).
    { split.
      - by apply Forall_app.
      - by rewrite textBlocks_app, Ht', app_nil_r, Hs'.
      - rewrite toolBlocks_app, Hb, Hk'. apply Permutation_app_comm.
      - intros Hz. destruct (openai.delta_ToolCalls delta); [subst; auto | done]. }
    destruct (0 <? _); simpl; [by apply Inv_setOutputTokens | done].
  - (* text in this chunk *)
    set (start := if negb (sentTextContent st) && (size (pendingToolCalls st) =? 0)%nat
                  then [content_block_start_text (contentIndex st)] else []).
    destruct (handleToolCalls_fold (openai.delta_ToolCalls delta)
                (start ++ [text_delta (contentIndex st) (openai.delta_Content delta)])
                (setSentTextContent st))
      as (new & st' & -> & Ho' & Ht' & Hk' & Hs' & Hu' & Hn').
    simpl in Hs', Hk'.
    assert (Hstart : open start /\ toolBlocks start = []
                     /\ (textBlocks (sent ++ start) = []
                         \/ textBlocks (sent ++ start) = [0])).
    { subst start. rewrite textBlocks_app.
      destruct (sentTextContent st) eqn:Hsent; simpl.
      { rewrite app_nil_r. split_and!; [by apply Forall_nil | done | tauto]. }
      destruct Ht as [Ht | [_ ?]]; [|done]. rewrite Ht.
      destruct (size (pendingToolCalls st) =? 0)%nat eqn:Hz; simpl.
      - apply Nat.eqb_eq in Hz. rewrite (Hi Hz).
        split_and!; [by repeat constructor | done | by right].
      - split_and!; [by apply Forall_nil | done | by left]. }
    destruct Hstart as (Hso & Hsk & Hst).
    assert (HI : Inv st' (sent ++ (start ++ [text_delta (contentIndex st)
                                               (openai.delta_Content delta)]) ++ new)).
    { split.
      - apply Forall_app. split; [done|]. apply Forall_app. split; [|done].
        apply Forall_app. split; [done | by repeat constructor].
      - rewrite textBlocks_app in Hst.
        rewrite !textBlocks_app, Ht'. simpl. rewrite !app_nil_r, Hs'. tauto.
      - rewrite !toolBlocks_app, Hb, Hk', Hsk. simpl. apply Permutation_app_comm.
      - intros Hz. destruct (openai.delta_ToolCalls delta); [|done].
        subst st'. simpl in *. auto. }
    destruct (0 <? _); simpl; [by apply Inv_setOutputTokens | done].
Qed.

Lemma run_Inv (cs : list openai.ChatCompletionChunk) (st : streamState) (sent : list Event) :
  Inv st sent -> Inv (run st cs).2 (sent ++ (run st cs).1).
Proof.
  revert st sent. induction cs as [|chunk cs IH]; intros st sent HI; simpl.
  - by rewrite app_nil_r.
  - pose proof (stepChunk_Inv st sent chunk HI) as HI1.
    destruct (stepChunk st chunk) as [evs st1]. simpl in *.
    specialize (IH st1 (sent ++ evs) HI1).
    destruct (run st1 cs) as [evs' st2]. simpl in *. by rewrite app_assoc.
Qed.

(** With text first, the text block is opened exactly when text is sent:
    it has been opened and text was sent, or no text was sent and the
    chunks to come bring text first. *)
Definition guarded (st : streamState) (sent : list Event)
    (cs : list openai.ChatCompletionChunk) : Prop :=
  (sentTextContent st = true /\ textBlocks sent = [0])
  \/ (sentTextContent st = false
      /\ textBlocks sent = []
      /\ textFirst (negb (size (pendingToolCalls st) =? 0)%nat) cs = true).

Lemma guarded_setOutputTokens (st : streamState) (sent : list Event) (n : Z)
    (cs : list openai.ChatCompletionChunk) :
  guarded st sent cs -> guarded (setOutputTokens n st) sent cs.
Proof. done. Qed.





Section Handler.
Context `{MapRange}.

Lemma processStream_cons (st : streamState) (chunk : openai.ChatCompletionChunk)
    (rest : list openai.ChatCompletionChunk) (err : option string) :
  processStream st (chunk :: rest) err
  = (stepChunk st chunk).1
    ++ (if finishes chunk
        then finishEvents (stepChunk st chunk).2 (finishReasonOf chunk)
        else processStream (stepChunk st chunk).2 rest err).
Proof.
  unfold stepChunk, finishes, finishReasonOf. simpl.
  destruct (openai.chunk_Choices chunk) as [|choice ?]; [done|].
  destruct (handleChoice st chunk choice). simpl. by destruct (negb _).
Qed.

(** Up to and including the first chunk with a finish reason the handler
    sends what the chunks make it send, then the finish events; what
    follows in the stream is not read. *)
Lemma processStream_finish (pre : list openai.ChatCompletionChunk)
    (c : openai.ChatCompletionChunk) (rest : list openai.ChatCompletionChunk)
    (err : option string) (st : streamState) :
  Forall (fun chunk => finishes chunk = false) pre -> finishes c = true ->
  processStream st (pre ++ c :: rest) err
  = (run st (pre ++ [c])).1 ++ finishEvents (run st (pre ++ [c])).2 (finishReasonOf c).
Proof.
  intros Hpre Hc. revert st. induction Hpre as [|chunk pre Hchunk _ IH]; intros st.
  - simpl app. rewrite processStream_cons, Hc. simpl.
    destruct (stepChunk st c). simpl. by rewrite app_nil_r.
  - rewrite <- !app_comm_cons. rewrite processStream_cons, Hchunk, IH. simpl.
    destruct (stepChunk st chunk) as [evs st1]. simpl.
    destruct (run st1 (pre ++ [c])). simpl. by rewrite app_assoc.
Qed.


(** Whatever the chunks, every block the handler has opened is sent a
    content_block_stop when the finish reason arrives. *)
Lemma every_opened_block_is_closed (now : Z) (responseModel : string)
    (pre rest : list openai.ChatCompletionChunk) (c : openai.ChatCompletionChunk)
    (err : option string) :
  Forall (fun chunk => finishes chunk = false) pre ->
  finishes c = true ->
  let out := (HandleOpenAIToAnthropicStreamResponse true now
                {| openai.chunks := pre ++ c :: rest; openai.stream_Err := err |}
                responseModel).1 in
  forall i, i ∈ openedBlocks out -> i ∈ stoppedBlocks out.
Proof.
  intros Hpre Hc out i. subst out.
  assert (HI0 : Inv initialState []).
  { split; [by apply Forall_nil | by left | done | done]. }
  pose proof (run_Inv (pre ++ [c]) initialState [] HI0) as HI. simpl in HI.
  unfold HandleOpenAIToAnthropicStreamResponse. simpl.
  rewrite (processStream_finish pre c rest err initialState Hpre Hc).
  destruct (run initialState (pre ++ [c])) as [sent st]. simpl in *.
  destruct HI as [Ho Ht Hk Hi].
  unfold finishEvents, openedBlocks, stoppedBlocks.
  rewrite !flat_map_app. fold (openedBlocks sent) (stoppedBlocks sent).
  assert (Hstops : forall l, flat_map (fun e => match e with
                                                | content_block_stop j => [j]
                                                | _ => []
                                                end) (map content_block_stop l) = l).
  { induction l as [|j l IH]; simpl; [done | by rewrite IH]. }
  assert (Hnone : forall l, flat_map (fun e => match e with
                                               | content_block_start_text j => [j]
                                               | content_block_start_tool_use j _ _ => [j]
                                               | _ => []
                                               end) (map content_block_stop l) = []).
  { induction l as [|j l IH]; simpl; [done | by rewrite IH]. }
  rewrite Hstops, Hnone. simpl. rewrite !app_nil_r.
  replace (flat_map _ (if sentTextContent st then [content_block_stop 0] else []))
    with (@nil Z) by (by destruct (sentTextContent st)).
  rewrite app_nil_r, openedBlocks_split, !elem_of_app, Hk, rangeKeys_perm.
  intros [Htext | Htool]; [|tauto].
  destruct Ht as [Ht | [Ht Hsent]]; rewrite Ht in Htext; [by apply elem_of_nil in Htext|].
  rewrite Hsent. simpl. right. by left.
Qed.

End Handler.

Import Reference.


(** Scenario A of the specification, translated: the text block opens
    once, is closed once, and the chunk after the finish reason is not
    read. *)
Example HandleOpenAIToAnthropicStreamResponse_hello :
  HandleOpenAIToAnthropicStreamResponse true 0 Examples.heLloStream "gpt-4"
  = ([ message_start "msg_0" "gpt-4";
       content_block_start_text 0; text_delta 0 "he"; text_delta 0 "llo";
       content_block_stop 0; message_delta "end_turn" 0; message_stop ], None).
Proof. reflexivity. Qed.


End StreamProperties.

(** * Properties of the count-tokens endpoint *)

Module CountTokensProperties.

Import server.

Section Handler.
Context `{Upstream}.
Variable countBetaTokensWithTiktoken :
  string -> list BetaMessageParam -> list string -> result Z.


End Handler.

Import Reference.



End CountTokensProperties.

(** * Properties of the configuration store *)

Module StoreProperties.

Import base64.

(** ** The base-64 codec *)

Lemma decodeChar_encodeChar (s : sextet) : decodeChar (encodeChar s) = Some s.
Proof. destruct s as [[[[[[] []] []] []] []] []]; reflexivity. Qed.

Lemma encodeChar_not_pad (s : sextet) : Ascii.eqb (encodeChar s) padChar = false.
Proof. destruct s as [[[[[[] []] []] []] []] []]; reflexivity. Qed.

Lemma encodeChar_not_newline (s : sextet) :
  Ascii.eqb (encodeChar s) "010" || Ascii.eqb (encodeChar s) "013" = false.
Proof. destruct s as [[[[[[] []] []] []] []] []]; reflexivity. Qed.

Lemma byte0_sextets (x y : ascii) : byte0 (sextet0 x) (sextet1 x y) = x.
Proof. by destruct x, y. Qed.

Lemma byte1_sextets (x y z : ascii) : byte1 (sextet1 x y) (sextet2 y z) = y.
Proof. by destruct x, y, z. Qed.

Lemma byte2_sextets (y z : ascii) : byte2 (sextet2 y z) (sextet3 z) = z.
Proof. by destruct y, z. Qed.

Lemma list_ind3 {A} (P : list A -> Prop) :
  P [] -> (forall x, P [x]) -> (forall x y, P [x; y]) ->
  (forall x y z l, P l -> P (x :: y :: z :: l)) ->
  forall l, P l.
Proof.
  intros H0 H1 H2 H3. fix IH 1.
  intros [|x [|y [|z l]]]; [apply H0 | apply H1 | apply H2 | apply H3, IH].
Qed.

Lemma stripNewlines_cons (c : ascii) (s : string) :
  Ascii.eqb c "010" || Ascii.eqb c "013" = false ->
  stripNewlines (String c s) = String c (stripNewlines s).
Proof. intros Hc. simpl. by rewrite Hc. Qed.

Lemma stripNewlines_EncodeToString (src : bytes) :
  stripNewlines (EncodeToString src) = EncodeToString src.
Proof.
  induction src as [|x|x y|x y z rest IH] using list_ind3.
  - reflexivity.
  - cbn [EncodeToString]. by rewrite !stripNewlines_cons by (apply encodeChar_not_newline || done).
  - cbn [EncodeToString]. by rewrite !stripNewlines_cons by (apply encodeChar_not_newline || done).
  - cbn [EncodeToString]. rewrite !stripNewlines_cons by apply encodeChar_not_newline.
    by rewrite IH.
Qed.

Lemma decodeQuanta_quantum (c0 c1 c2 c3 : ascii) (rest : string) :
  decodeQuanta (String c0 (String c1 (String c2 (String c3 rest))))
  = match decodeChar c0, decodeChar c1 with
    | Some a, Some b =>
        if Ascii.eqb c2 padChar then
          if Ascii.eqb c3 padChar && String.eqb rest "" then Ok [byte0 a b]
          else Err corrupt
        else
          match decodeChar c2 with
          | Some c =>
              if Ascii.eqb c3 padChar then
                if String.eqb rest "" then Ok [byte0 a b; byte1 b c] else Err corrupt
              else
                match decodeChar c3 with
                | Some d =>
                    match decodeQuanta rest with
                    | Ok tail => Ok (byte0 a b :: byte1 b c :: byte2 c d :: tail)
                    | Err e => Err e
                    end
                | None => Err corrupt
                end
          | None => Err corrupt
          end
    | _, _ => Err corrupt
    end.
Proof. reflexivity. Qed.

Lemma decodeQuanta_EncodeToString (src : bytes) :
  decodeQuanta (EncodeToString src) = Ok src.
Proof.
  induction src as [|x|x y|x y z rest IH] using list_ind3.
  - reflexivity.
  - cbn [EncodeToString]. rewrite decodeQuanta_quantum, !decodeChar_encodeChar.
    simpl. by rewrite byte0_sextets.
  - cbn [EncodeToString]. rewrite decodeQuanta_quantum, !decodeChar_encodeChar.
    rewrite encodeChar_not_pad. simpl. by rewrite byte0_sextets, byte1_sextets.
  - cbn [EncodeToString]. rewrite decodeQuanta_quantum, !decodeChar_encodeChar.
    rewrite !encodeChar_not_pad, IH.
    by rewrite byte0_sextets, byte1_sextets, byte2_sextets.
Qed.

(** Decoding what the encoder produced gives the bytes back. *)
Lemma DecodeString_EncodeToString (src : bytes) :
  DecodeString (EncodeToString src) = Ok src.
Proof.
  unfold DecodeString. rewrite stripNewlines_EncodeToString.
  apply decodeQuanta_EncodeToString.
Qed.

(** ** Save, then load *)

Import cipher config.

Section Store.
Context `{AEAD} `{ConfigJSON}.

(** [Save] succeeds when the configuration marshals, the random source
    delivers a nonce, the file can be opened and the write meets no fault;
    the file then holds the base-64 text of the nonce followed by the
    sealed data. *)
Lemma Save_succeeds (ac : AppConfig) (w : World) (data : bytes) :
  json_Marshal (config.config ac) = Ok data ->
  (NonceSize <= List.length (entropy w))%nat ->
  configFile ac ∉ readOnly w ->
  writeFault w = None ->
  exists w',
    Save ac w = (None, w')
    /\ files w' !! configFile ac
       = Some (list_ascii_of_string
                 (EncodeToString
                    (take NonceSize (entropy w)
                     ++ Seal [] (take NonceSize (entropy w)) data []))).
Proof.
  intros Hm He Hw Hfault. unfold Save, rand_ReadFull, os_WriteFile. rewrite Hm.
  apply Nat.ltb_ge in He. rewrite He. simpl.
  destruct (decide _) as [|_]; [done|]. rewrite Hfault.
  eexists. split; [reflexivity|]. simpl. by rewrite lookup_insert_eq, Seal_dst.
Qed.

(** C8: when [Save] has written the configuration [cfg], which
    [encoding/json] round-trips, under any nonce the random source
    delivered, [Load] on the same file returns [cfg]. *)
Theorem Load_after_Save (ac : AppConfig) (w w' : World) :
  (forall data, json_Marshal (config.config ac) = Ok data ->
                json_Unmarshal data = Ok (config.config ac)) ->
  Save ac w = (None, w') ->
  forall ac0, configFile ac0 = configFile ac ->
  Load ac0 w' = Ok {| configFile := configFile ac; config.config := config.config ac |}.
Proof.
  intros Hjson Hsave ac0 Hfile. unfold Save in Hsave.
  destruct (json_Marshal (config.config ac)) as [data|] eqn:Hm; [|discriminate].
  unfold rand_ReadFull in Hsave.
  destruct (List.length (entropy w) <? NonceSize)%nat eqn:He; [discriminate|].
  apply Nat.ltb_ge in He.
  set (nonce := take NonceSize (entropy w)) in *.
  assert (Hnonce : List.length nonce = NonceSize).
  { subst nonce. rewrite length_take. lia. }
  unfold os_WriteFile in Hsave. simpl in Hsave.
  destruct (decide _) as [|_]; [discriminate|].
  destruct (writeFault w) as [[written err]|]; [discriminate|].
  inversion Hsave; subst w'; clear Hsave.
  unfold Load, os_ReadFile. simpl. rewrite Hfile, lookup_insert_eq.
  rewrite string_of_list_ascii_of_string, StoreProperties.DecodeString_EncodeToString.
  rewrite Seal_dst, length_app, Hnonce.
  replace (NonceSize + _ <? NonceSize)%nat with false
    by (symmetry; apply Nat.ltb_ge; lia).
  rewrite (take_app_length' nonce _ NonceSize), (drop_app_length' nonce _ NonceSize) by done.
  rewrite (Open_Seal nonce data [] Hnonce).
  by rewrite (Hjson data eq_refl).
Qed.

End Store.

Import Reference.

(** An instance: a store with one provider, saved and loaded. *)
Lemma Load_after_Save_witness :
  (forall data, json_Marshal Examples.oneProvider = Ok data ->
                json_Unmarshal data = Ok Examples.oneProvider)
  /\ Save Examples.store Examples.world = (None, Examples.savedWorld)
  /\ Load Examples.store Examples.savedWorld = Ok Examples.store.
Proof.
  assert (Hjson : forall data, json_Marshal Examples.oneProvider = Ok data ->
                               json_Unmarshal data = Ok Examples.oneProvider).
  { intros data Hdata. inversion Hdata. reflexivity. }
  assert (Hsave : Save Examples.store Examples.world = (None, Examples.savedWorld))
    by reflexivity.
  split_and!; [exact Hjson | exact Hsave |].
  apply (Load_after_Save Examples.store Examples.world Examples.savedWorld Hjson Hsave
           Examples.store eq_refl).
Defined.

(** A nonce is drawn afresh at every save: two saves of one configuration
    write different files, and both load back to it. *)
Example Save_twice :
  let w1 := (Save Examples.store Examples.world).2 in
  let w2 := (Save Examples.store w1).2 in
  files w1 !! configFile Examples.store <> files w2 !! configFile Examples.store
  /\ Load Examples.store w1 = Ok Examples.store
  /\ Load Examples.store w2 = Ok Examples.store.
Proof. split_and!; [vm_compute; congruence | reflexivity | reflexivity]. Qed.

End StoreProperties.

(** * Further properties of the smart router *)

Module RouterBehaviour.

Import smartrouting RoutingSpec.

(** ** Ops the validator rejects *)

Lemma validOps_lookup :
  validOps !! PositionModel = Some [OpModelContains; OpModelGlob; OpModelEquals]
  /\ validOps !! PositionThinking = Some [OpThinkingEnabled; OpThinkingDisabled]
  /\ validOps !! PositionSystem = Some [OpSystemAnyContains; OpSystemRegex]
  /\ validOps !! PositionUser
     = Some [OpUserAnyContains; OpUserContains; OpUserRegex; OpUserRequestType]
  /\ validOps !! PositionToolUse = Some [OpToolUseIs; OpToolUseContains]
  /\ validOps !! PositionToken = Some [OpTokenGe; OpTokenGt; OpTokenLe; OpTokenLt].
Proof. split_and!; reflexivity. Qed.

Section Evaluation.
Context `{GlobPkg}.

Lemma anyToolUse_other (toolUses : list string) (op : SmartOp) :
  String.eqb (Operation op) OpToolUseIs = false ->
  String.eqb (Operation op) OpToolUseContains = false ->
  anyToolUse toolUses op = false.
Proof.
  intros His Hcontains. induction toolUses as [|t ts IH]; simpl; [done|].
  by rewrite His, Hcontains.
Qed.

(** An Op that [ValidateSmartOp] rejects (an unknown position, an empty
    operation, or an operation that does not belong to the position)
    evaluates false on every request. *)
Theorem rejected_op_never_matches (op : SmartOp) :
  is_Some (ValidateSmartOp op) ->
  forall ctx : RequestContext, evaluateOp ctx op = false.
Proof.
  intros Hrej ctx. destruct op as [pos oper val meta]. unfold ValidateSmartOp in Hrej.
  simpl in Hrej. unfold evaluateOp. simpl.
  destruct (IsValid pos) eqn:Hpos; simpl in Hrej.
  2:{ unfold IsValid in Hpos. rewrite !orb_false_iff in Hpos.
      destruct Hpos as (((((-> & ->) & ->) & ->) & ->) & ->). done. }
  assert (Hoper : oper = ""%string \/ isValidOperationForPosition pos oper = false).
  { destruct (String.eqb oper "") eqn:He; [left; by apply String.eqb_eq|].
    right. destruct (isValidOperationForPosition pos oper); [|done].
    simpl in Hrej. by destruct Hrej. }
  clear Hrej.
  destruct validOps_lookup as (Hm & Ht & Hs & Hu & Hto & Htk).
  unfold isValidOperationForPosition in Hoper.
  apply RoutingProperties.IsValid_cases in Hpos.
  destruct Hpos as [-> | [-> | [-> | [-> | [-> | ->]]]]]; simpl.
  - unfold evaluateModelOp. simpl. destruct Hoper as [-> | Hop]; [done|].
    rewrite Hm in Hop. simpl in Hop.
    repeat (destruct (String.eqb oper _); [discriminate|]). done.
  - unfold evaluateThinkingOp. simpl. destruct Hoper as [-> | Hop]; [done|].
    rewrite Ht in Hop. simpl in Hop.
    repeat (destruct (String.eqb oper _); [discriminate|]). done.
  - unfold evaluateSystemOp. simpl. destruct Hoper as [-> | Hop]; [done|].
    rewrite Hs in Hop. simpl in Hop.
    repeat (destruct (String.eqb oper _); [discriminate|]). done.
  - unfold evaluateUserOp. simpl. destruct Hoper as [-> | Hop]; [done|].
    rewrite Hu in Hop. simpl in Hop.
    repeat (destruct (String.eqb oper _); [discriminate|]). done.
  - unfold evaluateToolUseOp. simpl. apply anyToolUse_other; simpl.
    + destruct Hoper as [-> | Hop]; [done|]. rewrite Hto in Hop. simpl in Hop.
      by destruct (String.eqb oper OpToolUseIs).
    + destruct Hoper as [-> | Hop]; [done|]. rewrite Hto in Hop. simpl in Hop.
      destruct (String.eqb oper OpToolUseIs); [done|].
      by destruct (String.eqb oper OpToolUseContains).
  - unfold evaluateTokenOp. simpl. destruct (strconv.Atoi val); [|done].
    destruct Hoper as [-> | Hop]; [done|].
    rewrite Htk in Hop. simpl in Hop.
    repeat (destruct (String.eqb oper _); [discriminate|]). done.
Qed.

End Evaluation.

(** ** Routers that [NewRouter] accepted *)

Section Accepted.
Context `{GlobPkg}.

(** When a router built by [NewRouter] reports a match, the service list
    it returns is not empty and every service in it names a provider and a
    model. *)
Theorem accepted_router_selects_services (rs : list SmartRouting) (r : Router)
    (ctx : RequestContext) (svcs : list loadbalance.Service) :
  NewRouter rs = Ok r ->
  EvaluateRequest r ctx = (svcs, true) ->
  svcs <> []
  /\ Forall (fun svc => loadbalance.Provider svc <> ""%string
                        /\ loadbalance.Model svc <> ""%string) svcs.
Proof.
  unfold NewRouter, EvaluateRequest. intros Hnew Heval.
  pose proof (RoutingProperties.validateRules_Forall 0 rs) as Hwf.
  destruct (validateRules 0 rs); [discriminate|]. inversion Hnew; subst r; clear Hnew.
  simpl in Heval.
  destruct (RoutingProperties.evaluateRules_first_match ctx rs)
    as [(i & rule & Hi & _ & _ & Hres) | [_ Hres]]; rewrite Hres in Heval; [|discriminate].
  inversion Heval; subst svcs.
  assert (Hrule : well_formed_rule rule).
  { rewrite Forall_forall in Hwf. apply Hwf, list_elem_of_lookup. eauto. }
  destruct Hrule as (_ & _ & Hne & Hsvcs & _). by split.
Qed.

End Accepted.

Lemma validateRules_first_invalid (rs : list SmartRouting) (k : Z) (msg : string) :
  validateRules k rs = Some msg ->
  exists (i : nat) (rule : SmartRouting) (err : string),
    rs !! i = Some rule
    /\ ValidateSmartRouting rule = Some err
    /\ (forall (j : nat) (rule' : SmartRouting),
          (j < i)%nat -> rs !! j = Some rule' -> ValidateSmartRouting rule' = None)
    /\ msg = String.append "rule["
               (String.append (pretty (k + Z.of_nat i)) (String.append "]: " err)).
Proof.
  revert k. induction rs as [|rule rs IH]; intros k; simpl; [discriminate|].
  destruct (ValidateSmartRouting rule) as [err|] eqn:E.
  - intros Hmsg. inversion Hmsg; subst msg. exists 0%nat, rule, err.
    split_and!; [done | done | intros j ? Hj; lia |]. by rewrite Z.add_0_r.
  - intros Hmsg. destruct (IH (k + 1) Hmsg) as (i & r & err & Hi & Hr & Hbefore & ->).
    exists (S i), r, err. split_and!; [done | done | |].
    + intros [|j] rule' Hj Hl; simpl in Hl; [by inversion Hl; subst|].
      apply (Hbefore j); [lia | done].
    + do 3 f_equal. lia.
Qed.

(** When [NewRouter] rejects a rule list, the error names the position of
    the first rule that fails [ValidateSmartRouting], counted from zero,
    and carries that rule's error. *)
Theorem NewRouter_reports_first_invalid_rule (rs : list SmartRouting) (msg : string) :
  NewRouter rs = Err msg ->
  exists (i : nat) (rule : SmartRouting) (err : string),
    rs !! i = Some rule
    /\ ValidateSmartRouting rule = Some err
    /\ (forall (j : nat) (rule' : SmartRouting),
          (j < i)%nat -> rs !! j = Some rule' -> ValidateSmartRouting rule' = None)
    /\ msg = String.append "rule["
               (String.append (pretty (Z.of_nat i)) (String.append "]: " err)).
Proof.
  unfold NewRouter. destruct (validateRules 0 rs) as [m|] eqn:E; [|discriminate].
  intros Hmsg. inversion Hmsg; subst m. by apply validateRules_first_invalid in E.
Qed.

(** ** Token thresholds *)

Definition tokenOp (operation : SmartOpOperation) (value : string) : SmartOp :=
  {| Position := PositionToken; Operation := operation; Value := value;
     Meta := {| meta_Description := ""; meta_Type := None |} |}.

Section Thresholds.
Context `{GlobPkg}.

(** When the value of a token Op parses as an integer, exactly one of
    [ge] and [lt] matches a request, and exactly one of [gt] and [le];
    when it does not parse, none of the four matches any request. *)
Theorem token_ops_are_complementary (ctx : RequestContext) (value : string) :
  match strconv.Atoi value with
  | Some _ =>
      evaluateOp ctx (tokenOp OpTokenGe value) = negb (evaluateOp ctx (tokenOp OpTokenLt value))
      /\ evaluateOp ctx (tokenOp OpTokenGt value)
         = negb (evaluateOp ctx (tokenOp OpTokenLe value))
  | None =>
      evaluateOp ctx (tokenOp OpTokenGe value) = false
      /\ evaluateOp ctx (tokenOp OpTokenLt value) = false
      /\ evaluateOp ctx (tokenOp OpTokenGt value) = false
      /\ evaluateOp ctx (tokenOp OpTokenLe value) = false
  end.
Proof.
  unfold evaluateOp, evaluateTokenOp. simpl.
  destruct (strconv.Atoi value) as [target|]; [|done].
  split.
  - destruct (Z.leb_spec target (EstimatedTokens ctx)), (Z.ltb_spec (EstimatedTokens ctx) target);
      simpl; (done || lia).
  - destruct (Z.ltb_spec target (EstimatedTokens ctx)), (Z.leb_spec (EstimatedTokens ctx) target);
      simpl; (done || lia).
Qed.

End Thresholds.

(** ** What the extraction puts in the request context *)

(** The message has role user and its content has an image block. *)
Definition userImage (msgVal : fastjson.Value) : bool :=
  match roleAndContent msgVal with
  | Some (role, contentVal) => String.eqb role "user" && hasImageContent (Some contentVal)
  | None => false
  end.

Definition nonEmpty (messages : list string) : Prop :=
  Forall (fun m => m <> ""%string) messages.

Section Extraction.
Context `{fastjson.FastJSON}.

Lemma userCase_fields (contentStr : string) (contentVal : fastjson.Value)
    (ctx : RequestContext) :
  ThinkingEnabled (userCase contentStr contentVal ctx) = ThinkingEnabled ctx
  /\ SystemMessages (userCase contentStr contentVal ctx) = SystemMessages ctx
  /\ (nonEmpty (UserMessages ctx) -> nonEmpty (UserMessages (userCase contentStr contentVal ctx)))
  /\ LatestContentType (userCase contentStr contentVal ctx)
     = if hasImageContent (Some contentVal) then "image"%string else LatestContentType ctx.
Proof.
  unfold userCase.
  destruct (hasImageContent (Some contentVal));
    destruct (String.eqb contentStr "") eqn:E; simpl; split_and!; try done.
  all: intros Hu; apply Forall_app; split; [done|]; apply Forall_singleton;
    by apply String.eqb_neq.
Qed.

Lemma openaiMessage_fields (ctx : RequestContext) (msgVal : fastjson.Value) :
  ThinkingEnabled (openaiMessage ctx msgVal) = ThinkingEnabled ctx
  /\ (nonEmpty (SystemMessages ctx) -> nonEmpty (SystemMessages (openaiMessage ctx msgVal)))
  /\ (nonEmpty (UserMessages ctx) -> nonEmpty (UserMessages (openaiMessage ctx msgVal)))
  /\ LatestContentType (openaiMessage ctx msgVal)
     = if userImage msgVal then "image"%string else LatestContentType ctx.
Proof.
  unfold openaiMessage, userImage.
  destruct (roleAndContent msgVal) as [[role contentVal]|]; [|done].
  generalize (extractContentString (Some contentVal)). intros contentStr.
  destruct (String.eqb role "system") eqn:Es.
  { apply String.eqb_eq in Es. subst role. cbn [String.eqb Ascii.eqb Bool.eqb andb].
    destruct (String.eqb contentStr "") eqn:E; simpl; split_and!; try done.
    intros Hs. apply Forall_app. split; [done|]. apply Forall_singleton.
    by apply String.eqb_neq. }
  destruct (String.eqb role "user"); cbn [andb]; [|done].
  destruct (userCase_fields contentStr contentVal ctx) as (-> & -> & Hu & ->). done.
Qed.

Lemma openaiMessages_fields (msgs : list fastjson.Value) (ctx : RequestContext) :
  ThinkingEnabled (fold_left openaiMessage msgs ctx) = ThinkingEnabled ctx
  /\ (nonEmpty (SystemMessages ctx) ->
      nonEmpty (SystemMessages (fold_left openaiMessage msgs ctx)))
  /\ (nonEmpty (UserMessages ctx) ->
      nonEmpty (UserMessages (fold_left openaiMessage msgs ctx)))
  /\ LatestContentType (fold_left openaiMessage msgs ctx)
     = if existsb userImage msgs then "image"%string else LatestContentType ctx.
Proof.
  revert ctx. induction msgs as [|msgVal msgs IH]; intros ctx; cbn [fold_left existsb]; [done|].
  destruct (IH (openaiMessage ctx msgVal)) as (-> & Hs & Hu & ->).
  destruct (openaiMessage_fields ctx msgVal) as (-> & Hs1 & Hu1 & ->).
  split_and!; [done | auto | auto |]. by destruct (userImage msgVal), (existsb userImage msgs).
Qed.

Lemma anthropicMessage_fields (ctx : RequestContext) (msgVal : fastjson.Value) :
  ThinkingEnabled (anthropicMessage ctx msgVal) = ThinkingEnabled ctx
  /\ SystemMessages (anthropicMessage ctx msgVal) = SystemMessages ctx
  /\ (nonEmpty (UserMessages ctx) -> nonEmpty (UserMessages (anthropicMessage ctx msgVal)))
  /\ LatestContentType (anthropicMessage ctx msgVal)
     = if userImage msgVal then "image"%string else LatestContentType ctx.
Proof.
  unfold anthropicMessage, userImage.
  destruct (roleAndContent msgVal) as [[role contentVal]|]; [|done].
  generalize (extractContentString (Some contentVal)). intros contentStr.
  destruct (String.eqb role "user"); cbn [andb]; [|done].
  unfold appendToolUses. cbn [ThinkingEnabled SystemMessages UserMessages LatestContentType].
  destruct (userCase_fields contentStr contentVal ctx) as (-> & -> & Hu & ->). done.
Qed.

Lemma anthropicMessages_fields (msgs : list fastjson.Value) (ctx : RequestContext) :
  ThinkingEnabled (fold_left anthropicMessage msgs ctx) = ThinkingEnabled ctx
  /\ SystemMessages (fold_left anthropicMessage msgs ctx) = SystemMessages ctx
  /\ (nonEmpty (UserMessages ctx) ->
      nonEmpty (UserMessages (fold_left anthropicMessage msgs ctx)))
  /\ LatestContentType (fold_left anthropicMessage msgs ctx)
     = if existsb userImage msgs then "image"%string else LatestContentType ctx.
Proof.
  revert ctx. induction msgs as [|msgVal msgs IH]; intros ctx; cbn [fold_left existsb]; [done|].
  destruct (IH (anthropicMessage ctx msgVal)) as (-> & -> & Hu & ->).
  destruct (anthropicMessage_fields ctx msgVal) as (-> & -> & Hu1 & ->).
  split_and!; [done | done | auto |]. by destruct (userImage msgVal), (existsb userImage msgs).
Qed.

Lemma readModel_fields (v : fastjson.Value) (ctx : RequestContext) :
  ThinkingEnabled (readModel v ctx) = ThinkingEnabled ctx
  /\ SystemMessages (readModel v ctx) = SystemMessages ctx
  /\ UserMessages (readModel v ctx) = UserMessages ctx
  /\ LatestContentType (readModel v ctx) = LatestContentType ctx.
Proof.
  unfold readModel. destruct (fastjson.GetStringBytes v "model") as [m|]; [|done].
  by destruct (0 <? String.length m)%nat.
Qed.

(** The context of an OpenAI request: what the theorems below need of it. *)
Lemma contextOfOpenAI_fields (v : fastjson.Value) :
  ThinkingEnabled (contextOfOpenAI v) = false
  /\ nonEmpty (SystemMessages (contextOfOpenAI v))
  /\ nonEmpty (UserMessages (contextOfOpenAI v))
  /\ LatestContentType (contextOfOpenAI v)
     = if existsb userImage (fastjson.GetArray v "messages") then "image"%string else ""%string.
Proof.
  unfold contextOfOpenAI, estimate. simpl.
  destruct (openaiMessages_fields (fastjson.GetArray v "messages") (readModel v emptyContext))
    as (Ht & Hs & Hu & Hl).
  destruct (readModel_fields v emptyContext) as (Ht0 & Hs0 & Hu0 & Hl0).
  rewrite Ht, Hl, Ht0, Hl0. split_and!; try done.
  - apply Hs. rewrite Hs0. by apply Forall_nil.
  - apply Hu. rewrite Hu0. by apply Forall_nil.
Qed.

Lemma contextOfAnthropic_fields (v : fastjson.Value) :
  nonEmpty (SystemMessages (contextOfAnthropic v))
  /\ nonEmpty (UserMessages (contextOfAnthropic v))
  /\ LatestContentType (contextOfAnthropic v)
     = if existsb userImage (fastjson.GetArray v "messages") then "image"%string else ""%string.
Proof.
  unfold contextOfAnthropic, estimate. simpl.
  set (c0 := readModel v emptyContext).
  set (c1 := match fastjson.GetStringBytes v "system" with
             | Some systemBytes =>
                 if (0 <? String.length systemBytes)%nat then appendSystemMessage systemBytes c0
                 else c0
             | None => c0
             end).
  set (c2 := match fastjson.Get v "thinking" with
             | Some (fastjson.Object _) => setThinkingEnabled true c1
             | _ => c1
             end).
  destruct (readModel_fields v emptyContext) as (_ & Hs0 & Hu0 & Hl0). fold c0 in Hs0, Hu0, Hl0.
  assert (H1 : nonEmpty (SystemMessages c1) /\ UserMessages c1 = []
               /\ LatestContentType c1 = ""%string).
  { subst c1. destruct (fastjson.GetStringBytes v "system") as [s|].
    - destruct s as [|a s]; simpl.
      + rewrite Hs0, Hu0, Hl0. split_and!; [by apply Forall_nil | done | done].
      + rewrite Hs0, Hu0, Hl0. split_and!; [|done|done]. by apply Forall_singleton.
    - rewrite Hs0, Hu0, Hl0. split_and!; [by apply Forall_nil | done | done]. }
  assert (H2 : nonEmpty (SystemMessages c2) /\ UserMessages c2 = []
               /\ LatestContentType c2 = ""%string).
  { subst c2. destruct (fastjson.Get v "thinking") as [[]|]; done. }
  destruct H2 as (Hs2 & Hu2 & Hl2).
  destruct (anthropicMessages_fields (fastjson.GetArray v "messages") c2)
    as (_ & Hs & Hu & Hl).
  rewrite Hs, Hl, Hl2. split_and!; [done | | done].
  apply Hu. rewrite Hu2. by apply Forall_nil.
Qed.

(** No empty string is recorded as a system or user message, in either
    dialect. *)
Theorem extracted_messages_are_not_empty (body : string) (ctx : RequestContext) :
  ExtractContextFromOpenAIRequest body = Ok ctx
  \/ ExtractContextFromAnthropicRequest body = Ok ctx ->
  Forall (fun m => m <> ""%string) (SystemMessages ctx)
  /\ Forall (fun m => m <> ""%string) (UserMessages ctx).
Proof.
  unfold ExtractContextFromOpenAIRequest, ExtractContextFromAnthropicRequest.
  intros [Hctx | Hctx]; destruct (fastjson.ParseBytes body) as [v|]; inversion Hctx; subst.
  - destruct (contextOfOpenAI_fields v) as (_ & Hs & Hu & _). by split.
  - destruct (contextOfAnthropic_fields v) as (Hs & Hu & _). by split.
Qed.

(** The content type of the context is image as soon as any user message
    of the request has an image block, whether or not it is the latest one,
    and empty otherwise. *)
Theorem LatestContentType_of_any_user_message (body : string) (ctx : RequestContext) :
  ExtractContextFromOpenAIRequest body = Ok ctx
  \/ ExtractContextFromAnthropicRequest body = Ok ctx ->
  exists v : fastjson.Value,
    fastjson.ParseBytes body = Ok v
    /\ LatestContentType ctx
       = if existsb userImage (fastjson.GetArray v "messages")
         then "image"%string else ""%string.
Proof.
  unfold ExtractContextFromOpenAIRequest, ExtractContextFromAnthropicRequest.
  intros [Hctx | Hctx]; destruct (fastjson.ParseBytes body) as [v|]; inversion Hctx; subst;
    exists v; (split; [done|]).
  - by destruct (contextOfOpenAI_fields v) as (_ & _ & _ & ->).
  - by destruct (contextOfAnthropic_fields v) as (_ & _ & ->).
Qed.

Context `{GlobPkg}.

(** An OpenAI request never has thinking enabled in its context: an Op
    [thinking.enabled] matches no request read in that dialect. *)
Theorem thinking_enabled_never_matches_openai (body : string) (ctx : RequestContext)
    (op : SmartOp) :
  ExtractContextFromOpenAIRequest body = Ok ctx ->
  Position op = PositionThinking ->
  Operation op = OpThinkingEnabled ->
  ThinkingEnabled ctx = false /\ evaluateOp ctx op = false.
Proof.
  unfold ExtractContextFromOpenAIRequest.
  destruct (fastjson.ParseBytes body) as [v|]; [|discriminate].
  intros Hctx Hpos Hop. inversion Hctx; subst ctx.
  destruct (contextOfOpenAI_fields v) as (Ht & _). split; [done|].
  unfold evaluateOp, evaluateThinkingOp. rewrite Hpos, Hop, Ht. simpl.
  by destruct (assertsState (Value op)).
Qed.

End Extraction.

(** ** The latest user message and all of them *)

Lemma HasPrefix_append (s t prefix : string) :
  strings.HasPrefix s prefix = true -> strings.HasPrefix (String.append s t) prefix = true.
Proof.
  revert s. induction prefix as [|p prefix IH]; intros s.
  { intros _. by destruct (String.append s t). }
  destruct s as [|c s]; [done|].
  change (String.append (String c s) t) with (String c (String.append s t)).
  cbn [strings.HasPrefix]. intros [-> Hrest]%andb_true_iff. by rewrite (IH _ Hrest).
Qed.

Lemma Contains_empty (s : string) : strings.Contains s "" = true.
Proof. by destruct s. Qed.

Lemma Contains_append_r (s t substr : string) :
  strings.Contains s substr = true -> strings.Contains (String.append s t) substr = true.
Proof.
  induction s as [|c s IH].
  - destruct substr; [|done]. intros _. apply Contains_empty.
  - change (String.append (String c s) t) with (String c (String.append s t)).
    cbn [strings.Contains]. intros [Hhere | Hlater]%orb_true_iff.
    + apply orb_true_iff. left.
      by apply (HasPrefix_append (String c s) t substr).
    + apply orb_true_iff. right. by apply IH.
Qed.

Lemma Contains_append_l (s t substr : string) :
  strings.Contains s substr = true -> strings.Contains (String.append t s) substr = true.
Proof.
  intros Hs. induction t as [|c t IH]; [done|].
  change (String.append (String c t) s) with (String c (String.append t s)).
  cbn [strings.Contains]. apply orb_true_iff. by right.
Qed.

Lemma Contains_Join_last (messages : list string) (sep substr : string) :
  strings.Contains (List.last messages "") substr = true ->
  strings.Contains (strings.Join messages sep) substr = true.
Proof.
  induction messages as [|m [|m' rest] IH]; [done|done|].
  intros Hlast.
  change (strings.Join (m :: m' :: rest) sep)
    with (String.append m (String.append sep (strings.Join (m' :: rest) sep))).
  apply Contains_append_l, Contains_append_l, IH. exact Hlast.
Qed.

Section Users.
Context `{GlobPkg}.

(** A request on which [user.contains] matches a value, that is whose
    latest user message contains it, is one on which [user.any_contains]
    matches the same value. *)
Theorem user_contains_implies_any_contains (ctx : RequestContext) (op op' : SmartOp) :
  Position op = PositionUser -> Operation op = OpUserContains ->
  Position op' = PositionUser -> Operation op' = OpUserAnyContains ->
  Value op' = Value op ->
  evaluateOp ctx op = true ->
  evaluateOp ctx op' = true.
Proof.
  intros Hpos Hop Hpos' Hop' Hvalue.
  unfold evaluateOp, evaluateUserOp. rewrite Hpos, Hop, Hpos', Hop', Hvalue.
  change (strings.Contains (GetLatestUserMessage ctx) (Value op) = true ->
          strings.Contains (CombineMessages (UserMessages ctx)) (Value op) = true).
  unfold GetLatestUserMessage, CombineMessages.
  destruct (UserMessages ctx) as [|m rest] eqn:Hmessages; [done|].
  apply Contains_Join_last.
Qed.

End Users.

Import Reference.

(** An instance: the user message of the example ends in bc. *)
Lemma user_contains_implies_any_contains_witness :
  evaluateOp Examples.twoPiecesContext
    {| Position := PositionUser; Operation := OpUserAnyContains; Value := "bc";
       Meta := Meta Examples.secretOp |} = true.
Proof.
  apply (user_contains_implies_any_contains Examples.twoPiecesContext
           {| Position := PositionUser; Operation := OpUserContains; Value := "bc";
              Meta := Meta Examples.secretOp |});
    reflexivity.
Defined.

(** An instance: the operation regex does not belong to the position model. *)
Lemma rejected_op_never_matches_witness :
  is_Some (ValidateSmartOp (Examples.mkOp PositionModel "regex" "gpt*"))
  /\ evaluateOp (setModel "gpt-4" emptyContext) (Examples.mkOp PositionModel "regex" "gpt*")
     = false.
Proof.
  assert (Hrej : is_Some (ValidateSmartOp (Examples.mkOp PositionModel "regex" "gpt*")))
    by (by eexists).
  split; [exact Hrej|].
  apply (rejected_op_never_matches (Examples.mkOp PositionModel "regex" "gpt*") Hrej).
Defined.

(** An instance: the router of the tests, on a haiku request. *)
Lemma accepted_router_selects_services_witness :
  NewRouter (rules Examples.testRouter) = Ok Examples.testRouter
  /\ EvaluateRequest Examples.testRouter (setModel "claude-3-5-haiku-20241022" emptyContext)
     = ([Examples.svc "haiku-provider" "claude-3-5-haiku-20241022"], true)
  /\ [Examples.svc "haiku-provider" "claude-3-5-haiku-20241022"] <> []
  /\ Forall (fun svc => loadbalance.Provider svc <> ""%string
                        /\ loadbalance.Model svc <> ""%string)
       [Examples.svc "haiku-provider" "claude-3-5-haiku-20241022"].
Proof.
  assert (Hnew : NewRouter (rules Examples.testRouter) = Ok Examples.testRouter)
    by reflexivity.
  assert (Heval : EvaluateRequest Examples.testRouter
                    (setModel "claude-3-5-haiku-20241022" emptyContext)
                  = ([Examples.svc "haiku-provider" "claude-3-5-haiku-20241022"], true))
    by reflexivity.
  split; [exact Hnew|]. split; [exact Heval|].
  exact (accepted_router_selects_services (rules Examples.testRouter) Examples.testRouter
           (setModel "claude-3-5-haiku-20241022" emptyContext)
           [Examples.svc "haiku-provider" "claude-3-5-haiku-20241022"] Hnew Heval).
Defined.

(** An instance: the second rule of the list has no description. *)
Lemma NewRouter_reports_first_invalid_rule_witness :
  NewRouter [Examples.haikuRule; Examples.namelessRule; Examples.namelessRule]
  = Err "rule[1]: description cannot be empty"
  /\ exists (i : nat) (rule : SmartRouting) (err : string),
       [Examples.haikuRule; Examples.namelessRule; Examples.namelessRule] !! i = Some rule
       /\ ValidateSmartRouting rule = Some err
       /\ (forall (j : nat) (rule' : SmartRouting),
             (j < i)%nat ->
             [Examples.haikuRule; Examples.namelessRule; Examples.namelessRule] !! j
             = Some rule' ->
             ValidateSmartRouting rule' = None)
       /\ "rule[1]: description cannot be empty"%string
          = String.append "rule["
              (String.append (pretty (Z.of_nat i)) (String.append "]: " err)).
Proof.
  assert (Hnew : NewRouter [Examples.haikuRule; Examples.namelessRule; Examples.namelessRule]
                 = Err "rule[1]: description cannot be empty") by reflexivity.
  split; [exact Hnew|].
  exact (NewRouter_reports_first_invalid_rule
           [Examples.haikuRule; Examples.namelessRule; Examples.namelessRule]
           "rule[1]: description cannot be empty" Hnew).
Defined.

(** An instance: a request whose system message is the empty string. *)
Lemma extracted_messages_are_not_empty_witness :
  ExtractContextFromOpenAIRequest Examples.openaiWithThinking
  = Ok Examples.openaiWithThinkingContext
  /\ SystemMessages Examples.openaiWithThinkingContext = []
  /\ Forall (fun m => m <> ""%string) (SystemMessages Examples.openaiWithThinkingContext)
  /\ Forall (fun m => m <> ""%string) (UserMessages Examples.openaiWithThinkingContext).
Proof.
  assert (Hctx : ExtractContextFromOpenAIRequest Examples.openaiWithThinking
                 = Ok Examples.openaiWithThinkingContext) by reflexivity.
  split; [exact Hctx|]. split; [reflexivity|].
  exact (extracted_messages_are_not_empty Examples.openaiWithThinking
           Examples.openaiWithThinkingContext (or_introl Hctx)).
Defined.

(** An instance: the image is in the first user turn, the latest user
    turn is plain text, and the content type of the context is image. *)
Lemma LatestContentType_of_any_user_message_witness :
  ExtractContextFromOpenAIRequest Examples.imageThenText = Ok Examples.imageThenTextContext
  /\ UserMessages Examples.imageThenTextContext = ["[image]"; "Thanks"]%string
  /\ LatestContentType Examples.imageThenTextContext = "image"%string
  /\ exists v : fastjson.Value,
       fastjson.ParseBytes Examples.imageThenText = Ok v
       /\ LatestContentType Examples.imageThenTextContext
          = if existsb userImage (fastjson.GetArray v "messages")
            then "image"%string else ""%string.
Proof.
  assert (Hctx : ExtractContextFromOpenAIRequest Examples.imageThenText
                 = Ok Examples.imageThenTextContext) by reflexivity.
  split; [exact Hctx|]. split; [reflexivity|]. split; [reflexivity|].
  exact (LatestContentType_of_any_user_message Examples.imageThenText
           Examples.imageThenTextContext (or_introl Hctx)).
Defined.

(** An instance: the request carries a thinking member, as an Anthropic
    request would; read as an OpenAI request it has thinking disabled. *)
Lemma thinking_enabled_never_matches_openai_witness :
  ExtractContextFromOpenAIRequest Examples.openaiWithThinking
  = Ok Examples.openaiWithThinkingContext
  /\ ThinkingEnabled Examples.openaiWithThinkingContext = false
  /\ evaluateOp Examples.openaiWithThinkingContext
       (Examples.mkOp PositionThinking OpThinkingEnabled "true") = false.
Proof.
  assert (Hctx : ExtractContextFromOpenAIRequest Examples.openaiWithThinking
                 = Ok Examples.openaiWithThinkingContext) by reflexivity.
  split; [exact Hctx|].
  exact (thinking_enabled_never_matches_openai Examples.openaiWithThinking
           Examples.openaiWithThinkingContext
           (Examples.mkOp PositionThinking OpThinkingEnabled "true") Hctx eq_refl eq_refl).
Defined.

End RouterBehaviour.

(** * Further properties of the adaptor *)

Module AdaptorRoundTrips.

Import adaptor.

(** ** An Anthropic request, to OpenAI and back *)

Lemma append_empty_r (s : string) : String.append s "" = s.
Proof.
  induction s as [|c s IH]; [done|].
  change (String c (String.append s "") = String c s). by rewrite IH.
Qed.

(** The role [GetRole] reports for a message is the empty string. *)
Definition unnamedRole (msg : openai.ChatCompletionMessageParamUnion) : Prop :=
  openai.GetRole msg = Some EmptyString.

Lemma openaiMessageOf_unnamedRole (msg : anthropic.MessageParam) :
  Forall unnamedRole (openaiMessageOf msg).
Proof.
  unfold openaiMessageOf.
  destruct (String.eqb (anthropic.Role msg) "user").
  { by apply Forall_singleton. }
  destruct (String.eqb (anthropic.Role msg) "assistant").
  { by apply Forall_singleton. }
  apply Forall_nil_2.
Qed.

Lemma ConvertAnthropicToOpenAI_unnamedRole (req : anthropic.MessageNewParams) :
  Forall unnamedRole (openai.Messages (ConvertAnthropicToOpenAI req)).
Proof.
  assert (Hturns : Forall unnamedRole (flat_map openaiMessageOf (anthropic.Messages req))).
  { induction (anthropic.Messages req) as [|msg msgs IH]; [apply Forall_nil_2|].
    cbn [flat_map]. apply Forall_app. split; [apply openaiMessageOf_unnamedRole | exact IH]. }
  unfold ConvertAnthropicToOpenAI. cbn [openai.Messages].
  destruct (0 <? List.length (anthropic.System req))%nat; [|exact Hturns].
  by apply Forall_cons.
Qed.

Section Requests.
Context `{EncodingJSON}.

(** The loop of [ConvertOpenAIToAnthropicRequest] passes over a message
    whose role is the empty string. *)
Lemma convertMessages_unnamedRole (msgs : list openai.ChatCompletionMessageParamUnion)
    (st : convertState) :
  Forall unnamedRole msgs -> convertMessages st msgs = Ok st.
Proof.
  induction 1 as [|msg msgs Hmsg _ IH]; [done|].
  cbn [convertMessages]. unfold convertMessage. rewrite Hmsg.
  cbn [String.eqb andb]. exact IH.
Qed.

(** Converting an Anthropic request to an OpenAI request with
    [ConvertAnthropicToOpenAI] and back with
    [ConvertOpenAIToAnthropicRequest] keeps the model and the token limit
    and nothing else: the messages [ConvertAnthropicToOpenAI] builds with
    the constructors of the SDK report an empty role, the loop of
    [ConvertOpenAIToAnthropicRequest] passes over every one of them, and
    the request comes back without messages and without system prompt. *)
Theorem ConvertAnthropicToOpenAI_and_back (req : anthropic.MessageNewParams) :
  ConvertOpenAIToAnthropicRequest (ConvertAnthropicToOpenAI req)
  = Ok {| anthropic.Model := anthropic.Model req;
          anthropic.Messages := [];
          anthropic.MaxTokens := anthropic.MaxTokens req;
          anthropic.System := [] |}.
Proof.
  unfold ConvertOpenAIToAnthropicRequest.
  rewrite (convertMessages_unnamedRole _ _ (ConvertAnthropicToOpenAI_unnamedRole req)).
  reflexivity.
Qed.

End Requests.

(** A system prompt and two turns of text go, and only the model and the
    token limit come back. *)
Example two_turns_and_back :
  @ConvertOpenAIToAnthropicRequest Reference.refEncodingJSON
    (ConvertAnthropicToOpenAI
       {| anthropic.Model := "claude-3-5-haiku-20241022";
          anthropic.Messages :=
            [anthropic.NewUserMessage [anthropic.NewTextBlock "hi"];
             anthropic.NewAssistantMessage [anthropic.NewTextBlock "hello"]];
          anthropic.MaxTokens := 1024;
          anthropic.System := [ {| anthropic.Text := "You are terse." |} ] |})
  = Ok {| anthropic.Model := "claude-3-5-haiku-20241022";
          anthropic.Messages := [];
          anthropic.MaxTokens := 1024;
          anthropic.System := [] |}.
Proof. reflexivity. Qed.

(** ** Finish reasons, there and back *)

Section Responses.
Variable json_Marshal : string -> result string.

(** The beta table takes a finish reason to a stop reason, and
    [ConvertAnthropicResponseToOpenAI] takes the stop reason of a response
    back to a finish reason: length and tool_calls come back as they were,
    and every other finish reason, content_filter among them, comes back
    as stop. *)
Theorem finish_reason_there_and_back (now : Z) (resp : ResponseMessage)
    (responseModel finishReason : string) :
  json_finish_reason
    (ConvertAnthropicResponseToOpenAI json_Marshal now
       {| resp_ID := resp_ID resp;
          resp_Content := resp_Content resp;
          resp_StopReason := stream.mapOpenAIFinishReasonToAnthropicBeta finishReason;
          resp_Usage := resp_Usage resp |}
       responseModel)
  = if String.eqb finishReason "length" then "length"%string
    else if String.eqb finishReason "tool_calls" then "tool_calls"%string
    else "stop"%string.
Proof.
  unfold ConvertAnthropicResponseToOpenAI. simpl.
  destruct (walkBlocks _ _ _) as [textContent toolCalls]. simpl.
  unfold stream.mapOpenAIFinishReasonToAnthropicBeta.
  unfold openai.CompletionChoiceFinishReasonStop, openai.CompletionChoiceFinishReasonLength,
    openai.CompletionChoiceFinishReasonContentFilter, stream.openaiFinishReasonToolCalls.
  destruct (String.eqb finishReason "stop") eqn:Es.
  { apply String.eqb_eq in Es. by subst. }
  destruct (String.eqb finishReason "length") eqn:El; [done|].
  destruct (String.eqb finishReason "tool_calls") eqn:Et; [done|].
  by destruct (String.eqb finishReason "content_filter").
Qed.

(** ** The content of a converted response *)

(** The text of the text blocks, one after the other. *)
Definition textOfBlocks (blocks : list ResponseBlock) : string :=
  fold_right
    (fun block text =>
       if String.eqb (block_Type block) "text" then String.append (block_Text block) text
       else text)
    EmptyString blocks.

(** The tool call of a tool_use block, before and after its arguments
    are made a string. *)
Definition rawCallOf (block : ResponseBlock) : list ToolCallJSON :=
  if String.eqb (block_Type block) "tool_use" then
    [ {| call_id := block_ID block; call_type := "function";
         call_function_name := block_Name block;
         call_function_arguments := ArgumentsRaw (block_Input block) |} ]
  else [].

Definition toolCallOf (block : ResponseBlock) : list ToolCallJSON :=
  if String.eqb (block_Type block) "tool_use" then
    [ {| call_id := block_ID block; call_type := "function";
         call_function_name := block_Name block;
         call_function_arguments :=
           match json_Marshal (block_Input block) with
           | Ok text => ArgumentsString text
           | Err _ => ArgumentsRaw (block_Input block)
           end |} ]
  else [].

Lemma walkBlocks_gathers (blocks : list ResponseBlock) (textContent : string)
    (toolCalls : list ToolCallJSON) :
  walkBlocks blocks textContent toolCalls
  = (String.append textContent (textOfBlocks blocks),
     toolCalls ++ flat_map rawCallOf blocks).
Proof.
  revert textContent toolCalls.
  induction blocks as [|block rest IH]; intros textContent toolCalls.
  - simpl. by rewrite append_empty_r, app_nil_r.
  - cbn [walkBlocks textOfBlocks fold_right flat_map]. unfold rawCallOf at 1.
    destruct (String.eqb (block_Type block) "text") eqn:Htext.
    + apply String.eqb_eq in Htext. rewrite Htext. simpl.
      rewrite IH. f_equal. fold (textOfBlocks rest).
      generalize (textOfBlocks rest). generalize (block_Text block).
      clear. induction textContent as [|c s IHs]; intros t u; [done|].
      change (String c (String.append (String.append s t) u)
              = String c (String.append s (String.append t u))).
      by rewrite IHs.
    + destruct (String.eqb (block_Type block) "tool_use"); rewrite IH.
      * by rewrite <- app_assoc.
      * done.
Qed.

Lemma stringifyArguments_rawCallOf (blocks : list ResponseBlock) :
  map (stringifyArguments json_Marshal) (flat_map rawCallOf blocks)
  = flat_map toolCallOf blocks.
Proof.
  induction blocks as [|block rest IH]; [done|].
  cbn [flat_map]. rewrite map_app, IH. f_equal.
  unfold rawCallOf, toolCallOf.
  destruct (String.eqb (block_Type block) "tool_use"); [|done].
  simpl. unfold stringifyArguments. simpl.
  by destruct (json_Marshal (block_Input block)).
Qed.

(** The message of the converted response: its content is the text of
    the text blocks joined without a separator, absent when that is empty;
    its tool calls are the tool_use blocks in their order, with the
    identifier and the name of each, absent when there is none; blocks of
    any other type are dropped.  Arguments that [json.Marshal] refuses stay
    as they came. *)
Theorem ConvertAnthropicResponseToOpenAI_message (now : Z) (resp : ResponseMessage)
    (responseModel : string) :
  json_content (ConvertAnthropicResponseToOpenAI json_Marshal now resp responseModel)
  = (if String.eqb (textOfBlocks (resp_Content resp)) "" then None
     else Some (textOfBlocks (resp_Content resp)))
  /\ json_tool_calls (ConvertAnthropicResponseToOpenAI json_Marshal now resp responseModel)
     = match flat_map toolCallOf (resp_Content resp) with
       | [] => None
       | toolCalls => Some toolCalls
       end.
Proof.
  unfold ConvertAnthropicResponseToOpenAI. rewrite walkBlocks_gathers.
  change (String.append "" (textOfBlocks (resp_Content resp)))
    with (textOfBlocks (resp_Content resp)).
  rewrite app_nil_l, stringifyArguments_rawCallOf. cbn [json_content json_tool_calls].
  split.
  - by destruct (String.eqb (textOfBlocks (resp_Content resp)) "").
  - by destruct (flat_map toolCallOf (resp_Content resp)).
Qed.

End Responses.

End AdaptorRoundTrips.

(** * Further properties of the streaming translator *)

Module StreamContent.

Import adaptorstream StreamSpec.

(** ** What the handler reads of a stream *)

(** The chunks the loop reads: all of them up to and including the first
    one that carries a finish reason. *)
Fixpoint consumed (cs : list openai.ChatCompletionChunk) : list openai.ChatCompletionChunk :=
  match cs with
  | [] => []
  | chunk :: rest => if finishes chunk then [chunk] else chunk :: consumed rest
  end.

(** A piece of content: text, or a piece of the arguments of the tool
    call with the given index. *)
Inductive Fragment : Type :=
| TextFragment (text : string)
| ArgumentsFragment (index : Z) (partial_json : string).

(** The piece of content an event carries. *)
Definition fragmentOf (e : Event) : list Fragment :=
  match e with
  | text_delta _ text => [TextFragment text]
  | input_json_delta index partial_json => [ArgumentsFragment index partial_json]
  | _ => []
  end.

Definition argumentsFragment (toolCall : openai.ChunkToolCall) : list Fragment :=
  if negb (String.eqb (openai.chunk_Function_Arguments toolCall) "")
  then [ArgumentsFragment (openai.Index toolCall) (openai.chunk_Function_Arguments toolCall)]
  else [].

(** The pieces of content of a chunk: the text of the delta of its first
    choice, then the arguments of its tool calls, the empty ones left out. *)
Definition fragmentsOfChunk (chunk : openai.ChatCompletionChunk) : list Fragment :=
  match openai.chunk_Choices chunk with
  | [] => []
  | choice :: _ =>
      let delta := openai.Delta choice in
      (if negb (String.eqb (openai.delta_Content delta) "")
       then [TextFragment (openai.delta_Content delta)] else [])
      ++ flat_map argumentsFragment (openai.delta_ToolCalls delta)
  end.

Lemma fragments_closing (evs : list Event) :
  Forall (fun e => closing e = true) evs -> flat_map fragmentOf evs = [].
Proof.
  induction 1 as [|e evs He _ IH]; simpl; [done|]. rewrite IH. by destruct e.
Qed.

Lemma handleToolCall_fragments (evs : list Event) (st : streamState)
    (tc : openai.ChunkToolCall) :
  exists new st',
    handleToolCall (evs, st) tc = (evs ++ new, st')
    /\ flat_map fragmentOf new = argumentsFragment tc.
Proof.
  unfold handleToolCall, argumentsFragment.
  destruct (pendingToolCalls st !! openai.Index tc);
    destruct (negb (String.eqb (openai.chunk_Function_Arguments tc) "")); simpl;
    eexists _, _; (split; [reflexivity | done]).
Qed.

Lemma handleToolCalls_fragments (tcs : list openai.ChunkToolCall) (evs : list Event)
    (st : streamState) :
  exists new st',
    fold_left handleToolCall tcs (evs, st) = (evs ++ new, st')
    /\ flat_map fragmentOf new = flat_map argumentsFragment tcs.
Proof.
  revert evs st. induction tcs as [|tc tcs IH]; intros evs st; cbn [fold_left flat_map].
  - exists [], st. by rewrite app_nil_r.
  - destruct (handleToolCall_fragments evs st tc) as (new1 & st1 & -> & H1).
    destruct (IH (evs ++ new1) st1) as (new2 & st2 & -> & H2).
    exists (new1 ++ new2), st2. by rewrite app_assoc, flat_map_app, H1, H2.
Qed.

Lemma stepChunk_fragments (st : streamState) (chunk : openai.ChatCompletionChunk) :
  flat_map fragmentOf (stepChunk st chunk).1 = fragmentsOfChunk chunk.
Proof.
  unfold stepChunk, fragmentsOfChunk.
  destruct (openai.chunk_Choices chunk) as [|choice ?]; [done|].
  unfold handleChoice.
  destruct (handleContent st (openai.Delta choice)) as [evs0 st0] eqn:E0.
  destruct (handleToolCalls_fragments (openai.delta_ToolCalls (openai.Delta choice)) evs0 st0)
    as (new & st' & -> & Hnew).
  simpl. rewrite flat_map_app, Hnew. f_equal.
  unfold handleContent in E0.
  destruct (negb (String.eqb (openai.delta_Content (openai.Delta choice)) ""));
    inversion E0; subst; [|done].
  rewrite flat_map_app. by destruct (negb (sentTextContent st) && _).
Qed.

Lemma run_fragments (cs : list openai.ChatCompletionChunk) (st : streamState) :
  flat_map fragmentOf (run st cs).1 = flat_map fragmentsOfChunk cs.
Proof.
  revert st. induction cs as [|chunk cs IH]; intros st; simpl; [done|].
  pose proof (stepChunk_fragments st chunk) as Hs.
  destruct (stepChunk st chunk) as [evs st1]. simpl in Hs.
  specialize (IH st1). destruct (run st1 cs) as [evs' st2]. simpl in *.
  by rewrite flat_map_app, Hs, IH.
Qed.

Section Handler.
Context `{MapRange}.

Lemma finishEvents_closing (st : streamState) (finishReason : string) :
  Forall (fun e => closing e = true) (finishEvents st finishReason).
Proof.
  unfold finishEvents. repeat apply Forall_app_2.
  - destruct (sentTextContent st); by repeat constructor.
  - induction (rangeKeys (pendingToolCalls st)); simpl; by constructor.
  - by repeat constructor.
Qed.

(** The events of the loop: those of the chunks read, then events that
    close a block or the message. *)
Lemma processStream_consumed (cs : list openai.ChatCompletionChunk) (st : streamState)
    (err : option string) :
  exists tail,
    processStream st cs err = (run st (consumed cs)).1 ++ tail
    /\ Forall (fun e => closing e = true) tail.
Proof.
  revert st. induction cs as [|chunk cs IH]; intros st.
  - simpl. destruct err as [e|]; eexists; (split; [reflexivity|]); by repeat constructor.
  - rewrite StreamProperties.processStream_cons. cbn [consumed].
    destruct (finishes chunk).
    + exists (finishEvents (stepChunk st chunk).2 (finishReasonOf chunk)).
      split; [|apply finishEvents_closing]. simpl.
      destruct (stepChunk st chunk). simpl. by rewrite app_nil_r.
    + destruct (IH (stepChunk st chunk).2) as (tail & -> & Htail).
      exists tail. split; [|done]. simpl.
      destruct (stepChunk st chunk) as [evs st1]. simpl.
      destruct (run st1 (consumed cs)). simpl. by rewrite app_assoc.
Qed.

(** The text deltas and the argument deltas the handler sends are the
    non-empty content and argument pieces of the chunks it reads, each one
    once and in the order of the stream; an argument delta carries the
    index of its tool call.  Nothing of a chunk after the first finish
    reason is sent. *)
Theorem deltas_are_forwarded_in_order (now : Z) (stream : openai.Stream)
    (responseModel : string) :
  flat_map fragmentOf
    (HandleOpenAIToAnthropicStreamResponse true now stream responseModel).1
  = flat_map fragmentsOfChunk (consumed (openai.chunks stream)).
Proof.
  unfold HandleOpenAIToAnthropicStreamResponse. simpl.
  destruct (processStream_consumed (openai.chunks stream) initialState
              (openai.stream_Err stream)) as (tail & -> & Htail).
  by rewrite flat_map_app, run_fragments, (fragments_closing tail Htail), app_nil_r.
Qed.

Lemma consumed_unfinished (cs : list openai.ChatCompletionChunk) :
  Forall (fun chunk => finishes chunk = false) cs -> consumed cs = cs.
Proof. induction 1 as [|chunk cs Hc _ IH]; simpl; [done|]. by rewrite Hc, IH. Qed.

Lemma processStream_unfinished (cs : list openai.ChatCompletionChunk) (st : streamState)
    (err : option string) :
  Forall (fun chunk => finishes chunk = false) cs ->
  processStream st cs err
  = (run st cs).1 ++ match err with Some e => [error_event e] | None => [] end.
Proof.
  intros Hcs. revert st. induction Hcs as [|chunk cs Hc _ IH]; intros st.
  - simpl. by destruct err.
  - rewrite StreamProperties.processStream_cons, Hc, IH. simpl.
    destruct (stepChunk st chunk) as [evs st1]. simpl.
    destruct (run st1 cs). simpl. by rewrite app_assoc.
Qed.

(** When no chunk of the stream carries a finish reason, the handler
    sends no content_block_stop, no message_delta and no message_stop: the
    blocks it opened stay open.  An error of the stream is sent as one
    error event, the last one, and the handler returns no error. *)
Theorem unfinished_stream_closes_nothing (now : Z) (stream : openai.Stream)
    (responseModel : string) :
  Forall (fun chunk => finishes chunk = false) (openai.chunks stream) ->
  exists sent : list Event,
    HandleOpenAIToAnthropicStreamResponse true now stream responseModel
    = (message_start (String.append "msg_" (pretty now)) responseModel
         :: sent
         ++ match openai.stream_Err stream with
            | Some e => [error_event e]
            | None => []
            end,
       None)
    /\ Forall (fun e => closing e = false) sent.
Proof.
  intros Hcs. exists (run initialState (openai.chunks stream)).1. split.
  - unfold HandleOpenAIToAnthropicStreamResponse. simpl.
    by rewrite (processStream_unfinished _ _ _ Hcs).
  - assert (HI0 : StreamProperties.Inv initialState []).
    { split; [by apply Forall_nil | by left | done | done]. }
    by destruct (StreamProperties.run_Inv (openai.chunks stream) initialState [] HI0).
Qed.

End Handler.

(** ** The two finish-reason tables *)

(** The stop reason the streaming handler sends is the one of the beta
    table for every finish reason but content_filter, which the handler
    passes on unchanged and the beta table takes to refusal. *)
Theorem stopReasonOf_and_the_beta_table (finishReason : string) :
  stopReasonOf finishReason
  = if String.eqb finishReason "content_filter" then "content_filter"%string
    else stream.mapOpenAIFinishReasonToAnthropicBeta finishReason.
Proof.
  unfold stopReasonOf, stream.mapOpenAIFinishReasonToAnthropicBeta.
  unfold openai.CompletionChoiceFinishReasonStop, openai.CompletionChoiceFinishReasonLength,
    openai.CompletionChoiceFinishReasonContentFilter, stream.openaiFinishReasonToolCalls,
    anthropic.BetaStopReasonEndTurn, anthropic.BetaStopReasonMaxTokens,
    anthropic.BetaStopReasonToolUse, anthropic.BetaStopReasonRefusal.
  destruct (String.eqb finishReason "stop") eqn:Es.
  { apply String.eqb_eq in Es. by subst. }
  destruct (String.eqb finishReason "length") eqn:El.
  { apply String.eqb_eq in El. by subst. }
  destruct (String.eqb finishReason "tool_calls") eqn:Et.
  { apply String.eqb_eq in Et. by subst. }
  by destruct (String.eqb finishReason "content_filter").
Qed.

Import Reference.

(** An instance: a tool call opens block 0, then text arrives with the
    finish reason. *)
Lemma every_opened_block_is_closed_witness :
  Forall (fun chunk => finishes chunk = false)
    [Examples.chunkOf "" [Examples.callStart 0 "c1" "lookup"] ""]
  /\ finishes (Examples.chunkOf "hi" [] "stop") = true
  /\ 0 ∈ openedBlocks
           (HandleOpenAIToAnthropicStreamResponse true 0
              {| openai.chunks :=
                   [Examples.chunkOf "" [Examples.callStart 0 "c1" "lookup"] ""]
                   ++ Examples.chunkOf "hi" [] "stop" :: [];
                 openai.stream_Err := None |} "m").1
  /\ 0 ∈ stoppedBlocks
           (HandleOpenAIToAnthropicStreamResponse true 0
              {| openai.chunks :=
                   [Examples.chunkOf "" [Examples.callStart 0 "c1" "lookup"] ""]
                   ++ Examples.chunkOf "hi" [] "stop" :: [];
                 openai.stream_Err := None |} "m").1.
Proof.
  assert (Hpre : Forall (fun chunk => finishes chunk = false)
                   [Examples.chunkOf "" [Examples.callStart 0 "c1" "lookup"] ""])
    by (by repeat constructor).
  assert (Hc : finishes (Examples.chunkOf "hi" [] "stop") = true) by reflexivity.
  assert (Hopen : 0 ∈ openedBlocks
                        (HandleOpenAIToAnthropicStreamResponse true 0
                           {| openai.chunks :=
                                [Examples.chunkOf "" [Examples.callStart 0 "c1" "lookup"] ""]
                                ++ Examples.chunkOf "hi" [] "stop" :: [];
                              openai.stream_Err := None |} "m").1)
    by (vm_compute; apply list_elem_of_here).
  split; [exact Hpre|]. split; [exact Hc|]. split; [exact Hopen|].
  exact (StreamProperties.every_opened_block_is_closed 0 "m"
           [Examples.chunkOf "" [Examples.callStart 0 "c1" "lookup"] ""] []
           (Examples.chunkOf "hi" [] "stop") None Hpre Hc 0 Hopen).
Defined.

(** An instance: two text chunks, then the connection breaks. *)
Lemma unfinished_stream_closes_nothing_witness :
  Forall (fun chunk => finishes chunk = false) Examples.heLlo
  /\ HandleOpenAIToAnthropicStreamResponse true 0
       {| openai.chunks := Examples.heLlo; openai.stream_Err := Some "EOF"%string |} "gpt-4"
     = ([ message_start "msg_0" "gpt-4";
          content_block_start_text 0; text_delta 0 "he"; text_delta 0 "llo";
          error_event "EOF" ], None)
  /\ exists sent : list Event,
       HandleOpenAIToAnthropicStreamResponse true 0
         {| openai.chunks := Examples.heLlo; openai.stream_Err := Some "EOF"%string |} "gpt-4"
       = (message_start (String.append "msg_" (pretty 0)) "gpt-4"
            :: sent ++ [error_event "EOF"], None)
       /\ Forall (fun e => closing e = false) sent.
Proof.
  assert (Hcs : Forall (fun chunk => finishes chunk = false) Examples.heLlo)
    by (by repeat constructor).
  split; [exact Hcs|]. split; [reflexivity|].
  exact (unfinished_stream_closes_nothing 0
           {| openai.chunks := Examples.heLlo; openai.stream_Err := Some "EOF"%string |}
           "gpt-4" Hcs).
Defined.

End StreamContent.

(** * Further properties of the configuration store *)

Module StoreOperations.

Import cipher config.

Section Store.
Context `{AEAD} `{ConfigJSON}.

(** ** Providers, in memory *)

Lemma GetProvider_insert (ac : AppConfig) (name : string) (provider : Provider) :
  GetProvider
    (setConfig (setProviders (<[name := provider]> (Providers (config.config ac)))
                  (config.config ac)) ac) name
  = Ok provider
  /\ forall other, other <> name ->
       GetProvider
         (setConfig (setProviders (<[name := provider]> (Providers (config.config ac)))
                       (config.config ac)) ac) other
       = GetProvider ac other.
Proof.
  unfold GetProvider. simpl. split; [by rewrite lookup_insert_eq|].
  intros other Hother. by rewrite lookup_insert_ne.
Qed.

(** [AddProvider] with an empty name, base URL or token returns an error
    and changes neither the store nor the files. *)
Theorem AddProvider_rejects_empty_fields (ac : AppConfig) (name apiBase token : string)
    (w : World) :
  name = ""%string \/ apiBase = ""%string \/ token = ""%string ->
  exists msg, AddProvider ac name apiBase token w = (Some msg, ac, w).
Proof.
  unfold AddProvider. intros Hempty.
  destruct (String.eqb name "") eqn:En; [by eexists|].
  destruct (String.eqb apiBase "") eqn:Ea; [by eexists|].
  destruct (String.eqb token "") eqn:Et; [by eexists|].
  apply String.eqb_neq in En, Ea, Et. by destruct Hempty as [? | [? | ?]].
Qed.

(** After [AddProvider] with a name, a base URL and a token, the store
    holds the provider, enabled, under its name, and every other name is
    as before: this is so whether [Save] succeeded or not, the error of a
    failed [Save] is returned and the provider stays in memory. *)
Theorem AddProvider_stays_when_Save_fails (ac : AppConfig) (name apiBase token : string)
    (w : World) :
  name <> ""%string -> apiBase <> ""%string -> token <> ""%string ->
  let ac' := (AddProvider ac name apiBase token w).1.2 in
  GetProvider ac' name
  = Ok {| Name := name; APIBase := apiBase; Token := token; Enabled := true |}
  /\ (forall other, other <> name -> GetProvider ac' other = GetProvider ac other)
  /\ (AddProvider ac name apiBase token w).1.1
     = (Save ac' w).1.
Proof.
  intros Hn Ha Ht. apply String.eqb_neq in Hn, Ha, Ht.
  unfold AddProvider. rewrite Hn, Ha, Ht.
  set (provider := {| Name := name; APIBase := apiBase; Token := token; Enabled := true |}).
  destruct (GetProvider_insert ac name provider) as [Hget Hother].
  destruct (Save _ w) as [err w'] eqn:Hsave. simpl. rewrite Hsave. by split_and!.
Qed.

(** [DeleteProvider] on a name the store does not hold returns an error
    and changes nothing; on a name it holds, the name is gone from the
    store afterwards and every other name is as before. *)
Theorem DeleteProvider_removes_the_name (ac : AppConfig) (name : string) (w : World) :
  match GetProvider ac name with
  | Err msg => DeleteProvider ac name w = (Some msg, ac, w)
  | Ok _ =>
      let ac' := (DeleteProvider ac name w).1.2 in
      GetProvider ac' name = Err (notFound name)
      /\ forall other, other <> name -> GetProvider ac' other = GetProvider ac other
  end.
Proof.
  unfold GetProvider, DeleteProvider.
  destruct (Providers (config.config ac) !! name) as [provider|] eqn:Hname; [|done].
  destruct (Save _ w) as [err w']. simpl. split; [by rewrite lookup_delete_eq|].
  intros other Hother. by rewrite lookup_delete_ne.
Qed.

(** ** Providers, on disk *)

(** The world in which the write to an open file meets [fault]. *)
Definition withFault (fault : option (nat * string)) (w : World) : World :=
  {| files := files w; readOnly := readOnly w; entropy := entropy w; writeFault := fault |}.

(** What an operation that failed has left of the files of [w], where
    [ac] is the store it wanted to save: the files as they were, or, when
    the write met its fault, the configuration file cut to the first bytes
    of the text that [Save] writes when there is no fault. *)
Definition afterFailure (ac : AppConfig) (w w' : World) : Prop :=
  files w' = files w
  \/ exists (written : nat) (fault : string) (w1 : World) (text : bytes),
       writeFault w = Some (written, fault)
       /\ Save ac (withFault None w) = (None, w1)
       /\ files w1 !! configFile ac = Some text
       /\ files w' = <[configFile ac := take written text]> (files w).

Lemma Save_failed (ac : AppConfig) (w w' : World) (err : string) :
  Save ac w = (Some err, w') -> afterFailure ac w w'.
Proof.
  unfold afterFailure, Save. simpl.
  destruct (json_Marshal (config.config ac)) as [data|].
  2:{ intros Hs. left. by inversion Hs. }
  unfold rand_ReadFull. simpl.
  destruct (List.length (entropy w) <? NonceSize)%nat.
  { intros Hs. left. by inversion Hs. }
  unfold os_WriteFile. simpl.
  destruct (decide _) as [|Hopen]; [intros Hs; left; by inversion Hs|].
  destruct (writeFault w) as [[written fault]|] eqn:Hfault; [|discriminate].
  intros Hs. inversion Hs; subst. right.
  eexists written, fault, _, _. split; [done|]. split; [reflexivity|].
  split; [apply lookup_insert_eq | reflexivity].
Qed.

(** An operation that returns an error has either written nothing, or
    has met the fault of the write, and then it has cut the configuration
    file: [os.WriteFile] empties the file when it opens it, and the file
    is left with the first bytes of the new text, the text saved before is
    gone.  This holds of [Save], [AddProvider], [DeleteProvider] and
    [SetServerPort]; no other file is touched. *)
Theorem failed_operations_cut_the_file (ac : AppConfig) (w : World) :
  (forall err w', Save ac w = (Some err, w') -> afterFailure ac w w')
  /\ (forall name apiBase token err ac' w',
        AddProvider ac name apiBase token w = (Some err, ac', w') -> afterFailure ac' w w')
  /\ (forall name err ac' w',
        DeleteProvider ac name w = (Some err, ac', w') -> afterFailure ac' w w')
  /\ (forall port err ac' w',
        SetServerPort ac port w = (Some err, ac', w') -> afterFailure ac' w w').
Proof.
  split_and!.
  - intros err w'. apply Save_failed.
  - intros name apiBase token err ac' w'. unfold AddProvider.
    repeat (destruct (String.eqb _ ""); [intros Hs; left; by inversion Hs|]).
    destruct (Save _ w) as [e w1] eqn:Hsave. intros Hs. inversion Hs; subst.
    by apply Save_failed in Hsave.
  - intros name err ac' w'. unfold DeleteProvider.
    destruct (Providers (config.config ac) !! name); [|intros Hs; left; by inversion Hs].
    destruct (Save _ w) as [e w1] eqn:Hsave. intros Hs. inversion Hs; subst.
    by apply Save_failed in Hsave.
  - intros port err ac' w'. unfold SetServerPort.
    destruct (Save _ w) as [e w1] eqn:Hsave. intros Hs. inversion Hs; subst.
    by apply Save_failed in Hsave.
Qed.

(** What [Save] wrote, [Load] reads back. *)
Lemma Load_what_Save_wrote (ac : AppConfig) (w w' : World) :
  (forall data, json_Marshal (config.config ac) = Ok data ->
                json_Unmarshal data = Ok (config.config ac)) ->
  Save ac w = (None, w') ->
  forall ac0, configFile ac0 = configFile ac ->
  Load ac0 w' = Ok {| configFile := configFile ac; config.config := config.config ac |}.
Proof.
  intros Hjson Hsave ac0 Hfile. unfold Save in Hsave.
  destruct (json_Marshal (config.config ac)) as [data|] eqn:Hm; [|discriminate].
  unfold rand_ReadFull in Hsave.
  destruct (List.length (entropy w) <? NonceSize)%nat eqn:He; [discriminate|].
  apply Nat.ltb_ge in He.
  assert (Hnonce : List.length (take NonceSize (entropy w)) = NonceSize).
  { rewrite length_take. lia. }
  unfold os_WriteFile in Hsave. simpl in Hsave.
  destruct (decide _) as [|_]; [discriminate|].
  destruct (writeFault w) as [[written fault]|]; [discriminate|].
  inversion Hsave; subst w'; clear Hsave.
  unfold Load, os_ReadFile. simpl. rewrite Hfile, lookup_insert_eq.
  rewrite string_of_list_ascii_of_string, StoreProperties.DecodeString_EncodeToString.
  rewrite Seal_dst, length_app, Hnonce.
  replace (NonceSize + _ <? NonceSize)%nat with false
    by (symmetry; apply Nat.ltb_ge; lia).
  rewrite (take_app_length' _ _ NonceSize), (drop_app_length' _ _ NonceSize) by done.
  rewrite (Open_Seal _ data [] Hnonce).
  by rewrite (Hjson data eq_refl).
Qed.

(** When [AddProvider] returns no error, a store opened on the same file
    loads a configuration that holds the provider, provided
    [encoding/json] round-trips the configuration that was saved. *)
Theorem AddProvider_then_Load (ac ac' : AppConfig) (name apiBase token : string)
    (w w' : World) :
  AddProvider ac name apiBase token w = (None, ac', w') ->
  (forall data, json_Marshal (config.config ac') = Ok data ->
                json_Unmarshal data = Ok (config.config ac')) ->
  forall ac0, configFile ac0 = configFile ac ->
  exists loaded,
    Load ac0 w' = Ok loaded
    /\ GetProvider loaded name
       = Ok {| Name := name; APIBase := apiBase; Token := token; Enabled := true |}.
Proof.
  unfold AddProvider.
  repeat (destruct (String.eqb _ ""); [discriminate|]).
  set (provider := {| Name := name; APIBase := apiBase; Token := token; Enabled := true |}).
  set (ac1 := setConfig _ ac).
  destruct (Save ac1 w) as [err w1] eqn:Hsave. intros Hadd. inversion Hadd; subst.
  intros Hjson ac0 Hfile.
  eexists. split; [by apply (Load_what_Save_wrote ac1 w w' Hjson Hsave)|].
  by destruct (GetProvider_insert ac name provider) as [Hget _].
Qed.

End Store.

Import Reference.

(** An instance: no token. *)
Lemma AddProvider_rejects_empty_fields_witness :
  ("claude"%string = ""%string \/ "https://api.anthropic.com"%string = ""%string
   \/ ""%string = ""%string)
  /\ exists msg,
       AddProvider Examples.store "claude" "https://api.anthropic.com" "" Examples.world
       = (Some msg, Examples.store, Examples.world).
Proof.
  assert (Hempty : "claude"%string = ""%string \/ "https://api.anthropic.com"%string = ""%string
                   \/ ""%string = ""%string) by (right; right; reflexivity).
  split; [exact Hempty|].
  exact (AddProvider_rejects_empty_fields Examples.store "claude"
           "https://api.anthropic.com" "" Examples.world Hempty).
Defined.

(** An instance: the configuration file cannot be written; [AddProvider]
    returns the error of [Save], and the provider is in the store. *)
Lemma AddProvider_stays_when_Save_fails_witness :
  ("claude"%string <> ""%string /\ "https://api.anthropic.com"%string <> ""%string
   /\ "sk-ant"%string <> ""%string)
  /\ (AddProvider Examples.store "claude" "https://api.anthropic.com" "sk-ant"
        Examples.lockedWorld).1.1
     = Some "failed to write config file: permission denied"%string
  /\ GetProvider
       (AddProvider Examples.store "claude" "https://api.anthropic.com" "sk-ant"
          Examples.lockedWorld).1.2 "claude"
     = Ok {| Name := "claude"; APIBase := "https://api.anthropic.com";
             Token := "sk-ant"; Enabled := true |}.
Proof.
  assert (Hn : "claude"%string <> ""%string) by discriminate.
  assert (Ha : "https://api.anthropic.com"%string <> ""%string) by discriminate.
  assert (Ht : "sk-ant"%string <> ""%string) by discriminate.
  split; [by split_and!|]. split; [reflexivity|].
  exact (proj1 (AddProvider_stays_when_Save_fails Examples.store "claude"
                  "https://api.anthropic.com" "sk-ant" Examples.lockedWorld Hn Ha Ht)).
Defined.

(** An instance: the disk is full when a second provider is added to
    the saved store of the examples.  [AddProvider] fails, the
    configuration file is left empty, and [Load], which read the store
    back before, fails. *)
Lemma failed_operations_cut_the_file_witness :
  Load Examples.store Examples.savedWorld = Ok Examples.store
  /\ (AddProvider Examples.store "claude" "https://api.anthropic.com" "sk-ant"
        Examples.fullDisk).1.1
     = Some "failed to write config file: no space left on device"%string
  /\ files (AddProvider Examples.store "claude" "https://api.anthropic.com" "sk-ant"
              Examples.fullDisk).2 !! configFile Examples.store
     = Some []
  /\ Load Examples.store
       (AddProvider Examples.store "claude" "https://api.anthropic.com" "sk-ant"
          Examples.fullDisk).2
     = Err "ciphertext too short"
  /\ afterFailure
       (AddProvider Examples.store "claude" "https://api.anthropic.com" "sk-ant"
          Examples.fullDisk).1.2
       Examples.fullDisk
       (AddProvider Examples.store "claude" "https://api.anthropic.com" "sk-ant"
          Examples.fullDisk).2.
Proof.
  split_and!; [reflexivity | reflexivity | reflexivity | reflexivity |].
  apply (proj1 (proj2 (failed_operations_cut_the_file Examples.store Examples.fullDisk))
           "claude"%string "https://api.anthropic.com"%string "sk-ant"%string
           "failed to write config file: no space left on device"%string).
  reflexivity.
Defined.

(** An instance: a second provider is added to the store of the examples
    and the file is loaded again. *)
Lemma AddProvider_then_Load_witness :
  (AddProvider Examples.store "claude" "https://api.anthropic.com" "sk-ant"
     Examples.world).1.1 = None
  /\ exists loaded,
       Load Examples.store
         (AddProvider Examples.store "claude" "https://api.anthropic.com" "sk-ant"
            Examples.world).2
       = Ok loaded
       /\ GetProvider loaded "claude"
          = Ok {| Name := "claude"; APIBase := "https://api.anthropic.com";
                  Token := "sk-ant"; Enabled := true |}.
Proof.
  split; [reflexivity|].
  assert (Hadd : AddProvider Examples.store "claude" "https://api.anthropic.com" "sk-ant"
                   Examples.world
                 = (None,
                    (AddProvider Examples.store "claude" "https://api.anthropic.com" "sk-ant"
                       Examples.world).1.2,
                    (AddProvider Examples.store "claude" "https://api.anthropic.com" "sk-ant"
                       Examples.world).2)) by reflexivity.
  apply (AddProvider_then_Load Examples.store _ "claude" "https://api.anthropic.com" "sk-ant"
           Examples.world _ Hadd).
  - intros data Hdata. inversion Hdata. reflexivity.
  - reflexivity.
Defined.

End StoreOperations.

(** * The choice of a provider *)

Module ProviderChoice.

Import config handlers.

Section Determine.
Context `{ProviderRange}.
Variable strings_ToLower : string -> string.

Lemma elem_of_ListProviders (ac : AppConfig) (provider : Provider) :
  In provider (ListProviders ac)
  <-> exists key, Providers (config.config ac) !! key = Some provider.
Proof.
  unfold ListProviders. rewrite <- list_elem_of_In, list_elem_of_fmap. split.
  - intros ([key p] & -> & Hin). rewrite rangeProviders_perm in Hin.
    apply elem_of_map_to_list in Hin. by exists key.
  - intros [key Hkey]. exists (key, provider). split; [done|].
    rewrite rangeProviders_perm. by apply elem_of_map_to_list.
Qed.

(** [determineProvider] returns a provider of the store that is enabled,
    and the one that was asked for by name when a name was given; it fails
    only when no enabled provider qualifies: with a name, none of that
    name; without, none at all.  A name that is given is never replaced by
    another provider. *)
Theorem determineProvider_returns_an_enabled_provider (ac : AppConfig)
    (model explicitProvider : string) :
  match determineProvider strings_ToLower ac model explicitProvider with
  | Ok provider =>
      (exists key, Providers (config.config ac) !! key = Some provider)
      /\ Enabled provider = true
      /\ (explicitProvider <> ""%string -> Name provider = explicitProvider)
  | Err _ =>
      forall key provider,
        Providers (config.config ac) !! key = Some provider ->
        Enabled provider = true ->
        explicitProvider <> ""%string /\ Name provider <> explicitProvider
  end.
Proof.
  unfold determineProvider.
  destruct (List.length (ListProviders ac) =? 0)%nat eqn:Hlen.
  { apply Nat.eqb_eq, length_zero_iff_nil in Hlen. intros key provider Hkey.
    assert (Hin : In provider (ListProviders ac)) by (apply elem_of_ListProviders; eauto).
    rewrite Hlen in Hin. destruct Hin. }
  destruct (String.eqb explicitProvider "") eqn:He; simpl.
  - apply String.eqb_eq in He. subst explicitProvider.
    destruct (find _ (ListProviders ac)) as [p|] eqn:Hvendor.
    { apply find_some in Hvendor. destruct Hvendor as [Hin Hp].
      apply andb_true_iff in Hp. destruct Hp as [Hp _].
      split_and!; [by apply elem_of_ListProviders | done | done]. }
    destruct (find Enabled (ListProviders ac)) as [p|] eqn:Hfirst.
    { apply find_some in Hfirst. destruct Hfirst as [Hin Hp].
      split_and!; [by apply elem_of_ListProviders | done | done]. }
    intros key provider Hkey Henabled.
    assert (Hin : In provider (ListProviders ac)) by (apply elem_of_ListProviders; eauto).
    pose proof (find_none _ _ Hfirst provider Hin) as Hno. congruence.
  - apply String.eqb_neq in He.
    destruct (find _ (ListProviders ac)) as [p|] eqn:Hnamed.
    { apply find_some in Hnamed. destruct Hnamed as [Hin Hp].
      apply andb_true_iff in Hp. destruct Hp as [Hname Hp].
      apply String.eqb_eq in Hname.
      split_and!; [by apply elem_of_ListProviders | done | done]. }
    intros key provider Hkey Henabled. split; [done|].
    assert (Hin : In provider (ListProviders ac)) by (apply elem_of_ListProviders; eauto).
    pose proof (find_none _ _ Hnamed provider Hin) as Hno. simpl in Hno.
    rewrite Henabled, andb_true_r in Hno. by apply String.eqb_neq.
Qed.

End Determine.

Import Reference.

(** The disabled OpenAI provider is not chosen for a GPT model; asked for
    by name, it is refused. *)
Example determineProvider_skips_disabled :
  determineProvider strings.ToLower
    {| configFile := "config.enc"; config.config := Examples.twoProviders |} "gpt-4o" ""
  = Ok {| Name := "claude"; APIBase := "https://api.anthropic.com";
          Token := "sk-ant"; Enabled := true |}
  /\ determineProvider strings.ToLower
       {| configFile := "config.enc"; config.config := Examples.twoProviders |} "gpt-4o" "openai"
     = Err "provider 'openai' not found or disabled".
Proof. split; reflexivity. Qed.

End ProviderChoice.

(** * Decimal numerals and white space *)

Module GoStrings.

(** ** [strconv.Atoi] reads what [%d] prints *)

Fixpoint digits (s : string) : Prop :=
  match s with
  | EmptyString => True
  | String c s' => is_Some (strconv.digitVal c) /\ digits s'
  end.

Lemma append_String (c : ascii) (s t : string) :
  String.append (String c s) t = String c (String.append s t).
Proof. reflexivity. Qed.

Lemma append_assoc (s t u : string) :
  String.append (String.append s t) u = String.append s (String.append t u).
Proof. induction s as [|c s IH]; [done|]. by rewrite !append_String, IH. Qed.

Lemma length_append (s t : string) :
  String.length (String.append s t) = (String.length s + String.length t)%nat.
Proof. induction s as [|c s IH]; [done|]. rewrite append_String. simpl. by rewrite IH. Qed.

Lemma digits_append (s t : string) : digits s -> digits t -> digits (String.append s t).
Proof.
  induction s as [|c s IH]; [done|]. rewrite append_String. simpl. intros [Hc Hs] Ht. auto.
Qed.

Lemma digitVal_pretty_N_char (d : N) :
  (d < 10)%N -> strconv.digitVal (pretty_N_char d) = Some (Z.of_N d).
Proof.
  intros Hd.
  assert (d = 0 \/ d = 1 \/ d = 2 \/ d = 3 \/ d = 4 \/ d = 5 \/ d = 6 \/ d = 7 \/ d = 8
          \/ d = 9)%N as Hcases by lia.
  repeat (destruct Hcases as [-> | Hcases]; [reflexivity|]). by subst.
Qed.

(** The digits [pretty_N_go] puts in front of its accumulator, and the
    number [parseDigits] reads from them. *)
Lemma pretty_N_go_digits (x : N) (s : string) :
  exists d : string,
    pretty_N_go x s = String.append d s
    /\ digits d
    /\ ((0 < x)%N -> d <> ""%string)
    /\ forall (t : string) (acc : Z),
         strconv.parseDigits (String.append d t) acc
         = strconv.parseDigits t (acc * 10 ^ Z.of_nat (String.length d) + Z.of_N x).
Proof.
  revert s. induction (N.lt_wf_0 x) as [x _ IH]; intros s.
  destruct (decide (x = 0)%N) as [-> | Hx].
  { exists ""%string. split_and!; [done | done | lia |]. intros t acc. simpl. f_equal. lia. }
  assert (0 < x)%N as Hpos by lia.
  rewrite pretty_N_go_step by done.
  destruct (IH (x `div` 10)%N (N.div_lt x 10 Hpos eq_refl)
              (String (pretty_N_char (x `mod` 10)) s)) as (d & -> & Hd & _ & Hparse).
  assert (Hlast : strconv.digitVal (pretty_N_char (x `mod` 10)) = Some (Z.of_N (x `mod` 10))).
  { apply digitVal_pretty_N_char. by apply N.mod_lt. }
  exists (String.append d (String (pretty_N_char (x `mod` 10)) "")).
  split_and!.
  - by rewrite append_assoc.
  - apply digits_append; [done|]. simpl. split; [by eexists | done].
  - intros _. by destruct d.
  - intros t acc. rewrite append_assoc, append_String, Hparse. simpl. rewrite Hlast.
    f_equal. rewrite length_append. simpl. rewrite Nat2Z.inj_add, Z.pow_add_r by lia.
    rewrite (N.div_mod x 10) at 3 by done. rewrite N2Z.inj_add, N2Z.inj_mul. simpl Z.of_N.
    change (Z.of_nat 1) with 1. lia.
Qed.

(** A numeral: one or more digits, after a minus sign or not. *)
Definition numeral (s : string) : Prop :=
  exists d : string,
    d <> ""%string /\ digits d /\ (s = d \/ s = String "-"%char d).

Lemma pretty_N_numeral (x : N) :
  exists d : string,
    pretty x = d /\ d <> ""%string /\ digits d
    /\ strconv.parseDigits d 0 = Some (Z.of_N x).
Proof.
  unfold pretty, pretty_N. destruct (decide (x = 0)%N) as [-> | Hx].
  { exists "0"%string. split_and!; [done | done | | done]. simpl. split; [by eexists | done]. }
  destruct (pretty_N_go_digits x "") as (d & -> & Hd & Hne & Hparse).
  rewrite AdaptorRoundTrips.append_empty_r. exists d. split_and!; [done | apply Hne; lia | done |].
  specialize (Hparse ""%string 0). rewrite AdaptorRoundTrips.append_empty_r in Hparse.
  rewrite Hparse. simpl. f_equal; lia.
Qed.

Lemma pretty_Z_numeral (n : Z) :
  exists d : string,
    d <> ""%string /\ digits d /\ strconv.parseDigits d 0 = Some (Z.abs n)
    /\ pretty n = if n <? 0 then String "-"%char d else d.
Proof.
  destruct n as [|p|p].
  - exists "0"%string. split_and!; [done | | done | done]. simpl. split; [by eexists | done].
  - destruct (pretty_N_numeral (N.pos p)) as (d & Hp & Hne & Hd & Hparse).
    exists d. split_and!; [done | done | by rewrite Hparse | done].
  - destruct (pretty_N_numeral (N.pos p)) as (d & Hp & Hne & Hd & Hparse).
    exists d. split_and!; [done | done | by rewrite Hparse |].
    unfold pretty, pretty_Z. unfold pretty, pretty_positive. by rewrite Hp.
Qed.

Lemma pretty_numeral (n : Z) : numeral (pretty n).
Proof.
  destruct (pretty_Z_numeral n) as (d & Hne & Hd & _ & ->).
  exists d. split_and!; [done | done |]. destruct (n <? 0); auto.
Qed.

Lemma Atoi_digits (d : string) :
  d <> ""%string -> digits d ->
  strconv.Atoi d
  = match strconv.parseDigits d 0 with
    | Some n => if (strconv.minInt <=? n) && (n <=? strconv.maxInt) then Some n else None
    | None => None
    end
  /\ strconv.Atoi (String "-"%char d)
     = match strconv.parseDigits d 0 with
       | Some n => if (strconv.minInt <=? - n) && (- n <=? strconv.maxInt) then Some (- n) else None
       | None => None
       end.
Proof.
  intros Hne Hd. destruct d as [|c d]; [done|]. destruct Hd as [[v Hc] _].
  split; [|reflexivity].
  unfold strconv.Atoi.
  assert (Hsign : c <> "+"%char /\ c <> "-"%char).
  { split; intros ->; discriminate. }
  destruct Hsign as [Hplus Hminus].
  destruct c as [[] [] [] [] [] [] [] []]; try reflexivity; congruence.
Qed.

(** [strconv.Atoi] reads back the integer that [%d] printed, when it is
    in the range of an [int]. *)
Lemma Atoi_pretty (n : Z) :
  strconv.minInt <= n <= strconv.maxInt -> strconv.Atoi (pretty n) = Some n.
Proof.
  intros Hrange. destruct (pretty_Z_numeral n) as (d & Hne & Hd & Hparse & ->).
  destruct (Atoi_digits d Hne Hd) as [Hpos Hneg].
  destruct (Z.ltb_spec n 0).
  - rewrite Hneg, Hparse. replace (- Z.abs n) with n by lia.
    destruct (Z.leb_spec strconv.minInt n), (Z.leb_spec n strconv.maxInt); simpl; (done || lia).
  - rewrite Hpos, Hparse. replace (Z.abs n) with n by lia.
    destruct (Z.leb_spec strconv.minInt n), (Z.leb_spec n strconv.maxInt); simpl; (done || lia).
Qed.

(** ** White space around a numeral *)

Lemma digitVal_range (c : ascii) :
  is_Some (strconv.digitVal c) -> 48 <= strings.byteValue c <= 57.
Proof.
  unfold strconv.digitVal, strings.byteValue. intros [v Hv].
  destruct (Z.leb_spec 48 (Z.of_nat (nat_of_ascii c))),
    (Z.leb_spec (Z.of_nat (nat_of_ascii c)) 57); simpl in Hv; (lia || discriminate).
Qed.

Lemma spaceWidth_plain (c : ascii) (rest : string) :
  45 <= strings.byteValue c <= 57 -> strings.spaceWidth (String c rest) = 0%nat.
Proof.
  intros Hc. unfold strings.spaceWidth. cbv zeta.
  set (x := strings.byteValue c) in *.
  replace ((9 <=? x) && (x <=? 13) || (x =? 32)) with false.
  2:{ symmetry. apply orb_false_iff. split; [apply andb_false_iff; right|]; lia. }
  replace (x =? 194) with false by (symmetry; lia).
  replace (x =? 225) with false by (symmetry; lia).
  replace (x =? 226) with false by (symmetry; lia).
  replace (x =? 227) with false by (symmetry; lia).
  by destruct rest as [|b1 [|b2 r]].
Qed.

Lemma spaceWidthLast_plain (c : ascii) (rest : string) :
  45 <= strings.byteValue c <= 57 -> strings.spaceWidthLast (String c rest) = 0%nat.
Proof.
  intros Hc. unfold strings.spaceWidthLast, strings.generalPunctuationSpace. cbv zeta.
  set (z := strings.byteValue c) in *.
  replace ((9 <=? z) && (z <=? 13) || (z =? 32)) with false.
  2:{ symmetry. apply orb_false_iff. split; [apply andb_false_iff; right|]; lia. }
  replace (z =? 133) with false by (symmetry; lia).
  replace (z =? 160) with false by (symmetry; lia).
  replace (z =? 128) with false by (symmetry; lia).
  replace (z =? 159) with false by (symmetry; lia).
  replace (z =? 168) with false by (symmetry; lia).
  replace (z =? 169) with false by (symmetry; lia).
  replace (z =? 175) with false by (symmetry; lia).
  replace (128 <=? z) with false by (symmetry; lia).
  destruct rest as [|b1 [|b2 r]]; simpl; rewrite ?andb_false_r; done.
Qed.

Lemma trimWith_nothing (width : string -> nat) (fuel : nat) (s : string) :
  width s = 0%nat -> strings.trimWith width fuel s = s.
Proof. intros Hs. destruct fuel; simpl; [done|]. by rewrite Hs. Qed.

Lemma reverseOnto_append (s t acc : string) :
  strings.reverseOnto (String.append s t) acc
  = strings.reverseOnto t (strings.reverseOnto s acc).
Proof.
  revert acc. induction s as [|c s IH]; intros acc; [done|].
  rewrite append_String. simpl. apply IH.
Qed.

Lemma reverseOnto_acc (s acc : string) :
  strings.reverseOnto s acc = String.append (strings.reverseOnto s "") acc.
Proof.
  revert acc. induction s as [|c s IH]; intros acc; [done|]. simpl.
  rewrite (IH (String c acc)), (IH (String c "")), append_assoc. done.
Qed.

Lemma reverse_involutive (s : string) : strings.reverse (strings.reverse s) = s.
Proof.
  unfold strings.reverse.
  assert (Hgen : forall acc,
             strings.reverseOnto (strings.reverseOnto s acc) ""
             = String.append (strings.reverseOnto acc "") s).
  { induction s as [|c s IH]; intros acc.
    - simpl. by rewrite AdaptorRoundTrips.append_empty_r.
    - simpl. rewrite IH. simpl.
      by rewrite (reverseOnto_acc acc (String c "")), append_assoc. }
  by rewrite Hgen.
Qed.

(** The last byte of a non-empty string of digits is a digit. *)
Lemma reverse_digits (s d : string) :
  d <> ""%string -> digits d ->
  exists c rest,
    strings.reverse (String.append s d) = String c rest /\ 48 <= strings.byteValue c <= 57.
Proof.
  revert s. induction d as [|c d IH]; intros s Hne Hd; [done|].
  destruct Hd as [Hc Hd]. destruct d as [|c' d].
  - exists c, (strings.reverse s). split; [|by apply digitVal_range].
    unfold strings.reverse. by rewrite reverseOnto_append.
  - destruct (IH (String.append s (String c "")) ltac:(done) Hd) as (l & rest & Hl & Hrange).
    exists l, rest. split; [|done]. by rewrite append_assoc in Hl.
Qed.

(** [strings.TrimSpace] leaves alone a text that starts with a numeral
    and ends with one. *)
Lemma TrimSpace_numerals (s1 middle s2 : string) :
  numeral s1 -> numeral s2 ->
  strings.TrimSpace (String.append s1 (String.append middle s2))
  = String.append s1 (String.append middle s2).
Proof.
  intros (d1 & Hne1 & Hd1 & Hs1) (d2 & Hne2 & Hd2 & Hs2).
  unfold strings.TrimSpace. cbv zeta.
  rewrite (trimWith_nothing strings.spaceWidth).
  2:{ destruct Hs1 as [-> | ->].
      - destruct d1 as [|c d1]; [done|]. rewrite append_String.
        apply spaceWidth_plain. destruct Hd1 as [Hc _]. apply digitVal_range in Hc. lia.
      - rewrite append_String. by apply spaceWidth_plain. }
  rewrite trimWith_nothing; [apply reverse_involutive|].
  assert (Hlast : exists prefix, String.append s1 (String.append middle s2)
                                 = String.append prefix d2).
  { destruct Hs2 as [-> | ->].
    - exists (String.append s1 middle). by rewrite append_assoc.
    - exists (String.append s1 (String.append middle (String "-"%char ""))).
      by rewrite !append_assoc. }
  destruct Hlast as [prefix ->].
  destruct (reverse_digits prefix d2 Hne2 Hd2) as (c & rest & -> & Hc).
  apply spaceWidthLast_plain. lia.
Qed.

(** ** The first line *)

Lemma Split_first_line (s rest : string) (sep : ascii) :
  (forall c, In c (list_ascii_of_string s) -> c <> sep) ->
  strings.Split (String.append s (String sep rest)) sep = s :: strings.Split rest sep.
Proof.
  induction s as [|c s IH]; intros Hs.
  - simpl. by rewrite Ascii.eqb_refl.
  - rewrite append_String. simpl.
    assert (Hc : Ascii.eqb c sep = false).
    { apply Ascii.eqb_neq, Hs. by left. }
    rewrite Hc, IH; [done|]. intros c' Hc'. apply Hs. by right.
Qed.

Lemma numeral_no_newline (s : string) :
  numeral s -> forall c, In c (list_ascii_of_string s) -> c <> pid.newline.
Proof.
  intros (d & _ & Hd & Hs) c Hc.
  assert (Hdigits : forall c, In c (list_ascii_of_string d) -> c <> pid.newline).
  { clear -Hd. induction d as [|c' d IH]; intros c; simpl; [done|].
    destruct Hd as [Hc' Hd]. intros [<- | Hin]; [|by apply IH].
    intros ->. by destruct Hc' as [v Hv]. }
  destruct Hs as [-> | ->]; [by apply Hdigits|].
  simpl in Hc. destruct Hc as [<- | Hc]; [discriminate | by apply Hdigits].
Qed.

(** The first line of a file that holds two numerals, one per line, is
    the first numeral. *)
Lemma firstLine_numerals (s1 s2 : string) :
  numeral s1 -> numeral s2 ->
  pid.firstLine (String.append s1 (String pid.newline s2)) = Some s1.
Proof.
  intros H1 H2. unfold pid.firstLine.
  change (String pid.newline s2) with (String.append (String pid.newline "") s2).
  rewrite (TrimSpace_numerals s1 (String pid.newline "") s2 H1 H2).
  change (String.append (String pid.newline "") s2) with (String pid.newline s2).
  rewrite Split_first_line by (by apply numeral_no_newline).
  destruct H1 as (d & Hne & _ & [-> | ->]); [|done]. by destruct d.
Qed.

End GoStrings.

(** * Properties of the PID file *)

Module PidFile.

Import pid.

Section Manager.
Variable strconv_AtoiError : string -> string.

(** What [CreatePIDFile] leaves when it returns no error. *)
Lemma CreatePIDFile_succeeded (pm pm' : PIDManager) (w w' : World) :
  CreatePIDFile pm w = (None, pm', w') ->
  files w !! pidFile pm = None
  /\ (pidFile pm ∉ denied w)
  /\ pm' = {| pidFile := pidFile pm; createdTime := now w / second |}
  /\ w' = setFiles
            (<[pidFile pm :=
                 {| content := String.append (pretty (processID w))
                                 (String newline (pretty (now w / second)));
                    modTime := now w |}]> (files w)) w.
Proof.
  unfold CreatePIDFile. simpl.
  destruct (files w !! pidFile pm) eqn:Hfile; [discriminate|].
  destruct (decide (pidFile pm ∈ denied w)) as [|Hfree]; [discriminate|].
  destruct (writeFault w) eqn:Hwrite.
  { destruct (os_Remove _ _). discriminate. }
  intros Hc. inversion Hc; subst. split_and!; try done.
  unfold setFiles. simpl. by rewrite insert_insert_eq.
Qed.

(** [GetPID] after [CreatePIDFile]: the identifier of the process that
    created the file. *)
Theorem GetPID_after_CreatePIDFile (pm pm' : PIDManager) (w w' : World) :
  strconv.minInt <= processID w <= strconv.maxInt ->
  CreatePIDFile pm w = (None, pm', w') ->
  GetPID strconv_AtoiError pm' w' = Ok (processID w).
Proof.
  intros Hrange Hcreate.
  destruct (CreatePIDFile_succeeded pm pm' w w' Hcreate) as (Hfile & Hfree & -> & ->).
  unfold GetPID, os_ReadFile. simpl. rewrite lookup_insert_eq.
  destruct (decide (pidFile pm ∈ denied w)); [done|]. simpl.
  rewrite GoStrings.firstLine_numerals by apply GoStrings.pretty_numeral.
  by rewrite GoStrings.Atoi_pretty.
Qed.

(** Once the file is there, [CreatePIDFile] refuses to write it again,
    at whatever time and from whatever process, and leaves it as it is;
    [RemovePIDFile] takes it away, the files are then those from before
    the file was created, and [GetPID] finds no file. *)
Theorem CreatePIDFile_then_RemovePIDFile (pm pm' : PIDManager) (w w' : World) :
  CreatePIDFile pm w = (None, pm', w') ->
  (forall (later : Z) (process : Z),
      let w2 := {| files := files w'; denied := denied w'; processID := process;
                   now := later; writeFault := writeFault w'; closeFault := closeFault w';
                   GOOS := GOOS w'; findProcess := findProcess w'; signal := signal w';
                   signalIsSlow := signalIsSlow w' |} in
      CreatePIDFile pm' w2
      = (Some "PID file already exists, server may already be running"%string,
         {| pidFile := pidFile pm'; createdTime := later / second |}, w2))
  /\ exists w'',
       RemovePIDFile pm' w' = (None, w'')
       /\ files w'' = files w
       /\ GetPID strconv_AtoiError pm' w'' = Err "PID file does not exist".
Proof.
  intros Hcreate.
  destruct (CreatePIDFile_succeeded pm pm' w w' Hcreate) as (Hfile & Hfree & -> & ->).
  split.
  - intros later process. unfold CreatePIDFile. simpl. by rewrite lookup_insert_eq.
  - unfold RemovePIDFile, os_Remove. simpl. rewrite lookup_insert_eq.
    destruct (decide (pidFile pm ∈ denied w)); [done|].
    eexists. split; [reflexivity|]. simpl.
    rewrite delete_insert_eq, delete_id by done. split; [done|].
    unfold GetPID. simpl. by rewrite Hfile.
Qed.

(** ** Is the server running? *)

(** [IsRunning] answers true only when the PID file is there, was
    written no more than 24 hours ago, and holds an identifier that
    [GetPID] reads, of a process that [os.FindProcess] finds and that
    passes the check of its start time and that of the platform; the
    world is then unchanged. *)
Theorem IsRunning_true (pm : PIDManager) (w w' : World) :
  IsRunning pm w = (true, w') ->
  w' = w
  /\ exists (file : File) (process : Z),
       files w !! pidFile pm = Some file
       /\ now w - modTime file <= 24 * hour
       /\ GetPID strconv_AtoiError pm w = Ok process
       /\ findProcess w process = true
       /\ verifyProcessStartTime w process (modTime file) = true
       /\ (if String.eqb (GOOS w) "windows" then isProcessRunningWindows w process
           else isProcessRunningUnix w process) = true.
Proof.
  unfold IsRunning, GetPID.
  destruct (files w !! pidFile pm) as [file|] eqn:Hfile; [|discriminate].
  destruct (Z.ltb_spec (24 * hour) (now w - modTime file)) as [|Hfresh].
  { destruct (os_Remove w (pidFile pm)). discriminate. }
  destruct (os_ReadFile w (pidFile pm)) as [pidData|]; [|discriminate].
  destruct (firstLine pidData) as [line|]; [|discriminate].
  destruct (strconv.Atoi line) as [process|]; [|discriminate].
  destruct (verifyProcessStartTime w process (modTime file)) eqn:Hverify; [|discriminate].
  simpl. intros Hrun.
  assert (Hw : w' = w) by (destruct (String.eqb (GOOS w) "windows"); by inversion Hrun).
  split; [done|]. exists file, process. split_and!; try done.
  - unfold verifyProcessStartTime in Hverify.
    by destruct (findProcess w process).
  - destruct (String.eqb (GOOS w) "windows"); by inversion Hrun.
Qed.

(** A PID file written more than 24 hours ago makes [IsRunning] answer
    false, whatever the file holds and whether or not its process is
    alive, and the file is removed when the process may remove it. *)
Theorem IsRunning_removes_a_stale_file (pm : PIDManager) (w : World) (file : File) :
  files w !! pidFile pm = Some file ->
  24 * hour < now w - modTime file ->
  (IsRunning pm w).1 = false
  /\ (pidFile pm ∉ denied w -> files (IsRunning pm w).2 = delete (pidFile pm) (files w))
  /\ (pidFile pm ∈ denied w -> (IsRunning pm w).2 = w).
Proof.
  intros Hfile Hstale. unfold IsRunning. rewrite Hfile.
  destruct (Z.ltb_spec (24 * hour) (now w - modTime file)); [|lia].
  unfold os_Remove. rewrite Hfile.
  destruct (decide (pidFile pm ∈ denied w)); simpl; split_and!; done.
Qed.

(** On a system other than Windows where the stat file of the process
    can be read and its field 22 is a number, that number is divided by
    100 and read as seconds since 1970: for the process that has just
    written the PID file, [IsRunning] answers false whenever that time is
    not later than one minute before the file was written, whatever
    signal 0 reports. *)
Theorem IsRunning_reads_ticks_as_seconds (pm pm' : PIDManager) (w w' : World)
    (stat : File) (startTicks : Z) :
  strconv.minInt <= processID w <= strconv.maxInt ->
  CreatePIDFile pm w = (None, pm', w') ->
  GOOS w <> "windows"%string ->
  String.append "/proc/" (String.append (pretty (processID w)) "/stat") <> pidFile pm ->
  files w !! String.append "/proc/" (String.append (pretty (processID w)) "/stat") = Some stat ->
  String.append "/proc/" (String.append (pretty (processID w)) "/stat") ∉ denied w ->
  (21 < List.length (strings.Fields (content stat)))%nat ->
  strconv.Atoi (nth 21 (strings.Fields (content stat)) EmptyString) = Some startTicks ->
  Z.quot startTicks 100 * second <= now w - minute ->
  IsRunning pm' w' = (false, w').
Proof.
  intros Hrange Hcreate Hos Hpath Hstat Hfree Hfields Hticks Hearly.
  destruct (CreatePIDFile_succeeded pm pm' w w' Hcreate) as (Hfile & Hfree' & -> & ->).
  unfold IsRunning, os_ReadFile. simpl. rewrite lookup_insert_eq. simpl.
  destruct (Z.ltb_spec (24 * hour) (now w - now w)) as [Hold|_].
  { unfold hour, minute, second in Hold. lia. }
  destruct (decide (pidFile pm ∈ denied w)); [done|].
  rewrite GoStrings.firstLine_numerals by apply GoStrings.pretty_numeral.
  rewrite GoStrings.Atoi_pretty by done.
  unfold verifyProcessStartTime, os_ReadFile. simpl.
  destruct (findProcess w (processID w)); [|done]. simpl.
  apply String.eqb_neq in Hos. rewrite Hos. simpl.
  rewrite lookup_insert_ne by congruence. rewrite Hstat.
  destruct (decide (_ ∈ denied w)); [done|].
  apply Nat.ltb_lt in Hfields. rewrite Hfields, Hticks.
  destruct (Z.ltb_spec (now w - minute) (Z.quot startTicks 100 * second)); [lia|]. done.
Qed.

End Manager.

(** An instance: the server of the examples writes its PID file and reads
    it back. *)
Lemma GetPID_after_CreatePIDFile_witness :
  GetPID (fun _ => EmptyString) (CreatePIDFile Examples.serverPID Examples.serverWorld).1.2
    (CreatePIDFile Examples.serverPID Examples.serverWorld).2
  = Ok 4242.
Proof.
  apply (GetPID_after_CreatePIDFile (fun _ => EmptyString) Examples.serverPID _
           Examples.serverWorld).
  - vm_compute. split; discriminate.
  - reflexivity.
Defined.

(** An instance: the file is taken away again, and no file is left but
    the stat file. *)
Lemma CreatePIDFile_then_RemovePIDFile_witness :
  exists w'',
    RemovePIDFile (CreatePIDFile Examples.serverPID Examples.serverWorld).1.2
      (CreatePIDFile Examples.serverPID Examples.serverWorld).2
    = (None, w'')
    /\ files w'' = files Examples.serverWorld
    /\ GetPID (fun _ => EmptyString)
         (CreatePIDFile Examples.serverPID Examples.serverWorld).1.2 w''
       = Err "PID file does not exist".
Proof.
  apply (CreatePIDFile_then_RemovePIDFile (fun _ => EmptyString) Examples.serverPID _
           Examples.serverWorld).
  reflexivity.
Defined.

(** An instance: on a system without a proc file system the server that
    has written its PID file is found running. *)
Lemma IsRunning_true_witness :
  (CreatePIDFile Examples.serverPID Examples.darwinWorld).2
  = (CreatePIDFile Examples.serverPID Examples.darwinWorld).2
  /\ exists (file : File) (process : Z),
       files (CreatePIDFile Examples.serverPID Examples.darwinWorld).2
         !! pidFile Examples.serverPID = Some file
       /\ now Examples.darwinWorld - modTime file <= 24 * hour
       /\ GetPID (fun _ => EmptyString) Examples.serverPID
            (CreatePIDFile Examples.serverPID Examples.darwinWorld).2 = Ok process
       /\ findProcess Examples.darwinWorld process = true
       /\ verifyProcessStartTime (CreatePIDFile Examples.serverPID Examples.darwinWorld).2
            process (modTime file) = true
       /\ isProcessRunningUnix (CreatePIDFile Examples.serverPID Examples.darwinWorld).2
            process = true.
Proof.
  apply (IsRunning_true (fun _ => EmptyString) Examples.serverPID
           (CreatePIDFile Examples.serverPID Examples.darwinWorld).2).
  reflexivity.
Defined.

(** An instance: two days later the PID file of the server is stale, and
    [IsRunning] removes it. *)
Lemma IsRunning_removes_a_stale_file_witness :
  (IsRunning Examples.serverPID Examples.twoDaysLater).1 = false
  /\ files (IsRunning Examples.serverPID Examples.twoDaysLater).2
     = delete (pidFile Examples.serverPID) (files Examples.twoDaysLater).
Proof.
  destruct (IsRunning_removes_a_stale_file Examples.serverPID Examples.twoDaysLater
              {| content := String.append "4242" (String newline "1767225600");
                 modTime := 1767225600 * second |})
    as (Hfalse & Hremoved & _).
  - reflexivity.
  - vm_compute. reflexivity.
  - split; [exact Hfalse|]. apply Hremoved. apply not_elem_of_empty.
Defined.

(** An instance: the server of the examples, alive, on a system with a
    proc file system, has written its PID file, and is not found
    running. *)
Lemma IsRunning_reads_ticks_as_seconds_witness :
  IsRunning (CreatePIDFile Examples.serverPID Examples.serverWorld).1.2
    (CreatePIDFile Examples.serverPID Examples.serverWorld).2
  = (false, (CreatePIDFile Examples.serverPID Examples.serverWorld).2)
  /\ isProcessRunningUnix (CreatePIDFile Examples.serverPID Examples.serverWorld).2 4242
     = true.
Proof.
  split; [|reflexivity].
  apply (IsRunning_reads_ticks_as_seconds Examples.serverPID _ Examples.serverWorld _
           Examples.serverStat 123456).
  - vm_compute. split; discriminate.
  - reflexivity.
  - discriminate.
  - discriminate.
  - reflexivity.
  - apply not_elem_of_empty.
  - vm_compute. lia.
  - reflexivity.
  - vm_compute. discriminate.
Defined.

End PidFile.
